(** * DigBiz3 AI engine: scoring, prediction and the market-trends cache

    A shallow embedding of [ai-engine/app.py]: the compatibility engine
    ([AdvancedMatchingEngine]), the market intelligence service
    ([MarketIntelligenceEngine]) and the deal outcome predictor
    ([DealSuccessPredictor]).

    Conventions of the embedding.
    - Python numbers (int and float alike) are exact rationals [Q]; the
      rounding of binary floating point is not modelled.  Division by
      zero raises, as in Python.  A number is finite: the infinities and
      NaN, which the JSON parser also accepts, have no counterpart, and
      neither has the OverflowError of a division whose integer operand
      or result is beyond the floats.  Statements that depend on it say
      so: they are about finite numbers, or about numbers within
      [WellFormed.float_max].
    - Python [str] is [string], a sequence of bytes, which stands for an
      ASCII text: [lower], [split] and [len] act on the ASCII range.
      [UnicodeText] has the texts of code points, with the case mapping
      and the white space of the interpreter as variables.
    - A JSON object is a finite map from keys to dynamically typed values
      ([pyval]); operations that Python rejects for a type raise.
    - Code that may raise returns a [result]; [try: ... except Exception:
      ...] is [try_except].  Shared state (the trends cache, the
      predictor, NumPy's global generator) is passed explicitly, and
      what was written before a raise persists.
    - The NLP library, the random number generator and the regression
      estimator are external: they are variables of a section. *)

From Stdlib Require Import QArith Qminmax Qround Lqa ZArith Lia Ascii String Floats.
From stdpp Require Import base option list sorting gmap sets strings.

Local Open Scope Q_scope.
Local Open Scope string_scope.

(** ** Python strings *)

Module PyStr.

(** [str.lower] on the ASCII range: A-Z (65..90) go to a-z. *)
Definition lower_ascii (c : ascii) : ascii :=
  let n := nat_of_ascii c in
  if (Nat.leb 65 n && Nat.leb n 90)%bool then ascii_of_nat (n + 32) else c.

Fixpoint lower (s : string) : string :=
  match s with
  | EmptyString => EmptyString
  | String c s' => String (lower_ascii c) (lower s')
  end.

(** [str.isspace] for one ASCII character: tab, line feed, vertical tab,
    form feed, carriage return, the four separators 28..31 and space. *)
Definition is_space (c : ascii) : bool :=
  let n := nat_of_ascii c in
  ((Nat.leb 9 n && Nat.leb n 13) || (Nat.leb 28 n && Nat.leb n 32))%bool.

(** [s.startswith(p)] *)
Fixpoint starts_with (p s : string) : bool :=
  match p, s with
  | EmptyString, _ => true
  | String _ _, EmptyString => false
  | String a p', String b s' =>
      if Ascii.eqb a b then starts_with p' s' else false
  end.

(** [p in s] for strings: [p] occurs as a contiguous substring of [s]. *)
Fixpoint contains (p s : string) : bool :=
  (starts_with p s ||
   match s with
   | EmptyString => false
   | String _ s' => contains p s'
   end)%bool.

(** [s.split()]: maximal runs of non-whitespace characters, in order. *)
Fixpoint split_aux (cur : string) (s : string) : list string :=
  match s with
  | EmptyString =>
      match cur with EmptyString => [] | _ => [String.rev cur] end
  | String c s' =>
      if is_space c
      then match cur with
           | EmptyString => split_aux EmptyString s'
           | _ => String.rev cur :: split_aux EmptyString s'
           end
      else split_aux (String c cur) s'
  end.

Definition split (s : string) : list string := split_aux EmptyString s.

(** [any(w in s for w in ws)] *)
Definition any_in (ws : list string) (s : string) : bool :=
  existsb (fun w => contains w s) ws.

End PyStr.

(** ** Dynamically typed values, exceptions *)

#[local] Set Warnings "-register-all".
Inductive pyval : Type :=
| PNone
| PBool (b : bool)
| PNum (q : Q)
| PStr (s : string)
| PList (l : list pyval)
| PDict (d : list (string * pyval)).

(** A JSON object received by the engine. *)
Abbreviation pydict := (gmap string pyval).

Inductive exn : Type :=
| ZeroDivisionError
| TypeError
| AttributeError
| LibraryError.

Inductive result (A : Type) : Type :=
| Ok (a : A)
| Raise (e : exn).
Arguments Ok {A} a.
Arguments Raise {A} e.

Definition rbind {A B} (m : result A) (k : A -> result B) : result B :=
  match m with
  | Ok a => k a
  | Raise e => Raise e
  end.

#[global] Instance result_ret : MRet result := fun A a => Ok a.
#[global] Instance result_bind : MBind result := fun A B k m => rbind m k.

(** [try: body  except Exception: return handler] for a body without
    effects on shared state. *)
Definition try_except {A} (body : result A) (handler : A) : A :=
  match body with
  | Ok a => a
  | Raise _ => handler
  end.

(** [d.get(key, default)] *)
Definition get (d : pydict) (key : string) (default : pyval) : pyval :=
  match d !! key with
  | Some v => v
  | None => default
  end.

(** Truth value of an object ([if x:], [not x]). *)
Definition truthy (v : pyval) : bool :=
  match v with
  | PNone => false
  | PBool b => b
  | PNum q => negb (Qeq_bool q 0)
  | PStr s => negb (String.eqb s "")
  | PList l => match l with [] => false | _ => true end
  | PDict d => match d with [] => false | _ => true end
  end.

(** The numeric value of an operand of an arithmetic operator; [bool] is
    a subtype of [int] in Python.  Other types make the operator raise. *)
Definition as_num (v : pyval) : result Q :=
  match v with
  | PNum q => Ok q
  | PBool b => Ok (if b then 1 else 0)
  | _ => Raise TypeError
  end.

(** [v.lower()]: only [str] has the method. *)
Definition py_lower (v : pyval) : result string :=
  match v with
  | PStr s => Ok (PyStr.lower s)
  | _ => Raise AttributeError
  end.

(** [a / b] on numbers. *)
Definition py_div (a b : Q) : result Q :=
  if Qeq_bool b 0 then Raise ZeroDivisionError else Ok (a / b).

(** [max(a, b)] and [min(a, b)] on numbers: the first argument is kept
    unless the second is strictly better. *)
Definition py_max (a b : Q) : Q := if Qlt_le_dec a b then b else a.
Definition py_min (a b : Q) : Q := if Qlt_le_dec b a then b else a.

(** [v == s] for a string literal [s]. *)
Definition eq_str (v : pyval) (s : string) : bool :=
  match v with
  | PStr t => String.eqb t s
  | _ => false
  end.

(** [v == 0] *)
Definition eq_zero (v : pyval) : bool :=
  match v with
  | PNum q => Qeq_bool q 0
  | PBool b => negb b
  | _ => false
  end.

(** ** Compatibility engine *)

Module AdvancedMatchingEngine.

(** [_extract_seniority_level] *)
Definition _extract_seniority_level (title : pyval) : result Z :=
  title_lower ← py_lower title;
  if PyStr.any_in ["ceo"; "founder"; "president"; "owner"] title_lower
  then Ok 5%Z
  else if PyStr.any_in ["director"; "vp"; "vice president"; "head"] title_lower
  then Ok 4%Z
  else if PyStr.any_in ["manager"; "lead"; "principal"] title_lower
  then Ok 3%Z
  else if PyStr.any_in ["senior"; "sr"] title_lower
  then Ok 2%Z
  else Ok 1%Z.

(** [_calculate_title_synergy] *)
Definition _calculate_title_synergy (title1 title2 : pyval) : result Q :=
  seniority1 ← _extract_seniority_level title1;
  seniority2 ← _extract_seniority_level title2;
  let level_diff := Z.abs (seniority1 - seniority2) in
  if ((1 <=? level_diff)%Z && (level_diff <=? 2)%Z)%bool then Ok 0.8
  else if (level_diff =? 0)%Z then Ok 0.6
  else Ok 0.4.

(** [_calculate_location_proximity] *)
Definition _calculate_location_proximity (loc1 loc2 : pyval) : result Q :=
  if (negb (truthy loc1) || negb (truthy loc2))%bool then Ok 0.5
  else
    l1 ← py_lower loc1;
    l2 ← py_lower loc2;
    if String.eqb l1 l2 then Ok 1.0
    else
      (* the generator calls loc2.lower() once per word of loc1 *)
      if PyStr.any_in (PyStr.split l1) l2 then Ok 0.8
      else Ok 0.3.


(** The nested dictionary literal of [_calculate_industry_compatibility]. *)
Definition compatibility_rows : list (string * list (string * Q)) :=
  [ ("technology",
      [("finance", 0.8); ("healthcare", 0.7); ("technology", 0.9); ("marketing", 0.75)]);
    ("finance",
      [("technology", 0.8); ("real-estate", 0.9); ("finance", 0.6); ("consulting", 0.85)]);
    ("healthcare",
      [("technology", 0.7); ("pharmaceuticals", 0.9); ("healthcare", 0.5); ("research", 0.8)]);
    ("marketing",
      [("technology", 0.75); ("retail", 0.8); ("media", 0.9); ("marketing", 0.6)]);
    ("consulting",
      [("finance", 0.85); ("technology", 0.75); ("healthcare", 0.7); ("consulting", 0.5)]) ].

Definition compatibility_matrix : gmap string (gmap string Q) :=
  list_to_map (prod_map id list_to_map <$> compatibility_rows).

(** [_calculate_industry_compatibility] *)
Definition _calculate_industry_compatibility (industry1 industry2 : pyval)
  : result Q :=
  industry1_lower ← py_lower industry1;
  industry2_lower ← py_lower industry2;
  Ok (default 0.5 (default ∅ (compatibility_matrix !! industry1_lower)
                     !! industry2_lower)).

(** [min(a, b) / max(a, b)] on two JSON values.  Two numbers are
    compared and divided; for every other pair of JSON types Python
    raises [TypeError], in [min], in [max] or in the division. *)
Definition min_over_max (a b : pyval) : result Q :=
  x ← as_num a;
  y ← as_num b;
  py_div (py_min x y) (py_max x y).

(** [_calculate_network_value_compatibility] *)
Definition _calculate_network_value_compatibility (value1 value2 : pyval)
  : result Q :=
  if (eq_zero value1 || eq_zero value2)%bool then Ok 0.3
  else
    ratio ← min_over_max value1 value2;
    Ok (ratio * 0.8 + 0.2).

(** The dictionary built by [_extract_matching_features]. *)
Record matching_features : Type := {
  industry_match : Q;
  seniority_diff : Z;
  network_value_ratio : Q
}.

(** [_extract_matching_features] *)
Definition _extract_matching_features (user1 user2 : pydict)
  : result matching_features :=
  im ← _calculate_industry_compatibility
         (get user1 "industry" (PStr "")) (get user2 "industry" (PStr ""));
  s1 ← _extract_seniority_level (get user1 "title" (PStr ""));
  s2 ← _extract_seniority_level (get user2 "title" (PStr ""));
  r ← min_over_max (get user1 "networkValue" (PNum 1))
                   (get user2 "networkValue" (PNum 1));
  Ok {| industry_match := im;
        seniority_diff := Z.abs (s1 - s2);
        network_value_ratio := r |}.

(** [_analyze_meeting_context] *)
Definition _analyze_meeting_context (context : pydict) : Q :=
  let context_type := get context "type" (PStr "business") in
  let location := get context "location" (PStr "office") in
  let timing := get context "timing" (PStr "business_hours") in
  let score := 0.5 in
  let score :=
    if existsb (eq_str context_type) ["business"; "networking"]
    then score + 0.2 else score in
  let score :=
    if existsb (eq_str location) ["office"; "conference"; "coffee_shop"]
    then score + 0.15 else score in
  let score :=
    if eq_str timing "business_hours" then score + 0.15 else score in
  py_min score 1.0.

Section WithNLP.

(** TextBlob's noun phrase extraction, an external library: the noun
    phrases of a text, or an exception (a missing corpus, say). *)
Variable noun_phrases : string -> result (list string).

(** [TextBlob(text)]: the constructor rejects what is not a string. *)
Definition TextBlob (text : pyval) : result string :=
  match text with
  | PStr s => Ok s
  | _ => Raise TypeError
  end.

(** [set([word.lower() for word in blob.noun_phrases])] *)
Definition keywords (blob : string) : result (gset string) :=
  nps ← noun_phrases blob;
  Ok (list_to_set (PyStr.lower <$> nps)).

(** [_calculate_bio_similarity]; its own [try] absorbs every
    exception, so the function always returns a number. *)
Definition _calculate_bio_similarity (bio1 bio2 : pyval) : Q :=
  if (negb (truthy bio1) || negb (truthy bio2))%bool then 0.5
  else
    try_except
      (blob1 ← TextBlob bio1;
       blob2 ← TextBlob bio2;
       keywords1 ← keywords blob1;
       keywords2 ← keywords blob2;
       if (bool_decide (keywords1 = ∅) || bool_decide (keywords2 = ∅))%bool
       then Ok 0.5
       else
         let intersection := size (keywords1 ∩ keywords2) in
         let union := size (keywords1 ∪ keywords2) in
         if (0 <? union)%nat
         then py_div (inject_Z (Z.of_nat intersection))
                     (inject_Z (Z.of_nat union))
         else Ok 0.0)
      0.5.

(** The body of the [try] of [calculate_match_score]. *)
Definition match_score_body (user1_data user2_data : pydict) : result Q :=
  features ← _extract_matching_features user1_data user2_data;
  industry_score ← _calculate_industry_compatibility
    (get user1_data "industry" (PStr "")) (get user2_data "industry" (PStr ""));
  title_score ← _calculate_title_synergy
    (get user1_data "title" (PStr "")) (get user2_data "title" (PStr ""));
  let bio_score := _calculate_bio_similarity
    (get user1_data "bio" (PStr "")) (get user2_data "bio" (PStr "")) in
  network_score ← _calculate_network_value_compatibility
    (get user1_data "networkValue" (PNum 0)) (get user2_data "networkValue" (PNum 0));
  location_score ← _calculate_location_proximity
    (get user1_data "location" (PStr "")) (get user2_data "location" (PStr ""));
  let match_score :=
    (industry_score * 0.25 +
     title_score * 0.20 +
     bio_score * 0.20 +
     network_score * 0.15 +
     location_score * 0.20) * 100 in
  Ok (py_min (py_max match_score 0) 100).

(** [calculate_match_score] *)
Definition calculate_match_score (user1_data user2_data : pydict) : Q :=
  try_except (match_score_body user1_data user2_data) 0.0.

(** [if context:] for the optional argument: [None] and the empty
    dictionary are false. *)
Definition context_given (context : option pydict) : bool :=
  match context with
  | None => false
  | Some c => negb (bool_decide (c = ∅))
  end.

(** The context score of [predict_meeting_success]: the default,
    replaced by the analysis when a context is given. *)
Definition meeting_context_score (context : option pydict) : Q :=
  let context_score := 0.7 in
  if context_given context
  then _analyze_meeting_context (default ∅ context)
  else context_score.

(** The body of the [try] of [predict_meeting_success]. *)
Definition meeting_success_body (user1_data user2_data : pydict)
    (context : option pydict) : result Q :=
  compatibility ← py_div (calculate_match_score user1_data user2_data) 100;
  let context_score := meeting_context_score context in
  r1 ← as_num (get user1_data "reputation" (PNum 50));
  reputation1 ← py_div r1 100;
  r2 ← as_num (get user2_data "reputation" (PNum 50));
  reputation2 ← py_div r2 100;
  avg_reputation ← py_div (reputation1 + reputation2) 2;
  let historical_rate := 0.65 in
  let success_probability :=
    (compatibility * 0.4 +
     context_score * 0.25 +
     avg_reputation * 0.20 +
     historical_rate * 0.15) * 100 in
  Ok (py_min (py_max success_probability 0) 100).

(** [predict_meeting_success] *)
Definition predict_meeting_success (user1_data user2_data : pydict)
    (context : option pydict) : Q :=
  try_except (meeting_success_body user1_data user2_data context) 50.0.

End WithNLP.

End AdvancedMatchingEngine.

(** ** Process-wide collaborators

    The global NumPy generator and the scikit-learn estimator.  Both are
    external; the engine only sequences calls to them. *)

(** [list.sort(key=..., reverse=True)] and [sorted(..., reverse=True)]:
    a stable sort in descending order of the key. *)
Fixpoint insert_desc {A} (key : A -> Q) (x : A) (l : list A) : list A :=
  match l with
  | [] => [x]
  | y :: l' => if Qlt_le_dec (key x) (key y)
               then y :: insert_desc key x l'
               else x :: l
  end.

Definition sort_desc {A} (key : A -> Q) (l : list A) : list A :=
  foldr (insert_desc key) [] l.

(** A [datetime] is the number of microseconds since the epoch, a
    [timedelta] a number of microseconds. *)
Definition timedelta_hours (h : Z) : Z := (h * 3600 * 1000000)%Z.

(** ** Market intelligence service *)

Module MarketIntelligenceEngine.

Record growth : Type := { rate : Q; trajectory : string }.
Record competitor : Type :=
  { name : string; market_share : Q; threat_level : string }.
Record investment : Type :=
  { sector : string; potential : string; risk : string }.
Record demand : Type :=
  { short_term : string; long_term : string; factors : option (list string) }.
Record pricing : Type := { strategy : string; impact : string }.

(** The dictionary returned by [analyze_market_trends].  The default
    bundle has no [priceOptimization] and no [lastUpdated] key. *)
Record trends : Type := {
  industryGrowth : growth;
  emergingTrends : list string;
  competitorAnalysis : list competitor;
  investmentOpportunities : list investment;
  marketDemand : demand;
  priceOptimization : option (list pricing);
  lastUpdated : option Z;
  confidence : Q
}.

Record cache_entry : Type := { data : trends; timestamp : Z }.

(** [self.trends_cache]; [self.cache_expiry] is assigned once, in
    [__init__], and is the constant below. *)
Abbreviation cache := (gmap string cache_entry).

Definition cache_expiry : Z := timedelta_hours 6.

Definition __init__ : cache := ∅.

(** [str(x)] inside an f-string, for a string or [None]. *)
Definition fmt (x : option string) : string :=
  match x with
  | Some s => s
  | None => "None"
  end.

(** [x.lower()] for a string or [None]. *)
Definition lower_of (x : option string) : result string :=
  match x with
  | Some s => Ok (PyStr.lower s)
  | None => Raise AttributeError
  end.

Definition growth_data : gmap string growth :=
  list_to_map
    [ ("technology", {| rate := 0.23; trajectory := "accelerating" |});
      ("finance", {| rate := 0.08; trajectory := "stable" |});
      ("healthcare", {| rate := 0.15; trajectory := "steady" |});
      ("marketing", {| rate := 0.12; trajectory := "evolving" |});
      ("consulting", {| rate := 0.06; trajectory := "mature" |}) ].

(** [_calculate_industry_growth] *)
Definition _calculate_industry_growth (industry : option string)
  : result growth :=
  key ← lower_of industry;
  Ok (default {| rate := 0.05; trajectory := "stable" |} (growth_data !! key)).

Definition trends_db : gmap string (list string) :=
  list_to_map
    [ ("technology", ["AI/ML adoption"; "Edge computing"; "Quantum computing"]);
      ("finance", ["DeFi growth"; "Digital banking"; "Regulatory tech"]);
      ("healthcare", ["Telemedicine"; "Precision medicine"; "Health AI"]);
      ("marketing",
        ["Influencer marketing"; "Privacy-first advertising"; "AR/VR experiences"]) ].

(** [_identify_emerging_trends] *)
Definition _identify_emerging_trends (industry : option string)
  : result (list string) :=
  key ← lower_of industry;
  Ok (default ["Digital transformation"; "Sustainability focus"]
        (trends_db !! key)).

(** [_analyze_competitors] *)
Definition _analyze_competitors (industry : option string) : list competitor :=
  [ {| name := "Market Leader"; market_share := 0.35; threat_level := "high" |};
    {| name := "Emerging Player"; market_share := 0.15; threat_level := "medium" |};
    {| name := "Niche Specialist"; market_share := 0.08; threat_level := "low" |} ].

(** [_identify_investment_opportunities] *)
Definition _identify_investment_opportunities (industry : option string)
  : list investment :=
  [ {| sector := fmt industry ++ " startups";
       potential := "high"; risk := "medium" |};
    {| sector := fmt industry ++ " infrastructure";
       potential := "medium"; risk := "low" |} ].

(** [_forecast_market_demand] *)
Definition _forecast_market_demand (industry : option string) : demand :=
  {| short_term := "increasing"; long_term := "strong";
     factors := Some ["digital transformation"; "remote work trends"] |}.

(** [_suggest_pricing_strategies] *)
Definition _suggest_pricing_strategies (industry : option string)
  : list pricing :=
  [ {| strategy := "Value-based pricing"; impact := "+15% revenue" |};
    {| strategy := "Dynamic pricing"; impact := "+8% efficiency" |} ].

(** [_get_default_trends] *)
Definition _get_default_trends : trends :=
  {| industryGrowth := {| rate := 0.05; trajectory := "stable" |};
     emergingTrends := ["Digital transformation"];
     competitorAnalysis := [];
     investmentOpportunities := [];
     marketDemand :=
       {| short_term := "stable"; long_term := "unknown"; factors := None |};
     priceOptimization := None;
     lastUpdated := None;
     confidence := 0.3 |}.

Section WithRandom.

(** The state of NumPy's global generator and
    [np.random.normal(loc, scale)]. *)
Variable rng : Type.
Variable np_random_normal : Q -> Q -> rng -> Q * rng.

(** The part of [analyze_market_trends] after the cache check: build
    the bundle and store it.  An exception leaves the cache and the
    generator as they were, since both are written last. *)
Definition refresh_trends (self : cache) (g : rng)
    (cache_key : string) (now : Z) (industry : option string)
  : result trends * cache * rng :=
  match
    ig ← _calculate_industry_growth industry;
    et ← _identify_emerging_trends industry;
    Ok (ig, et)
  with
  | Raise e => (Raise e, self, g)
  | Ok (ig, et) =>
      let '(jitter, g') := np_random_normal 0 0.05 g in
      let trends :=
        {| industryGrowth := ig;
           emergingTrends := et;
           competitorAnalysis := _analyze_competitors industry;
           investmentOpportunities := _identify_investment_opportunities industry;
           marketDemand := _forecast_market_demand industry;
           priceOptimization := Some (_suggest_pricing_strategies industry);
           lastUpdated := Some now;
           confidence := 0.85 + jitter |} in
      (Ok trends,
       <[cache_key := {| data := trends; timestamp := now |}]> self,
       g')
  end.

(** The body of the [try] of [analyze_market_trends]; [now] is the
    value read from the clock by [datetime.now()]. *)
Definition analyze_body (self : cache) (g : rng) (now : Z)
    (industry user_location : option string)
  : result trends * cache * rng :=
  let cache_key := fmt industry ++ "_" ++ fmt user_location in
  match self !! cache_key with
  | Some entry =>
      if (now - timestamp entry <? cache_expiry)%Z
      then (Ok (data entry), self, g)
      else refresh_trends self g cache_key now industry
  | None => refresh_trends self g cache_key now industry
  end.

(** [analyze_market_trends] *)
Definition analyze_market_trends (self : cache) (g : rng) (now : Z)
    (industry user_location : option string) : trends * cache * rng :=
  let '(r, self', g') := analyze_body self g now industry user_location in
  (try_except r _get_default_trends, self', g').

(** One call of [analyze_market_trends]: the clock reading and the two
    arguments. *)
Record call : Type := {
  call_time : Z;
  call_industry : option string;
  call_location : option string
}.

(** A sequence of calls to [analyze_market_trends], the results
    dropped. *)
Fixpoint run (self : cache) (g : rng) (calls : list call) : cache * rng :=
  match calls with
  | [] => (self, g)
  | c :: calls' =>
      let '(_, self', g') :=
        analyze_market_trends self g
          (call_time c) (call_industry c) (call_location c) in
      run self' g' calls'
  end.

End WithRandom.

Record opportunity : Type := {
  type : string;
  title : string;
  description : string;
  potential_value : string;
  opp_confidence : Q;
  timeline : string
}.

Definition ai_partnership : opportunity :=
  {| type := "partnership";
     title := "AI Integration Partnership";
     description := "Growing demand for AI solutions in traditional industries";
     potential_value := "$250K - $2M";
     opp_confidence := 0.78;
     timeline := "3-6 months" |}.

Definition healthcare_expansion : opportunity :=
  {| type := "market_expansion";
     title := "Healthcare Tech Expansion";
     description := "Digital health market growing 23% annually";
     potential_value := "$500K - $5M";
     opp_confidence := 0.85;
     timeline := "6-12 months" |}.

Definition angel_investment : opportunity :=
  {| type := "investment";
     title := "Angel Investment Opportunities";
     description := "Your network positions you well for early-stage investments";
     potential_value := "$50K - $500K investment rounds";
     opp_confidence := 0.72;
     timeline := "1-3 months" |}.

(** [v > n] for a number [n]: numbers are compared, other JSON types
    raise [TypeError]. *)
Definition py_gt (v : pyval) (n : Q) : result bool :=
  x ← as_num v;
  Ok (if Qlt_le_dec n x then true else false).

(** The body of the [try] of [predict_business_opportunities]. *)
Definition opportunities_body (user_profile : pydict)
  : result (list opportunity) :=
  let industry := get user_profile "industry" (PStr "") in
  let skills := get user_profile "bio" (PStr "") in
  let network_value := get user_profile "networkValue" (PNum 0) in
  let opportunities : list opportunity := [] in
  industry_lower ← py_lower industry;
  let opportunities :=
    if PyStr.contains "technology" industry_lower
    then (opportunities ++ [ai_partnership; healthcare_expansion])%list
    else opportunities in
  big_network ← py_gt network_value 10000;
  let opportunities :=
    if big_network : bool
    then (opportunities ++ [angel_investment])%list
    else opportunities in
  let opportunities := sort_desc opp_confidence opportunities in
  Ok (take 5 opportunities).

(** [predict_business_opportunities] *)
Definition predict_business_opportunities (user_profile : pydict)
  : list opportunity :=
  try_except (opportunities_body user_profile) [].

End MarketIntelligenceEngine.

(** ** Deal outcome predictor *)

Module DealSuccessPredictor.

(** One entry of [key_factors]. *)
Record factor : Type := {
  factor_name : string;
  importance : Q;
  current_value : Q;
  factor_impact : string
}.

(** The dictionary returned by [predict_deal_success]. *)
Record prediction : Type := {
  success_probability : Q;
  confidence : Q;
  key_factors : list factor;
  recommendations : list string
}.

(** [len(v)] *)
Definition py_len (v : pyval) : result Q :=
  match v with
  | PStr s => Ok (inject_Z (Z.of_nat (String.length s)))
  | PList l => Ok (inject_Z (Z.of_nat (length l)))
  | PDict d => Ok (inject_Z (Z.of_nat (length d)))
  | _ => Raise TypeError
  end.

(** [_extract_deal_features] *)
Definition _extract_deal_features (deal_data : pydict) : result (list Q) :=
  value ← as_num (get deal_data "value" (PNum 10000));
  f0 ← py_div value 1000000;
  n ← py_len (get deal_data "description" (PStr ""));
  f1 ← py_div n 1000;
  ms ← as_num (get deal_data "match_score" (PNum 50));
  f2 ← py_div ms 100;
  d ← py_lower (get deal_data "description" (PStr ""));
  let f3 := if PyStr.contains "urgent" d then 1 else 0 in
  dm ← as_num (get deal_data "duration_months" (PNum 6));
  f4 ← py_div dm 12;
  Ok [f0; f1; f2; f3; f4].

(** [_identify_key_factors] *)
Definition _identify_key_factors (features : list Q) : list factor :=
  let factor_names :=
    ["Deal Value"; "Description Detail"; "Partner Compatibility";
     "Urgency"; "Timeline"] in
  let feature_importance := [0.2; 0.1; 0.4; 0.1; 0.2] in
  let factors :=
    omap (fun '(name, (importance, value)) =>
            if Qlt_le_dec 0.15 importance
            then Some {| factor_name := name;
                         importance := importance;
                         current_value := value;
                         factor_impact :=
                           if Qlt_le_dec 0.5 value
                           then "positive" else "negative" |}
            else None)
         (zip factor_names (zip feature_importance features)) in
  sort_desc importance factors.

(** [features[i]]; the vector always has five entries. *)
Definition feature (features : list Q) (i : nat) : Q := nth i features 0.

(** [_generate_recommendations] *)
Definition _generate_recommendations (features : list Q) (success_prob : Q)
  : list string :=
  let recommendations : list string := [] in
  let recommendations :=
    if Qlt_le_dec (feature features 2) 0.6
    then (recommendations ++
          ["Consider improving partner alignment through preliminary meetings"])%list
    else recommendations in
  let recommendations :=
    if Qlt_le_dec (feature features 1) 0.3
    then (recommendations ++
          ["Provide more detailed deal documentation to build trust"])%list
    else recommendations in
  let recommendations :=
    if Qlt_le_dec success_prob 0.5
    then (recommendations ++
          ["Consider risk mitigation strategies or deal restructuring"])%list
    else recommendations in
  let recommendations :=
    if Qlt_le_dec 0.8 (feature features 0)
    then (recommendations ++
          ["Implement milestone-based payment structure for large deals"])%list
    else recommendations in
  recommendations.

(** [np.clip(y, 0, 1)] on one entry. *)
Definition np_clip (lo hi y : Q) : Q := py_min (py_max y lo) hi.

Section WithEstimator.

(** NumPy's global generator: [np.random.seed], [np.random.rand(n, m)]
    (an [n] by [m] matrix, as a list of rows) and
    [np.random.normal(loc, scale, n)]. *)
Variable rng : Type.
Variable np_random_seed : Z -> rng.
Variable np_random_rand : nat -> nat -> rng -> list (list Q) * rng.
Variable np_random_normal : Q -> Q -> nat -> rng -> list Q * rng.

(** scikit-learn's [GradientBoostingRegressor]: the constructor, [fit]
    and [predict] on one row ([predict] may raise, on an estimator
    that was not fitted or on a value out of its range). *)
Variable estimator : Type.
Variable GradientBoostingRegressor : nat -> Z -> estimator.
Variable fit : estimator -> list (list Q) -> list Q -> estimator.
Variable predict : estimator -> list Q -> result Q.

(** The attributes of the predictor; [fits] is a ghost counter of the
    calls to [fit], which the source does not keep. *)
Record predictor : Type := {
  model : estimator;
  is_trained : bool;
  fits : nat
}.

Definition __init__ : predictor :=
  {| model := GradientBoostingRegressor 100 42;
     is_trained := false;
     fits := 0 |}.

(** The target of one synthetic sample: row [x] of [X] and its noise. *)
Definition synthetic_target (x : list Q) (noise : Q) : Q :=
  nth 0 x 0 * 0.2 +
  nth 2 x 0 * 0.4 +
  nth 3 x 0 * 0.1 +
  (1 - nth 4 x 0) * 0.2 +
  noise.

(** The data set of [_train_model]: [X], the clipped [y] and the
    generator afterwards. *)
Definition training_set : list (list Q) * list Q * rng :=
  let g := np_random_seed 42 in
  let n_samples := 1000%nat in
  let '(X, g) := np_random_rand n_samples 5 g in
  let '(noise, g) := np_random_normal 0 0.1 n_samples g in
  let y := zip_with synthetic_target X noise in
  let y := np_clip 0 1 <$> y in
  (X, y, g).

(** [_train_model]; the generator it is given is overwritten by the
    seeding. *)
Definition _train_model (self : predictor) (g : rng) : predictor * rng :=
  let '(X, y, g') := training_set in
  ({| model := fit (model self) X y;
      is_trained := true;
      fits := S (fits self) |}, g').

(** The body of the [try] of [predict_deal_success].  What
    [_train_model] wrote persists when [predict] raises afterwards. *)
Definition deal_success_body (self : predictor) (g : rng)
    (deal_data : pydict) : result prediction * predictor * rng :=
  match _extract_deal_features deal_data with
  | Raise e => (Raise e, self, g)
  | Ok features =>
      let '(self, g) :=
        if negb (is_trained self) then _train_model self g else (self, g) in
      match predict (model self) features with
      | Raise e => (Raise e, self, g)
      | Ok success_probability =>
          let success_probability :=
            py_max 0 (py_min 1 success_probability) in
          (Ok {| success_probability := success_probability * 100;
                 confidence := 0.82;
                 key_factors := _identify_key_factors features;
                 recommendations :=
                   _generate_recommendations features success_probability |},
           self, g)
      end
  end.

Definition default_prediction : prediction :=
  {| success_probability := 50.0;
     confidence := 0.3;
     key_factors := [];
     recommendations := [] |}.

(** [predict_deal_success] *)
Definition predict_deal_success (self : predictor) (g : rng)
    (deal_data : pydict) : prediction * predictor * rng :=
  let '(r, self', g') := deal_success_body self g deal_data in
  (try_except r default_prediction, self', g').

(** A sequence of calls to [predict_deal_success], the results
    dropped. *)
Fixpoint run (self : predictor) (g : rng) (deals : list pydict)
  : predictor * rng :=
  match deals with
  | [] => (self, g)
  | d :: deals' =>
      let '(_, self', g') := predict_deal_success self g d in
      run self' g' deals'
  end.

End WithEstimator.

Arguments model {estimator} _.
Arguments is_trained {estimator} _.
Arguments fits {estimator} _.

End DealSuccessPredictor.

(** ** The HTTP handlers

    Each handler is a function of the parsed request: the JSON body
    ([request.get_json()]) or the query parameters ([request.args]),
    and of the clock readings it takes.  The response is the
    dictionary given to [jsonify], or an error with its status. *)

Module Routes.

(** A JSON object as the dictionary it denotes. *)
Definition dict_of (items : list (string * pyval)) : pydict := list_to_map items.

(** The receiver of [v.get(...)]: only a dictionary has the method. *)
Definition as_dict (v : pyval) : result pydict :=
  match v with
  | PDict items => Ok (dict_of items)
  | _ => Raise AttributeError
  end.

(** [v.get(key, default)] on a JSON value. *)
Definition py_get (v : pyval) (key : string) (default : pyval) : result pyval :=
  d ← as_dict v;
  Ok (get d key default).

(** [a >= b] on numbers. *)
Definition py_ge (a b : Q) : bool := if Qlt_le_dec a b then false else true.

(** [round(x, ndigits)]: to the nearest multiple of [10 ** -ndigits],
    a tie going to the even one. *)
Definition py_round (x : Q) (ndigits : nat) : Q :=
  let scale := inject_Z (10 ^ Z.of_nat ndigits) in
  let y := x * scale in
  let below := Qfloor y in
  let rest := y - inject_Z below in
  let nearest :=
    if Qlt_le_dec rest (1 # 2) then below
    else if Qlt_le_dec (1 # 2) rest then (below + 1)%Z
    else if Z.even below then below else (below + 1)%Z in
  inject_Z nearest / scale.

(** A response: the payload with status 200, or an error message with
    its status. *)
Inductive response (A : Type) : Type :=
| Success (payload : A)
| Failure (status : Z) (error : string).
Arguments Success {A} payload.
Arguments Failure {A} status error.

(** The label of a match score. *)
Definition compatibility_level (match_score : Q) : string :=
  if py_ge match_score 80 then "Excellent"
  else if py_ge match_score 70 then "Very Good"
  else if py_ge match_score 60 then "Good"
  else if py_ge match_score 40 then "Fair"
  else "Poor".

(** The recommendation for a match score. *)
Definition match_recommendation (match_score : Q) : string :=
  if py_ge match_score 75 then "Highly recommended connection"
  else if py_ge match_score 60 then "Promising networking opportunity"
  else if py_ge match_score 40 then "Consider context before connecting"
  else "Low compatibility - proceed with caution".

(** The grade of a meeting success probability. *)
Definition meeting_grade (success_prob : Q) : string :=
  if py_ge success_prob 85 then "A+"
  else if py_ge success_prob 75 then "A"
  else if py_ge success_prob 65 then "B+"
  else if py_ge success_prob 55 then "B"
  else "C".

(** The risk level and the recommended action of a deal. *)
Definition risk_level (success_probability : Q) : string :=
  if py_ge success_probability 70 then "Low"
  else if py_ge success_probability 50 then "Medium"
  else "High".

Definition recommended_action (success_probability : Q) : string :=
  if py_ge success_probability 70 then "Proceed with confidence"
  else if py_ge success_probability 50 then "Proceed with standard precautions"
  else "Consider additional risk mitigation".

Record match_payload : Type := {
  match_score : Q;
  compatibility : string;
  recommendation : string
}.

Record meeting_payload : Type := {
  meeting_success_probability : Q;
  meeting_confidence : Q;
  grade : string;
  meeting_recommendations : list string
}.

Record deal_payload : Type := {
  prediction : DealSuccessPredictor.prediction;
  risk : string;
  action : string
}.

Record opportunities_payload : Type := {
  opportunities : list MarketIntelligenceEngine.opportunity;
  total_count : nat;
  generated_at : Z;
  next_refresh : Z
}.

Record trends_payload : Type := {
  trends_industry : string;
  trends_location : option string;
  trends_data : MarketIntelligenceEngine.trends;
  trends_generated_at : Z
}.

Section WithServices.

Variable noun_phrases : string -> result (list string).
Variable rng : Type.
Variable np_random_normal : Q -> Q -> rng -> Q * rng.
Variable np_random_seed : Z -> rng.
Variable np_random_rand : nat -> nat -> rng -> list (list Q) * rng.
Variable np_random_normal_n : Q -> Q -> nat -> rng -> list Q * rng.
Variable estimator : Type.
Variable fit : estimator -> list (list Q) -> list Q -> estimator.
Variable predict : estimator -> list Q -> result Q.

(** [calculate_match_score] called with two JSON values: every [.get]
    on a value that is not a dictionary raises inside the [try]. *)
Definition calculate_match_score (user1_data user2_data : pyval) : Q :=
  try_except
    (user1 ← as_dict user1_data;
     user2 ← as_dict user2_data;
     AdvancedMatchingEngine.match_score_body noun_phrases user1 user2)
    0.0.

(** [predict_meeting_success] called with three JSON values. *)
Definition predict_meeting_success (user1_data user2_data context : pyval) : Q :=
  try_except
    (compatibility ← py_div (calculate_match_score user1_data user2_data) 100;
     let context_score := 0.7 in
     context_score ←
       (if truthy context
        then c ← as_dict context;
             Ok (AdvancedMatchingEngine._analyze_meeting_context c)
        else Ok context_score);
     user1 ← as_dict user1_data;
     r1 ← as_num (get user1 "reputation" (PNum 50));
     reputation1 ← py_div r1 100;
     user2 ← as_dict user2_data;
     r2 ← as_num (get user2 "reputation" (PNum 50));
     reputation2 ← py_div r2 100;
     avg_reputation ← py_div (reputation1 + reputation2) 2;
     let historical_rate := 0.65 in
     let success_probability :=
       (compatibility * 0.4 +
        context_score * 0.25 +
        avg_reputation * 0.20 +
        historical_rate * 0.15) * 100 in
     Ok (py_min (py_max success_probability 0) 100))
    50.0.

(** [predict_deal_success] called with a JSON value. *)
Definition predict_deal_success
    (self : DealSuccessPredictor.predictor estimator) (g : rng)
    (deal_data : pyval)
  : DealSuccessPredictor.prediction * DealSuccessPredictor.predictor estimator
    * rng :=
  match as_dict deal_data with
  | Ok deal =>
      DealSuccessPredictor.predict_deal_success rng np_random_seed
        np_random_rand np_random_normal_n estimator fit predict self g deal
  | Raise _ => (DealSuccessPredictor.default_prediction, self, g)
  end.

(** [predict_business_opportunities] called with a JSON value. *)
Definition predict_business_opportunities (user_profile : pyval)
  : list MarketIntelligenceEngine.opportunity :=
  try_except
    (profile ← as_dict user_profile;
     MarketIntelligenceEngine.opportunities_body profile)
    [].

(** [POST /match] *)
Definition calculate_match (data : pyval) : response match_payload :=
  try_except
    (user1 ← py_get data "user1" (PDict []);
     user2 ← py_get data "user2" (PDict []);
     if (negb (truthy user1) || negb (truthy user2))%bool
     then Ok (Failure 400 "Both user1 and user2 data required")
     else
       let match_score := calculate_match_score user1 user2 in
       Ok (Success
             {| match_score := py_round match_score 2;
                compatibility := compatibility_level match_score;
                recommendation := match_recommendation match_score |}))
    (Failure 500 "Internal server error").

(** [POST /predict-meeting] *)
Definition predict_meeting (data : pyval) : response meeting_payload :=
  try_except
    (user1 ← py_get data "user1" (PDict []);
     user2 ← py_get data "user2" (PDict []);
     context ← py_get data "context" (PDict []);
     let success_prob := predict_meeting_success user1 user2 context in
     Ok (Success
           {| meeting_success_probability := py_round success_prob 1;
              meeting_confidence := 87.5;
              grade := meeting_grade success_prob;
              meeting_recommendations :=
                [ "Schedule during optimal business hours (10-11 AM)";
                  "Meet in professional environment (office/conference room)";
                  "Prepare specific collaboration proposals";
                  "Research common industry interests beforehand" ] |}))
    (Failure 500 "Internal server error").

(** [GET /market-trends]; the two arguments are the query parameters
    [industry] and [location], [now] and [generated] the two clock
    readings. *)
Definition get_market_trends
    (self : MarketIntelligenceEngine.cache) (g : rng)
    (industry_arg location_arg : option string) (now generated : Z)
  : response trends_payload * MarketIntelligenceEngine.cache * rng :=
  let industry := default "technology" industry_arg in
  let location := location_arg in
  let '(trends, self', g') :=
    MarketIntelligenceEngine.analyze_market_trends rng np_random_normal
      self g now (Some industry) location in
  (try_except
     (Ok (Success {| trends_industry := industry;
                     trends_location := location;
                     trends_data := trends;
                     trends_generated_at := generated |}))
     (Failure 500 "Internal server error"),
   self', g').

(** [POST /predict-deal] *)
Definition predict_deal
    (self : DealSuccessPredictor.predictor estimator) (g : rng)
    (deal_data : pyval)
  : response deal_payload * DealSuccessPredictor.predictor estimator * rng :=
  let '(r, self', g') :=
    if negb (truthy deal_data)
    then (Ok (Failure 400 "Deal data required"), self, g)
    else
      let '(prediction, self', g') := predict_deal_success self g deal_data in
      let p := DealSuccessPredictor.success_probability prediction in
      (Ok (Success {| prediction := prediction;
                      risk := risk_level p;
                      action := recommended_action p |}), self', g') in
  (try_except r (Failure 500 "Internal server error"), self', g').

(** [POST /opportunities]; [generated] and [refreshed] are the two clock
    readings. *)
Definition generate_opportunities (user_profile : pyval) (generated refreshed : Z)
  : response opportunities_payload :=
  try_except
    (if negb (truthy user_profile)
     then Ok (Failure 400 "User profile required")
     else
       let opportunities := predict_business_opportunities user_profile in
       Ok (Success {| opportunities := opportunities;
                      total_count := length opportunities;
                      generated_at := generated;
                      next_refresh := (refreshed + timedelta_hours 24)%Z |}))
    (Failure 500 "Internal server error").

End WithServices.

End Routes.

(** * Texts of code points

    A Python [str] is a sequence of Unicode code points, and [str.lower]
    and [str.split] follow the Unicode database of the interpreter.
    Here a text is the list of its code points, and the two methods are
    variables; comparison and the substring test are those of
    sequences. *)

Module UnicodeText.

Abbreviation text := (list N).

(** [s.startswith(p)] *)
Fixpoint starts_with (p s : text) : bool :=
  match p, s with
  | [], _ => true
  | _ :: _, [] => false
  | a :: p', b :: s' => if N.eqb a b then starts_with p' s' else false
  end.

(** [p in s]: [p] occurs as a contiguous run of [s]. *)
Fixpoint contains (p s : text) : bool :=
  (starts_with p s ||
   match s with
   | [] => false
   | _ :: s' => contains p s'
   end)%bool.

Section WithUnicode.

(** [str.lower] and [str.split()]. *)
Variable str_lower : text -> text.
Variable str_split : text -> list text.

(** [_calculate_location_proximity] on two texts. *)
Definition _calculate_location_proximity (loc1 loc2 : text) : Q :=
  if (bool_decide (loc1 = []) || bool_decide (loc2 = []))%bool then 0.5
  else if bool_decide (str_lower loc1 = str_lower loc2) then 1.0
  else
    if existsb (fun word => contains word (str_lower loc2))
               (str_split (str_lower loc1))
    then 0.8
    else 0.3.

End WithUnicode.

(** The code points of an ASCII text held in a byte string, and back. *)
Definition points (s : string) : text :=
  N_of_ascii <$> list_ascii_of_string s.
Definition bytes (t : text) : string :=
  string_of_list_ascii (ascii_of_N <$> t).

(** The two methods on ASCII texts. *)
Definition ascii_lower (t : text) : text := points (PyStr.lower (bytes t)).
Definition ascii_split (t : text) : list text :=
  points <$> PyStr.split (bytes t).

End UnicodeText.

(** * Well-formed records

    The shape of the records the engine is meant for: text fields that
    are texts when present, numeric fields that are numbers when
    present. *)

Module WellFormed.

(** The field is absent or holds a text. *)
Definition text_field (record : pydict) (key : string) : Prop :=
  match record !! key with
  | Some v => exists s, v = PStr s
  | None => True
  end.

(** The field is absent or holds a number. *)
Definition numeric_field (record : pydict) (key : string) : Prop :=
  match record !! key with
  | Some v => exists x, as_num v = Ok x
  | None => True
  end.

(** The numeric value of a field, [d] when the field is absent or not
    a number. *)
Definition number_or (record : pydict) (key : string) (d : Q) : Q :=
  match record !! key with
  | Some v => match as_num v with Ok x => x | Raise _ => d end
  | None => d
  end.

(** A profile as the data model has it; the bio is left free, since
    [_calculate_bio_similarity] accepts anything. *)
Definition profile (p : pydict) : Prop :=
  text_field p "industry" /\ text_field p "title" /\
  text_field p "location" /\ numeric_field p "networkValue".

(** A deal record as the data model has it. *)
Definition deal (d : pydict) : Prop :=
  numeric_field d "value" /\ text_field d "description" /\
  numeric_field d "match_score" /\ numeric_field d "duration_months".

(** The largest finite float, (2 - 2^-52) * 2^1023.  Every integer of
    at most this magnitude converts to a float, and the quotient of two
    such integers is again within it, so that [/] raises on them for a
    zero divisor only. *)
Definition float_max : Q := inject_Z (2 ^ 1024 - 2 ^ 971).

Definition in_float_range (x : Q) : Prop := - float_max <= x <= float_max.

(** A profile whose network value, when it is a number, is not negative
    and within the floats. *)
Definition network_value_in_range (p : pydict) : Prop :=
  forall x, as_num (get p "networkValue" (PNum 0)) = Ok x -> 0 <= x <= float_max.

(** A deal whose numeric fields are within the floats. *)
Definition deal_in_range (d : pydict) : Prop :=
  in_float_range (number_or d "value" 10000) /\
  in_float_range (number_or d "match_score" 50) /\
  in_float_range (number_or d "duration_months" 6).

End WellFormed.

(** * Derived notions *)

Module Derived.

(** The cache key under which a call of [analyze_market_trends] reads
    and writes. *)
Definition key_of (industry user_location : option string) : string :=
  MarketIntelligenceEngine.fmt industry ++ "_"
  ++ MarketIntelligenceEngine.fmt user_location.

(** The four advisory texts of [_generate_recommendations], in the order
    of their tests. *)
Definition advice_alignment : string :=
  "Consider improving partner alignment through preliminary meetings".
Definition advice_documentation : string :=
  "Provide more detailed deal documentation to build trust".
Definition advice_risk : string :=
  "Consider risk mitigation strategies or deal restructuring".
Definition advice_milestones : string :=
  "Implement milestone-based payment structure for large deals".

End Derived.

(** * The statements of the specification

    Definitions that follow the words of the specification; the
    properties below compare them with the code. *)

Module Spec.

(** Seniority tiers: the keywords of each tier, highest tier first;
    titles that match none are tier 1. *)
Definition tier_keywords : list (Z * list string) :=
  [ (5%Z, ["ceo"; "founder"; "president"; "owner"]);
    (4%Z, ["director"; "vp"; "head"]);
    (3%Z, ["manager"; "lead"; "principal"]);
    (2%Z, ["senior"; "sr"]) ].

Fixpoint first_matching_tier (tiers : list (Z * list string)) (t : string) : Z :=
  match tiers with
  | [] => 1%Z
  | (tier, ws) :: tiers' =>
      if existsb (fun w => PyStr.contains w t) ws then tier
      else first_matching_tier tiers' t
  end.

Definition seniority_tier (title : string) : Z :=
  first_matching_tier tier_keywords (PyStr.lower title).

(** Synergy by tier difference: 0.8 for a difference of 1 or 2, 0.6
    for equal tiers, 0.4 otherwise. *)
Definition title_synergy (tier1 tier2 : Z) : Q :=
  let d := Z.abs (tier1 - tier2) in
  if bool_decide (d = 1 ∨ d = 2)%Z then 0.8
  else if bool_decide (tier1 = tier2) then 0.6
  else 0.4.

(** Location proximity as the specification words it: 0.5 when a
    location is empty, 1.0 on case-insensitive equality, 0.8 when one
    location occurs as a substring of the other, 0.3 otherwise. *)
Definition location_proximity (loc1 loc2 : string) : Q :=
  if bool_decide (loc1 = "" ∨ loc2 = "") then 0.5
  else if bool_decide (PyStr.lower loc1 = PyStr.lower loc2) then 1.0
  else if (PyStr.contains loc1 loc2 || PyStr.contains loc2 loc1)%bool then 0.8
  else 0.3.

(** A word of [loc1] (lower-cased, split at white space) occurs in
    [loc2] (lower-cased). *)
Definition word_of_first_in_second (loc1 loc2 : string) : Prop :=
  exists w pre post,
    In w (PyStr.split (PyStr.lower loc1)) /\
    PyStr.lower loc2 = (pre ++ w ++ post)%string.

(** The same for texts of code points, with the interpreter's [lower]
    and [split]. *)
Definition word_of_first_text_in_second
    (lower : UnicodeText.text -> UnicodeText.text)
    (split : UnicodeText.text -> list UnicodeText.text)
    (loc1 loc2 : UnicodeText.text) : Prop :=
  exists w pre post,
    In w (split (lower loc1)) /\
    lower loc2 = (pre ++ w ++ post)%list.

(** A value clamped to the interval from 0 to 100. *)
Definition clamp_0_100 (x : Q) : Q := Qmin 100 (Qmax 0 x).

(** The match score: the weighted sum of the five sub-scores, scaled by
    100 and clamped. *)
Definition match_score (industry title bio network location : Q) : Q :=
  clamp_0_100
    ((0.25 * industry + 0.20 * title + 0.20 * bio + 0.15 * network +
      0.20 * location) * 100).

(** A profile whose network value, when it is a number, is not
    negative (the data model of the specification). *)
Definition network_value_not_negative (profile : pydict) : Prop :=
  forall x, as_num (get profile "networkValue" (PNum 0)) = Ok x -> 0 <= x.

(** The value of a field of a context record is one of the names. *)
Definition is_one_of (names : list string) (v : pyval) : bool :=
  match v with
  | PStr s => bool_decide (s ∈ names)
  | _ => false
  end.

(** The context score: 0.7 when no context is supplied (none, or a
    record without fields); otherwise 0.5, plus 0.2 for a business or
    networking type, plus 0.15 for an office, conference or coffee shop
    location, plus 0.15 for a timing in business hours, capped at 1.0.
    A field the record lacks has its default: business, office,
    business_hours. *)
Definition context_score (context : option pydict) : Q :=
  match context with
  | None => 0.7
  | Some c =>
      if bool_decide (c = ∅) then 0.7
      else
        Qmin 1.0
          (0.5 +
           (if is_one_of ["business"; "networking"]
                 (default (PStr "business") (c !! "type"))
            then 0.2 else 0) +
           (if is_one_of ["office"; "conference"; "coffee_shop"]
                 (default (PStr "office") (c !! "location"))
            then 0.15 else 0) +
           (if is_one_of ["business_hours"]
                 (default (PStr "business_hours") (c !! "timing"))
            then 0.15 else 0))
  end.

(** The meeting success probability from the match score, the context
    score and the two reputations. *)
Definition meeting_success (match_score context_score rep_a rep_b : Q) : Q :=
  clamp_0_100
    (((match_score / 100) * 0.40 +
      context_score * 0.25 +
      ((rep_a + rep_b) / 2 / 100) * 0.20 +
      0.65 * 0.15) * 100).

(** The candidate opportunities of a profile with industry text
    [industry] and network value [network_value]: the two technology
    ones when the text holds "technology" (in any case), then the
    investment one when the network value exceeds 10000. *)
Definition opportunity_candidates (industry : string) (network_value : Q)
  : list MarketIntelligenceEngine.opportunity :=
  (if PyStr.contains "technology" (PyStr.lower industry)
   then [MarketIntelligenceEngine.ai_partnership;
         MarketIntelligenceEngine.healthcare_expansion]
   else []) ++
  (if Qlt_le_dec 10000 network_value
   then [MarketIntelligenceEngine.angel_investment]
   else []).

(** In descending order of confidence. *)
Definition by_confidence_desc (l : list MarketIntelligenceEngine.opportunity)
  : Prop :=
  StronglySorted
    (fun a b => MarketIntelligenceEngine.opp_confidence b <=
                MarketIntelligenceEngine.opp_confidence a) l.

(** The target of a synthetic training sample: the features combined
    with the coefficients 0.2 (value), 0.4 (match score), 0.1 (urgency)
    and 0.2 (inverse duration), plus noise, clipped to the interval
    from 0 to 1.  The description length has no coefficient. *)
Definition synthetic_success
    (value description_length match_score urgency duration noise : Q) : Q :=
  Qmin 1 (Qmax 0
    (0.2 * value + 0.4 * match_score + 0.1 * urgency +
     0.2 * (1 - duration) + noise)).

(** A cache in which every stored bundle carries the time of its
    entry. *)
Definition stamped (c : MarketIntelligenceEngine.cache) : Prop :=
  forall key entry,
    c !! key = Some entry ->
    MarketIntelligenceEngine.lastUpdated (MarketIntelligenceEngine.data entry)
    = Some (MarketIntelligenceEngine.timestamp entry).

End Spec.

(** * Sample inputs *)

Module Sample.

(** A stand-in for the noun phrase extraction: every word is a phrase. *)
Definition words_as_phrases (text : string) : result (list string) :=
  Ok (PyStr.split text).

(** A profile that only says [networkValue = 0]. *)
Definition zero_network : pydict := {[ "networkValue" := PNum 0 ]}.

Definition founder : pydict :=
  list_to_map
    [ ("industry", PStr "Technology"); ("title", PStr "CEO");
      ("bio", PStr "cloud platforms"); ("networkValue", PNum 500);
      ("location", PStr "Berlin"); ("reputation", PNum 90) ].

Definition manager : pydict :=
  list_to_map
    [ ("industry", PStr "technology"); ("title", PStr "Manager");
      ("bio", PStr "Cloud Platforms"); ("networkValue", PNum 500);
      ("location", PStr "berlin"); ("reputation", PNum 70) ].

(** Network values outside the data model. *)
Definition debtor1 : pydict := {[ "networkValue" := PNum (-1) ]}.
Definition debtor100 : pydict := {[ "networkValue" := PNum (-100) ]}.

(** A context record that gives none of the three fields. *)
Definition bare_context : pydict := {[ "notes" := PStr "first contact" ]}.

(** The profile of the specification's example. *)
Definition technologist : pydict :=
  list_to_map [ ("industry", PStr "technology"); ("networkValue", PNum 50000) ].

(** A stand-in for the random generator: the state counts the draws,
    every draw is 0.01. *)
Definition constant_normal (loc scale : Q) (g : nat) : Q * nat := (0.01, S g).

(** Stand-ins for NumPy's generator (the state counts the calls) and
    for the estimator (unfitted, or fitted to the mean of nothing in
    particular). *)
Definition toy_seed (seed : Z) : nat := 0%nat.
Definition toy_rand (n m : nat) (g : nat) : list (list Q) * nat :=
  (replicate n (replicate m 0.5), S g).
Definition toy_normal_n (loc scale : Q) (n : nat) (g : nat) : list Q * nat :=
  (replicate n 0.05, S g).
Definition toy_estimator (n_estimators : nat) (random_state : Z) : option Q :=
  None.
Definition toy_fit (e : option Q) (X : list (list Q)) (y : list Q) : option Q :=
  Some (nth 0 y 0).
Definition toy_predict (e : option Q) (x : list Q) : result Q :=
  match e with
  | Some v => if Qlt_le_dec 1000 (nth 0 x 0) then Raise LibraryError else Ok v
  | None => Raise LibraryError
  end.

(** The deal of the specification's example. *)
Definition urgent_deal : pydict :=
  list_to_map
    [ ("value", PNum 100000); ("description", PStr "urgent deal");
      ("match_score", PNum 85); ("duration_months", PNum 3) ].

(** Deals that make the prediction fail: a value that is a text, and a
    value beyond what the stand-in estimator accepts. *)
Definition mistyped_deal : pydict := {[ "value" := PStr "a lot" ]}.
Definition oversized_deal : pydict := {[ "value" := PNum 2000000000 ]}.

(** Profiles that make an operation fail: a reputation that is a
    text, an industry that is [null]. *)
Definition renowned : pydict := {[ "reputation" := PStr "high" ]}.
Definition no_industry : pydict := {[ "industry" := PNone ]}.

End Sample.

(** * Properties *)

(** ** Strings *)

Section StringFacts.

Import PyStr.

Lemma append_nil_l (s : string) : ("" ++ s)%string = s.
Proof. reflexivity. Qed.

Lemma append_cons (c : ascii) (s t : string) :
  (String c s ++ t)%string = String c (s ++ t)%string.
Proof. reflexivity. Qed.

Lemma append_assoc (a b c : string) :
  ((a ++ b) ++ c = a ++ (b ++ c))%string.
Proof.
  induction a as [|x a IH]; [reflexivity|].
  now rewrite !append_cons, IH.
Qed.

Lemma starts_with_spec p s :
  starts_with p s = true <-> exists post, s = (p ++ post)%string.
Proof.
  revert s; induction p as [|a p IH]; intros s.
  - split; [exists s; reflexivity | destruct s; reflexivity].
  - destruct s as [|b s]; cbn [starts_with].
    + split; [discriminate | intros [post H]; discriminate].
    + destruct (Ascii.eqb_spec a b) as [->|Hne].
      * rewrite IH. split; intros [post H]; exists post.
        -- now rewrite append_cons, H.
        -- rewrite append_cons in H. now injection H.
      * split; [discriminate|].
        intros [post H]. rewrite append_cons in H. injection H; congruence.
Qed.

(** [contains] decides the occurrence of a contiguous substring. *)
Lemma contains_spec p s :
  contains p s = true <-> exists pre post, s = (pre ++ p ++ post)%string.
Proof.
  induction s as [|c s IH].
  - cbn [contains]. rewrite orb_false_r, starts_with_spec. split.
    + intros [post H]. exists ""%string, post. exact H.
    + intros [pre [post H]].
      destruct pre; [exists post; exact H | discriminate].
  - cbn [contains]. rewrite orb_true_iff, starts_with_spec, IH. split.
    + intros [[post H] | [pre [post H]]].
      * exists ""%string, post. exact H.
      * exists (String c pre), post. now rewrite append_cons, H.
    + intros [pre [post H]]. destruct pre as [|c' pre].
      * left. exists post. exact H.
      * right. exists pre, post. rewrite append_cons in H. now injection H.
Qed.

(** A string that holds [p ++ q] holds [q]. *)
Lemma contains_app_r p q s :
  contains (p ++ q)%string s = true -> contains q s = true.
Proof.
  rewrite !contains_spec. intros [pre [post H]].
  exists (pre ++ p)%string, post.
  now rewrite H, !append_assoc.
Qed.

Lemma lower_app a b : lower (a ++ b)%string = (lower a ++ lower b)%string.
Proof.
  induction a as [|x a IH]; [reflexivity|].
  rewrite append_cons. cbn [lower]. now rewrite append_cons, IH.
Qed.

(** Lower-casing both sides keeps an occurrence. *)
Lemma contains_lower p s :
  contains p s = true -> contains (lower p) (lower s) = true.
Proof.
  rewrite !contains_spec. intros [pre [post ->]].
  exists (lower pre), (lower post). now rewrite !lower_app.
Qed.

Lemma any_in_spec ws s :
  any_in ws s = true <-> exists w, In w ws /\ contains w s = true.
Proof. unfold any_in. apply existsb_exists. Qed.

End StringFacts.

(** ** Seniority tiers and title synergy *)

Section Seniority.

Import AdvancedMatchingEngine.

(** Under tier 5 the keyword "vice president" of the source's tier 4
    list never decides: "president" has already matched. *)
Lemma vice_president_shadowed t :
  PyStr.any_in ["ceo"; "founder"; "president"; "owner"] t = false ->
  PyStr.any_in ["director"; "vp"; "vice president"; "head"] t =
  PyStr.any_in ["director"; "vp"; "head"] t.
Proof.
  unfold PyStr.any_in. cbn [existsb]. intros H5.
  assert (PyStr.contains "vice president" t = false) as ->.
  { destruct (PyStr.contains "vice president" t) eqn:E; [|reflexivity].
    apply (contains_app_r "vice " "president") in E.
    rewrite E in H5. rewrite !orb_true_r in H5. discriminate. }
  reflexivity.
Qed.

Lemma extract_seniority_level_spec (title : string) :
  _extract_seniority_level (PStr title) = Ok (Spec.seniority_tier title).
Proof.
  unfold _extract_seniority_level, Spec.seniority_tier.
  cbn [py_lower mbind result_bind rbind].
  set (t := PyStr.lower title).
  cbn [Spec.first_matching_tier Spec.tier_keywords].
  fold (PyStr.any_in ["ceo"; "founder"; "president"; "owner"] t).
  destruct (PyStr.any_in ["ceo"; "founder"; "president"; "owner"] t) eqn:H5;
    [reflexivity|].
  rewrite (vice_president_shadowed t H5).
  fold (PyStr.any_in ["director"; "vp"; "head"] t).
  destruct (PyStr.any_in ["director"; "vp"; "head"] t); [reflexivity|].
  fold (PyStr.any_in ["manager"; "lead"; "principal"] t).
  destruct (PyStr.any_in ["manager"; "lead"; "principal"] t); [reflexivity|].
  fold (PyStr.any_in ["senior"; "sr"] t).
  destruct (PyStr.any_in ["senior"; "sr"] t); reflexivity.
Qed.

Lemma seniority_tier_range title :
  (1 <= Spec.seniority_tier title <= 5)%Z.
Proof.
  unfold Spec.seniority_tier.
  cbn [Spec.first_matching_tier Spec.tier_keywords].
  repeat match goal with
         | |- context [if ?b then _ else _] => destruct b
         end; lia.
Qed.

Lemma title_synergy_spec (title1 title2 : string) :
  _calculate_title_synergy (PStr title1) (PStr title2) =
  Ok (Spec.title_synergy (Spec.seniority_tier title1)
                         (Spec.seniority_tier title2)).
Proof.
  unfold _calculate_title_synergy.
  rewrite !extract_seniority_level_spec.
  cbn [mbind result_bind rbind].
  unfold Spec.title_synergy.
  set (a := Spec.seniority_tier title1).
  set (b := Spec.seniority_tier title2).
  destruct (Z.leb_spec 1 (Z.abs (a - b)));
    destruct (Z.leb_spec (Z.abs (a - b)) 2);
    destruct (Z.eqb_spec (Z.abs (a - b)) 0);
    cbn [andb];
    repeat case_bool_decide; try reflexivity; lia.
Qed.

(** C5. A title is mapped to its seniority tier by keyword matching in
    descending tier order (5: ceo, founder, president, owner; 4:
    director, vp, head; 3: manager, lead, principal; 2: senior, sr; 1
    otherwise); "CEO", "Director", "Manager", "Senior Engineer" and
    "Engineer" are tiers 5, 4, 3, 2 and 1; the title synergy is 0.8
    when the tiers differ by 1 or 2, 0.6 when they are equal and 0.4
    otherwise. *)
Theorem seniority_tiers_and_title_synergy :
  (forall title : string,
      _extract_seniority_level (PStr title) = Ok (Spec.seniority_tier title)) /\
  (_extract_seniority_level (PStr "CEO") = Ok 5%Z /\
   _extract_seniority_level (PStr "Director") = Ok 4%Z /\
   _extract_seniority_level (PStr "Manager") = Ok 3%Z /\
   _extract_seniority_level (PStr "Senior Engineer") = Ok 2%Z /\
   _extract_seniority_level (PStr "Engineer") = Ok 1%Z) /\
  (forall title1 title2 : string,
      _calculate_title_synergy (PStr title1) (PStr title2) =
      Ok (Spec.title_synergy (Spec.seniority_tier title1)
                             (Spec.seniority_tier title2))).
Proof.
  split; [exact extract_seniority_level_spec|].
  split; [repeat split; vm_compute; reflexivity|].
  exact title_synergy_spec.
Qed.

End Seniority.

(** ** Location proximity *)

Section Location.

Import AdvancedMatchingEngine.

Lemma truthy_str (s : string) : truthy (PStr s) = negb (bool_decide (s = "")).
Proof.
  cbn [truthy]. f_equal.
  destruct (String.eqb_spec s ""); case_bool_decide; congruence.
Qed.

Lemma any_in_words loc1 loc2 :
  PyStr.any_in (PyStr.split (PyStr.lower loc1)) (PyStr.lower loc2) = true <->
  Spec.word_of_first_in_second loc1 loc2.
Proof.
  unfold Spec.word_of_first_in_second. rewrite any_in_spec. split.
  - intros [w [Hin Hc]]. apply contains_spec in Hc as [pre [post Hc]].
    exists w, pre, post. auto.
  - intros [w [pre [post [Hin Hc]]]]. exists w. split; [exact Hin|].
    apply contains_spec. exists pre, post. exact Hc.
Qed.

(** On ASCII texts, held in byte strings: the proximity is 0.5 when
    either is empty; otherwise 1.0 when they are equal up to case;
    otherwise 0.8 when a white-space separated word of the first,
    lower-cased, occurs as a substring of the second, lower-cased;
    otherwise 0.3. *)
Lemma location_proximity_by_words (loc1 loc2 : string) :
  let r := _calculate_location_proximity (PStr loc1) (PStr loc2) in
  (loc1 = "" \/ loc2 = "" -> r = Ok 0.5) /\
  (loc1 <> "" -> loc2 <> "" -> PyStr.lower loc1 = PyStr.lower loc2 ->
   r = Ok 1.0) /\
  (loc1 <> "" -> loc2 <> "" -> PyStr.lower loc1 <> PyStr.lower loc2 ->
   Spec.word_of_first_in_second loc1 loc2 -> r = Ok 0.8) /\
  (loc1 <> "" -> loc2 <> "" -> PyStr.lower loc1 <> PyStr.lower loc2 ->
   ~ Spec.word_of_first_in_second loc1 loc2 -> r = Ok 0.3).
Proof.
  cbv zeta. unfold _calculate_location_proximity.
  rewrite !truthy_str, !negb_involutive.
  cbn [py_lower mbind result_bind rbind].
  pose proof (any_in_words loc1 loc2) as Hw.
  destruct (PyStr.any_in (PyStr.split (PyStr.lower loc1)) (PyStr.lower loc2)).
  all: destruct (String.eqb_spec (PyStr.lower loc1) (PyStr.lower loc2)).
  all: repeat case_bool_decide; cbn [orb].
  all: repeat split; intros; try reflexivity; try congruence.
  all: try (exfalso; tauto).
  all: try (destruct Hw as [Hw1 Hw2];
            first [ now specialize (Hw2 ltac:(assumption)) | exfalso; auto ]).
Qed.

Lemma location_proximity_shared_word :
  _calculate_location_proximity (PStr "San Francisco") (PStr "francisco bay")
  = Ok 0.8.
Proof. vm_compute. reflexivity. Qed.

(** The unamended statement fails in both directions: "york" is a
    substring of "newyork", yet the score is 0.3, because "newyork" is
    one word and does not occur in "york"; and neither of "new jersey"
    and "new york" occurs in the other, yet the score is 0.8, because
    they share the word "new". *)
Lemma location_proximity_substring_counterexample :
  (_calculate_location_proximity (PStr "newyork") (PStr "york") = Ok 0.3 /\
   Spec.location_proximity "newyork" "york" = 0.8 /\
   ~ 0.3 == 0.8) /\
  (_calculate_location_proximity (PStr "new jersey") (PStr "new york") = Ok 0.8 /\
   Spec.location_proximity "new jersey" "new york" = 0.3 /\
   ~ 0.8 == 0.3).
Proof. repeat split; try (vm_compute; reflexivity); intros H; discriminate H. Qed.

End Location.

(** ** Location proximity on texts of code points *)

Section LocationOfTexts.

Import UnicodeText.

Lemma text_starts_with_spec (p s : text) :
  starts_with p s = true <-> exists post, s = (p ++ post)%list.
Proof.
  revert s. induction p as [|a p IH]; intros s; cbn [starts_with].
  - split; [eauto|reflexivity].
  - destruct s as [|b s].
    + split; [discriminate|]. intros [post H]. discriminate H.
    + destruct (N.eqb_spec a b) as [->|Hne].
      * rewrite IH. split; intros [post H]; exists post.
        -- now rewrite H.
        -- now injection H.
      * split; [discriminate|]. intros [post H]. injection H as H1 H2.
        congruence.
Qed.

Lemma text_contains_spec (p s : text) :
  contains p s = true <-> exists pre post, s = (pre ++ p ++ post)%list.
Proof.
  induction s as [|b s IH]; cbn [contains].
  - rewrite orb_false_r, text_starts_with_spec. split.
    + intros [post H]. exists [], post. exact H.
    + intros [pre [post H]]. destruct pre as [|c pre]; [|discriminate H].
      exists post. exact H.
  - rewrite orb_true_iff, text_starts_with_spec, IH. split.
    + intros [[post H] | [pre [post H]]].
      * exists [], post. exact H.
      * exists (b :: pre), post. now rewrite H.
    + intros [pre [post H]]. destruct pre as [|c pre].
      * left. exists post. exact H.
      * right. injection H as _ H. exists pre, post. exact H.
Qed.

Section WithUnicode.

Variable str_lower : text -> text.
Variable str_split : text -> list text.

Lemma any_word_in_text loc1 loc2 :
  existsb (fun word => contains word (str_lower loc2))
          (str_split (str_lower loc1)) = true <->
  Spec.word_of_first_text_in_second str_lower str_split loc1 loc2.
Proof.
  unfold Spec.word_of_first_text_in_second. rewrite existsb_exists. split.
  - intros [w [Hin Hc]]. apply text_contains_spec in Hc as [pre [post Hc]].
    exists w, pre, post. auto.
  - intros [w [pre [post [Hin Hc]]]]. exists w. split; [exact Hin|].
    apply text_contains_spec. exists pre, post. exact Hc.
Qed.

(** C6, amended.  On two location strings, of any characters, the
    proximity is 0.5 when either is empty; otherwise 1.0 when their
    lower-cased forms are equal; otherwise 0.8 when a white-space
    separated word of the first, lower-cased, occurs as a substring of
    the second, lower-cased (the test is directional); otherwise 0.3.
    Lower-casing and splitting are those of the interpreter. *)
Theorem location_proximity_of_texts (loc1 loc2 : text) :
  let r := _calculate_location_proximity str_lower str_split loc1 loc2 in
  (loc1 = [] \/ loc2 = [] -> r = 0.5) /\
  (loc1 <> [] -> loc2 <> [] -> str_lower loc1 = str_lower loc2 ->
   r = 1.0) /\
  (loc1 <> [] -> loc2 <> [] -> str_lower loc1 <> str_lower loc2 ->
   Spec.word_of_first_text_in_second str_lower str_split loc1 loc2 ->
   r = 0.8) /\
  (loc1 <> [] -> loc2 <> [] -> str_lower loc1 <> str_lower loc2 ->
   ~ Spec.word_of_first_text_in_second str_lower str_split loc1 loc2 ->
   r = 0.3).
Proof.
  cbv zeta. unfold _calculate_location_proximity.
  pose proof (any_word_in_text loc1 loc2) as Hw.
  destruct (existsb _ (str_split (str_lower loc1))).
  all: repeat case_bool_decide; cbn [orb].
  all: repeat split; intros; try reflexivity; try congruence.
  all: try (exfalso; tauto).
  all: try (destruct Hw as [Hw1 Hw2];
            first [ now specialize (Hw2 ltac:(assumption)) | exfalso; auto ]).
Qed.

(** Two spellings with one lower-cased form are one location, whatever
    their letters: a capital outside ASCII is lower-cased too. *)
Lemma location_proximity_same_lower_case (loc1 loc2 : text) :
  loc1 <> [] -> loc2 <> [] -> str_lower loc1 = str_lower loc2 ->
  _calculate_location_proximity str_lower str_split loc1 loc2 = 1.0.
Proof.
  intros H1 H2 He. unfold _calculate_location_proximity.
  repeat case_bool_decide; cbn [orb]; congruence.
Qed.

End WithUnicode.

(** The byte strings of the engine above are the ASCII texts. *)

Lemma bytes_points (s : string) : bytes (points s) = s.
Proof.
  induction s as [|c s IH]; [reflexivity|].
  change (bytes (points (String c s)))
    with (String (ascii_of_N (N_of_ascii c)) (bytes (points s))).
  now rewrite ascii_N_embedding, IH.
Qed.

Lemma points_inj (s t : string) : points s = points t <-> s = t.
Proof.
  split; [|now intros ->].
  intros H. apply (f_equal bytes) in H. now rewrite !bytes_points in H.
Qed.

Lemma points_cons (c : ascii) (s : string) :
  points (String c s) = N_of_ascii c :: points s.
Proof. reflexivity. Qed.

Lemma N_of_ascii_eqb (a b : ascii) :
  N.eqb (N_of_ascii a) (N_of_ascii b) = Ascii.eqb a b.
Proof.
  destruct (Ascii.eqb_spec a b) as [->|Hne].
  - apply N.eqb_refl.
  - apply N.eqb_neq. intros H. apply Hne.
    rewrite <- (ascii_N_embedding a), <- (ascii_N_embedding b). now rewrite H.
Qed.

Lemma starts_with_points (p s : string) :
  starts_with (points p) (points s) = PyStr.starts_with p s.
Proof.
  revert s. induction p as [|a p IH]; intros s; [reflexivity|].
  destruct s as [|b s]; [reflexivity|].
  rewrite !points_cons. cbn [starts_with PyStr.starts_with].
  rewrite N_of_ascii_eqb, IH. reflexivity.
Qed.

Lemma contains_points (p s : string) :
  contains (points p) (points s) = PyStr.contains p s.
Proof.
  induction s as [|b s IH].
  - cbn [contains PyStr.contains]. change (points "") with (@nil N).
    cbn [contains]. now rewrite <- (starts_with_points p "").
  - rewrite points_cons. cbn [contains PyStr.contains].
    rewrite <- points_cons, starts_with_points, IH. reflexivity.
Qed.

Lemma location_proximity_ascii_instance (loc1 loc2 : string) :
  AdvancedMatchingEngine._calculate_location_proximity (PStr loc1) (PStr loc2)
  = Ok (_calculate_location_proximity ascii_lower ascii_split
          (points loc1) (points loc2)).
Proof.
  unfold AdvancedMatchingEngine._calculate_location_proximity,
    _calculate_location_proximity, ascii_lower, ascii_split.
  rewrite !truthy_str, !negb_involutive, !bytes_points.
  cbn [py_lower mbind result_bind rbind].
  assert (forall s, bool_decide (points s = []) = bool_decide (s = "")) as Hnil.
  { intros s. apply bool_decide_ext. apply (points_inj s ""). }
  rewrite !Hnil.
  destruct (bool_decide (loc1 = "") || bool_decide (loc2 = ""))%bool;
    [reflexivity|].
  assert (bool_decide (points (PyStr.lower loc1) = points (PyStr.lower loc2))
          = String.eqb (PyStr.lower loc1) (PyStr.lower loc2)) as ->.
  { destruct (String.eqb_spec (PyStr.lower loc1) (PyStr.lower loc2)) as [->|Hne].
    - now apply bool_decide_eq_true.
    - apply bool_decide_eq_false. now rewrite points_inj. }
  destruct (String.eqb _ _); [reflexivity|].
  assert (existsb (fun word => contains word (points (PyStr.lower loc2)))
            (points <$> PyStr.split (PyStr.lower loc1))
          = PyStr.any_in (PyStr.split (PyStr.lower loc1)) (PyStr.lower loc2)) as ->.
  { unfold PyStr.any_in.
    induction (PyStr.split (PyStr.lower loc1)) as [|w ws IH]; [reflexivity|].
    cbn [fmap list_fmap existsb]. rewrite contains_points. f_equal. exact IH. }
  destruct (PyStr.any_in _ _); reflexivity.
Qed.

End LocationOfTexts.

Section LocationOfTextsExamples.

Import UnicodeText.

Lemma location_proximity_of_texts_witness :
  _calculate_location_proximity ascii_lower ascii_split
    (points "San Francisco") (points "francisco bay") = 0.8.
Proof.
  apply (location_proximity_of_texts ascii_lower ascii_split
           (points "San Francisco") (points "francisco bay")).
  - vm_compute. discriminate.
  - vm_compute. discriminate.
  - vm_compute. discriminate.
  - exists (points "francisco"), [], (points " bay").
    split; vm_compute; auto.
Defined.

End LocationOfTextsExamples.

(** ** Arithmetic of the scores *)

Section Arithmetic.

Lemma py_max_Qmax a b : py_max a b == Qmax a b.
Proof.
  unfold py_max. destruct (Qlt_le_dec a b) as [H|H].
  - symmetry. apply Q.max_r. lra.
  - symmetry. apply Q.max_l. exact H.
Qed.

Lemma py_min_Qmin a b : py_min a b == Qmin a b.
Proof.
  unfold py_min. destruct (Qlt_le_dec b a) as [H|H].
  - symmetry. apply Q.min_r. lra.
  - symmetry. apply Q.min_l. exact H.
Qed.

Lemma py_clamp_range x hi : 0 <= hi -> 0 <= py_min (py_max x 0) hi <= hi.
Proof.
  intros Hhi. unfold py_min, py_max.
  destruct (Qlt_le_dec x 0); destruct (Qlt_le_dec hi _); lra.
Qed.

Lemma py_clamp_le x hi bound :
  x <= bound -> 0 <= bound -> py_min (py_max x 0) hi <= bound.
Proof.
  intros Hx Hb. unfold py_min, py_max.
  destruct (Qlt_le_dec x 0); destruct (Qlt_le_dec hi _); lra.
Qed.

Lemma py_clamp_spec x : py_min (py_max x 0) 100 == Spec.clamp_0_100 x.
Proof.
  unfold Spec.clamp_0_100, py_min, py_max.
  destruct (Qlt_le_dec x 0) as [H|H].
  - destruct (Qlt_le_dec 100 0) as [H'|H']; [lra|].
    rewrite (Q.max_l 0 x) by lra. rewrite Q.min_r; lra.
  - rewrite (Q.max_r 0 x) by lra.
    destruct (Qlt_le_dec 100 x) as [H'|H'].
    + rewrite Q.min_l; lra.
    + rewrite Q.min_r; lra.
Qed.

Lemma py_div_Ok a b q : py_div a b = Ok q -> ~ b == 0 /\ q = a / b.
Proof.
  unfold py_div. destruct (Qeq_bool b 0) eqn:E; [discriminate|].
  intros [= <-]. split; [|reflexivity]. now apply Qeq_bool_neq.
Qed.

Lemma py_div_nonzero a b : ~ b == 0 -> py_div a b = Ok (a / b).
Proof.
  intros H. unfold py_div. destruct (Qeq_bool b 0) eqn:E; [|reflexivity].
  apply Qeq_bool_eq in E. contradiction.
Qed.

Lemma py_div_zero a b : b == 0 -> py_div a b = Raise ZeroDivisionError.
Proof.
  intros H. unfold py_div. now rewrite (Qeq_eq_bool _ _ H).
Qed.

(** A quotient of a part by the whole lies between 0 and 1. *)
Lemma ratio_range a b : 0 <= a -> a <= b -> 0 < b -> 0 <= a / b <= 1.
Proof.
  intros Ha Hab Hb. split.
  - apply Qle_shift_div_l; lra.
  - apply Qle_shift_div_r; lra.
Qed.

Lemma eq_zero_false v x : eq_zero v = false -> as_num v = Ok x -> ~ x == 0.
Proof.
  destruct v; cbn [eq_zero as_num]; try discriminate.
  - destruct b; [|discriminate]. intros _ [= <-]. lra.
  - intros E [= <-]. now apply Qeq_bool_neq.
Qed.

End Arithmetic.

(** ** Ranges of the five sub-scores *)

Section SubScores.

Import AdvancedMatchingEngine.

Lemma lookup_list_to_map_Forall {V} (P : V -> Prop) (l : list (string * V)) k v :
  Forall (fun kv => P kv.2) l ->
  (list_to_map l : gmap string V) !! k = Some v -> P v.
Proof.
  intros Hall Hk. apply elem_of_list_to_map_2 in Hk.
  rewrite Forall_forall in Hall. exact (Hall _ Hk).
Qed.

(** Every entry of the affinity table lies between 0.5 and 0.9. *)
Lemma compatibility_rows_range :
  Forall (fun row => Forall (fun kv => 0.5 <= kv.2 <= 0.9) row.2)
         compatibility_rows.
Proof.
  unfold compatibility_rows.
  repeat (apply Forall_cons; split); try apply Forall_nil;
    cbn [snd]; lra.
Qed.

Lemma industry_compatibility_range industry1 industry2 q :
  _calculate_industry_compatibility industry1 industry2 = Ok q ->
  0.5 <= q <= 0.9.
Proof.
  unfold _calculate_industry_compatibility.
  destruct industry1; try discriminate. destruct industry2; try discriminate.
  cbn [py_lower mbind result_bind rbind]. intros [= <-].
  destruct (compatibility_matrix !! PyStr.lower s) as [row|] eqn:Hrow;
    cbv [default from_option id].
  - destruct (row !! PyStr.lower s0) as [v|] eqn:Hv; [|lra].
    unfold compatibility_matrix in Hrow.
    apply elem_of_list_to_map_2, list_elem_of_fmap in Hrow
      as [[k r] [Heq Hin]].
    injection Heq as _ ->.
    pose proof compatibility_rows_range as Hall.
    rewrite Forall_forall in Hall. specialize (Hall _ Hin). cbn [snd] in Hall.
    exact (lookup_list_to_map_Forall (fun q => 0.5 <= q <= 0.9) r _ v Hall Hv).
  - rewrite lookup_empty. lra.
Qed.

Lemma title_synergy_range title1 title2 q :
  _calculate_title_synergy title1 title2 = Ok q -> 0.4 <= q <= 0.8.
Proof.
  unfold _calculate_title_synergy.
  destruct (_extract_seniority_level title1); [|discriminate].
  destruct (_extract_seniority_level title2); [|discriminate].
  cbn [mbind result_bind rbind].
  repeat match goal with
         | |- context [if ?b then _ else _] => destruct b
         end; intros [= <-]; lra.
Qed.

Lemma location_proximity_range loc1 loc2 q :
  _calculate_location_proximity loc1 loc2 = Ok q -> 0.3 <= q <= 1.
Proof.
  unfold _calculate_location_proximity.
  destruct (negb (truthy loc1) || negb (truthy loc2))%bool.
  - intros [= <-]. lra.
  - destruct (py_lower loc1); [|discriminate].
    destruct (py_lower loc2); [|discriminate].
    cbn [mbind result_bind rbind].
    repeat match goal with
           | |- context [if ?b then _ else _] => destruct b
           end; intros [= <-]; lra.
Qed.

Lemma py_min_le_max x y : py_min x y <= py_max x y.
Proof.
  unfold py_min, py_max.
  destruct (Qlt_le_dec y x); destruct (Qlt_le_dec x y); lra.
Qed.

(** With network values that are not negative the network sub-score
    lies between 0.2 and 1. *)
Lemma network_value_compatibility_range value1 value2 q :
  (forall x, as_num value1 = Ok x -> 0 <= x) ->
  (forall y, as_num value2 = Ok y -> 0 <= y) ->
  _calculate_network_value_compatibility value1 value2 = Ok q ->
  0.2 <= q <= 1.
Proof.
  intros H1 H2. unfold _calculate_network_value_compatibility.
  destruct (eq_zero value1) eqn:E1; [intros [= <-]; lra|].
  destruct (eq_zero value2) eqn:E2; [intros [= <-]; lra|].
  cbn [orb]. unfold min_over_max.
  destruct (as_num value1) as [x|] eqn:Hx; [|discriminate].
  destruct (as_num value2) as [y|] eqn:Hy; [|discriminate].
  cbn [mbind result_bind rbind].
  destruct (py_div (py_min x y) (py_max x y)) as [r|] eqn:Hr; [|discriminate].
  intros [= <-].
  apply py_div_Ok in Hr as [Hnz ->].
  pose proof (eq_zero_false _ _ E1 Hx) as Hx0.
  pose proof (eq_zero_false _ _ E2 Hy) as Hy0.
  specialize (H1 x eq_refl). specialize (H2 y eq_refl).
  assert (0 < x) by (destruct (Qlt_le_dec 0 x); [assumption|]; exfalso; apply Hx0; lra).
  assert (0 < y) by (destruct (Qlt_le_dec 0 y); [assumption|]; exfalso; apply Hy0; lra).
  assert (0 <= py_min x y / py_max x y <= 1) as Hratio.
  { apply ratio_range.
    - unfold py_min. destruct (Qlt_le_dec y x); lra.
    - apply py_min_le_max.
    - unfold py_max. destruct (Qlt_le_dec x y); lra. }
  lra.
Qed.

Section Bio.

Variable noun_phrases : string -> result (list string).

Lemma bio_similarity_range bio1 bio2 :
  0 <= _calculate_bio_similarity noun_phrases bio1 bio2 <= 1.
Proof.
  unfold _calculate_bio_similarity.
  destruct (negb (truthy bio1) || negb (truthy bio2))%bool; [lra|].
  destruct (TextBlob bio1) as [b1|]; cbn [mbind result_bind rbind try_except]; [|lra].
  destruct (TextBlob bio2) as [b2|]; cbn [mbind result_bind rbind try_except]; [|lra].
  destruct (keywords noun_phrases b1) as [k1|];
    cbn [mbind result_bind rbind try_except]; [|lra].
  destruct (keywords noun_phrases b2) as [k2|];
    cbn [mbind result_bind rbind try_except]; [|lra].
  destruct (bool_decide (k1 = ∅) || bool_decide (k2 = ∅))%bool;
    cbn [try_except]; [lra|].
  destruct (Nat.ltb_spec 0 (size (k1 ∪ k2))) as [Hpos|Hz]; cbn [try_except]; [|lra].
  assert (size (k1 ∩ k2) <= size (k1 ∪ k2))%nat as Hle.
  { apply subseteq_size. intros x Hx.
    apply elem_of_intersection in Hx as [Hx _].
    apply elem_of_union. now left. }
  set (i := size (k1 ∩ k2)) in *. set (u := size (k1 ∪ k2)) in *.
  assert (0 < inject_Z (Z.of_nat u)) as Hu
    by (change 0 with (inject_Z 0); rewrite <- Zlt_Qlt; lia).
  rewrite py_div_nonzero by lra. cbn [try_except].
  apply ratio_range; [| |exact Hu].
  - change 0 with (inject_Z 0). rewrite <- Zle_Qle. lia.
  - rewrite <- Zle_Qle. lia.
Qed.

End Bio.

End SubScores.

(** ** The match score *)

Section MatchScore.

Import AdvancedMatchingEngine.

Variable noun_phrases : string -> result (list string).

(** What a successful run of the body has computed. *)
Lemma match_score_body_Ok user1 user2 v :
  match_score_body noun_phrases user1 user2 = Ok v ->
  exists i t n l,
    _calculate_industry_compatibility
      (get user1 "industry" (PStr "")) (get user2 "industry" (PStr "")) = Ok i /\
    _calculate_title_synergy
      (get user1 "title" (PStr "")) (get user2 "title" (PStr "")) = Ok t /\
    _calculate_network_value_compatibility
      (get user1 "networkValue" (PNum 0)) (get user2 "networkValue" (PNum 0)) = Ok n /\
    _calculate_location_proximity
      (get user1 "location" (PStr "")) (get user2 "location" (PStr "")) = Ok l /\
    v = py_min (py_max
          ((i * 0.25 + t * 0.20 +
            _calculate_bio_similarity noun_phrases
              (get user1 "bio" (PStr "")) (get user2 "bio" (PStr "")) * 0.20 +
            n * 0.15 + l * 0.20) * 100) 0) 100.
Proof.
  unfold match_score_body.
  destruct (_extract_matching_features user1 user2); [|discriminate].
  cbn [mbind result_bind rbind].
  destruct (_calculate_industry_compatibility _ _) as [i|]; [|discriminate].
  cbn [mbind result_bind rbind].
  destruct (_calculate_title_synergy _ _) as [t|]; [|discriminate].
  cbn [mbind result_bind rbind].
  destruct (_calculate_network_value_compatibility _ _) as [n|]; [|discriminate].
  cbn [mbind result_bind rbind].
  destruct (_calculate_location_proximity _ _) as [l|]; [|discriminate].
  cbn [mbind result_bind rbind].
  intros [= <-]. exists i, t, n, l. repeat split.
Qed.

(** The score is between 0 and 100 on every input, also when the body
    raises. *)
Lemma calculate_match_score_range user1 user2 :
  0 <= calculate_match_score noun_phrases user1 user2 <= 100.
Proof.
  unfold calculate_match_score.
  destruct (match_score_body noun_phrases user1 user2) as [v|] eqn:Hb;
    cbn [try_except]; [|lra].
  apply match_score_body_Ok in Hb as (i & t & n & l & _ & _ & _ & _ & ->).
  apply py_clamp_range. lra.
Qed.

(** When [_extract_matching_features] does not raise, the score is the
    clamped weighted sum of the sub-scores. *)
Lemma match_score_weighted_sum user1 user2 f i t n l :
  _extract_matching_features user1 user2 = Ok f ->
  _calculate_industry_compatibility
    (get user1 "industry" (PStr "")) (get user2 "industry" (PStr "")) = Ok i ->
  _calculate_title_synergy
    (get user1 "title" (PStr "")) (get user2 "title" (PStr "")) = Ok t ->
  _calculate_network_value_compatibility
    (get user1 "networkValue" (PNum 0)) (get user2 "networkValue" (PNum 0)) = Ok n ->
  _calculate_location_proximity
    (get user1 "location" (PStr "")) (get user2 "location" (PStr "")) = Ok l ->
  calculate_match_score noun_phrases user1 user2 ==
  Spec.match_score i t
    (_calculate_bio_similarity noun_phrases
       (get user1 "bio" (PStr "")) (get user2 "bio" (PStr ""))) n l.
Proof.
  intros Hf Hi Ht Hn Hl.
  unfold calculate_match_score, match_score_body.
  rewrite Hf, Hi, Ht, Hn, Hl. cbn [mbind result_bind rbind try_except].
  rewrite py_clamp_spec. unfold Spec.match_score, Spec.clamp_0_100.
  apply Q.min_compat; [reflexivity|]. apply Q.max_compat; [reflexivity|].
  ring.
Qed.


End MatchScore.

Section MatchScoreExamples.

Import AdvancedMatchingEngine Sample.


(** The bound is attained. *)
Lemma match_score_93_5_attained :
  calculate_match_score words_as_phrases founder manager == 93.5.
Proof. vm_compute. reflexivity. Qed.

(** Outside the data model, with negative network values, the ratio of
    the smaller to the larger exceeds 1 and the clamp at 100 applies. *)
Lemma match_score_negative_network_values :
  calculate_match_score words_as_phrases debtor1 debtor100 == 100.
Proof. vm_compute. reflexivity. Qed.


(** C1, at the input on which the code departs from it.  Two profiles
    that give [networkValue = 0] have the sub-scores 0.5, 0.6, 0.5, 0.3
    and 0.5, whose weighted sum scaled by 100 is 49; but
    [_extract_matching_features] divides by the larger network value,
    the exception is caught, and [calculate_match_score] returns 0.0. *)
Theorem match_score_zero_network_values
    (noun_phrases : string -> result (list string)) :
  let u := zero_network in
  _calculate_industry_compatibility
    (get u "industry" (PStr "")) (get u "industry" (PStr "")) = Ok 0.5 /\
  _calculate_title_synergy
    (get u "title" (PStr "")) (get u "title" (PStr "")) = Ok 0.6 /\
  _calculate_bio_similarity noun_phrases
    (get u "bio" (PStr "")) (get u "bio" (PStr "")) = 0.5 /\
  _calculate_network_value_compatibility
    (get u "networkValue" (PNum 0)) (get u "networkValue" (PNum 0)) = Ok 0.3 /\
  _calculate_location_proximity
    (get u "location" (PStr "")) (get u "location" (PStr "")) = Ok 0.5 /\
  Spec.match_score 0.5 0.6 0.5 0.3 0.5 == 49 /\
  _extract_matching_features u u = Raise ZeroDivisionError /\
  match_score_body noun_phrases u u = Raise ZeroDivisionError /\
  calculate_match_score noun_phrases u u = 0.0.
Proof.
  cbv zeta. repeat split; vm_compute; reflexivity.
Qed.

End MatchScoreExamples.

(** ** Meeting success *)

Section MeetingSuccess.

Import AdvancedMatchingEngine.

Lemma existsb_eq_str names v :
  existsb (eq_str v) names = Spec.is_one_of names v.
Proof.
  destruct v as [| | |s| |]; cbn [Spec.is_one_of];
    try solve [induction names; cbn [existsb eq_str orb]; auto].
  induction names as [|n names IH]; cbn [existsb eq_str].
  - case_bool_decide as H; [inversion H | reflexivity].
  - rewrite IH. destruct (String.eqb_spec s n) as [->|Hne]; cbn [orb].
    + symmetry. apply bool_decide_eq_true. left.
    + repeat case_bool_decide; try reflexivity.
      * exfalso. match goal with H : ¬ _ |- _ => apply H end. now right.
      * exfalso. match goal with H : _ ∈ _ :: _ |- _ => inversion H; subst end;
          contradiction.
Qed.

Lemma eq_str_one_of name v : eq_str v name = Spec.is_one_of [name] v.
Proof. rewrite <- existsb_eq_str. cbn [existsb]. now rewrite orb_false_r. Qed.

(** The context score used by [predict_meeting_success] is the one of
    the specification. *)
Lemma meeting_context_score_spec context :
  meeting_context_score context == Spec.context_score context.
Proof.
  unfold meeting_context_score, context_given, Spec.context_score.
  destruct context as [c|]; [|reflexivity].
  case_bool_decide; cbn [negb]; [reflexivity|].
  cbn [default from_option id]. unfold _analyze_meeting_context, get.
  rewrite !existsb_eq_str, eq_str_one_of.
  change (match c !! "type" with Some v => v | None => PStr "business" end)
    with (default (PStr "business") (c !! "type")).
  change (match c !! "location" with Some v => v | None => PStr "office" end)
    with (default (PStr "office") (c !! "location")).
  change (match c !! "timing" with Some v => v | None => PStr "business_hours" end)
    with (default (PStr "business_hours") (c !! "timing")).
  rewrite py_min_Qmin, Q.min_comm.
  apply Q.min_compat; [reflexivity|].
  destruct (Spec.is_one_of _ (default (PStr "business") _));
    destruct (Spec.is_one_of _ (default (PStr "office") _));
    destruct (Spec.is_one_of _ (default (PStr "business_hours") _)); ring.
Qed.

Variable noun_phrases : string -> result (list string).

(** C4. With numeric reputations [rep_a] and [rep_b] (50 when absent),
    the meeting success is ((match_score/100)*0.40 + context_score*0.25
    + ((rep_a + rep_b)/2/100)*0.20 + 0.65*0.15)*100 clamped to the
    interval from 0 to 100, with the context score of the
    specification. *)
Theorem meeting_success_formula user1 user2 context rep_a rep_b :
  as_num (get user1 "reputation" (PNum 50)) = Ok rep_a ->
  as_num (get user2 "reputation" (PNum 50)) = Ok rep_b ->
  predict_meeting_success noun_phrases user1 user2 context ==
  Spec.meeting_success
    (calculate_match_score noun_phrases user1 user2)
    (Spec.context_score context) rep_a rep_b.
Proof.
  intros Ha Hb. unfold predict_meeting_success, meeting_success_body.
  rewrite Ha, Hb.
  rewrite !py_div_nonzero by (intros H; discriminate H).
  cbn [mbind result_bind rbind]. rewrite !py_div_nonzero by (intros H; discriminate H).
  cbn [mbind result_bind rbind]. rewrite !py_div_nonzero by (intros H; discriminate H).
  cbn [mbind result_bind rbind try_except].
  rewrite py_clamp_spec. unfold Spec.meeting_success, Spec.clamp_0_100.
  apply Q.min_compat; [reflexivity|]. apply Q.max_compat; [reflexivity|].
  rewrite meeting_context_score_spec. field.
Qed.

(** The prediction is between 0 and 100 on every input. *)
Lemma predict_meeting_success_range user1 user2 context :
  0 <= predict_meeting_success noun_phrases user1 user2 context <= 100.
Proof.
  unfold predict_meeting_success, meeting_success_body.
  repeat match goal with
         | |- context [mbind _ ?m] =>
             destruct m; cbn [mbind result_bind rbind try_except]; [|lra]
         end.
  apply py_clamp_range. lra.
Qed.

End MeetingSuccess.

Section MeetingSuccessExamples.

Import AdvancedMatchingEngine Sample.

Lemma meeting_success_formula_witness :
  predict_meeting_success words_as_phrases founder manager (Some bare_context) ==
  Spec.meeting_success
    (calculate_match_score words_as_phrases founder manager)
    (Spec.context_score (Some bare_context)) 90 70.
Proof.
  apply (meeting_success_formula words_as_phrases founder manager
           (Some bare_context) 90 70).
  - vm_compute. reflexivity.
  - vm_compute. reflexivity.
Defined.

(** C10. A context record that is not empty but gives none of [type],
    [location] and [timing] earns all three bonuses through the
    defaults of the fields: its context score is 1.0, above the 0.7 of
    an absent or empty context. *)
Theorem context_without_fields_scores_one (c : pydict) :
  c ≠ ∅ ->
  c !! "type" = None ->
  c !! "location" = None ->
  c !! "timing" = None ->
  meeting_context_score (Some c) == 1.0 /\
  meeting_context_score None == 0.7 /\
  meeting_context_score (Some ∅) == 0.7 /\
  meeting_context_score None < meeting_context_score (Some c).
Proof.
  intros Hne Ht Hl Hm.
  assert (meeting_context_score (Some c) == 1.0) as H1.
  { unfold meeting_context_score, context_given.
    rewrite bool_decide_eq_false_2 by exact Hne. cbn [negb default from_option id].
    unfold _analyze_meeting_context, get. rewrite Ht, Hl, Hm.
    vm_compute. reflexivity. }
  assert (meeting_context_score None == 0.7) as H2 by reflexivity.
  split; [exact H1|]. split; [exact H2|]. split; [reflexivity|].
  rewrite H1, H2. reflexivity.
Qed.

Lemma context_without_fields_scores_one_witness :
  meeting_context_score (Some bare_context) == 1.0.
Proof.
  apply (context_without_fields_scores_one bare_context).
  - intros H. apply (f_equal (fun m : pydict => m !! "notes")) in H.
    vm_compute in H. discriminate H.
  - vm_compute. reflexivity.
  - vm_compute. reflexivity.
  - vm_compute. reflexivity.
Defined.

End MeetingSuccessExamples.

(** ** Sorting in descending order *)

Section SortDesc.

Context {A : Type} (key : A -> Q).

Definition desc (a b : A) : Prop := key b <= key a.

Lemma insert_desc_Permutation x l : Permutation (insert_desc key x l) (x :: l).
Proof.
  induction l as [|y l IH]; cbn [insert_desc]; [reflexivity|].
  destruct (Qlt_le_dec (key x) (key y)); [|reflexivity].
  rewrite IH. apply perm_swap.
Qed.

Lemma sort_desc_Permutation l : Permutation (sort_desc key l) l.
Proof.
  induction l as [|x l IH]; cbn [sort_desc foldr]; [reflexivity|].
  fold (sort_desc key l). now rewrite insert_desc_Permutation, IH.
Qed.

Lemma insert_desc_sorted x l :
  StronglySorted desc l -> StronglySorted desc (insert_desc key x l).
Proof.
  induction 1 as [|y l Hs IH Hall]; cbn [insert_desc].
  - repeat constructor.
  - destruct (Qlt_le_dec (key x) (key y)) as [Hlt|Hle].
    + constructor; [exact IH|].
      rewrite (insert_desc_Permutation x l). constructor; [|exact Hall].
      unfold desc. lra.
    + constructor; [now constructor|].
      constructor; [exact Hle|].
      eapply Forall_impl; [exact Hall|]. unfold desc. intros z Hz. lra.
Qed.

Lemma sort_desc_sorted l : StronglySorted desc (sort_desc key l).
Proof.
  induction l as [|x l IH]; cbn [sort_desc foldr]; [constructor|].
  now apply insert_desc_sorted.
Qed.

Lemma take_sorted n l : StronglySorted desc l -> StronglySorted desc (take n l).
Proof.
  intros Hs. rewrite <- (take_drop n l) in Hs.
  now apply StronglySorted_app_1_l in Hs.
Qed.

End SortDesc.

(** ** Business opportunities *)

Section Opportunities.

Import MarketIntelligenceEngine.

Lemma py_gt_Ok v x n :
  as_num v = Ok x -> py_gt v n = Ok (if Qlt_le_dec n x then true else false).
Proof. intros H. unfold py_gt. now rewrite H. Qed.

(** On a profile with an industry text and a numeric network value the
    result is the candidate list, sorted and cut to five entries. *)
Lemma opportunities_sorted_candidates profile industry network_value :
  get profile "industry" (PStr "") = PStr industry ->
  as_num (get profile "networkValue" (PNum 0)) = Ok network_value ->
  predict_business_opportunities profile =
  take 5 (sort_desc opp_confidence
            (Spec.opportunity_candidates industry network_value)).
Proof.
  intros Hi Hn. unfold predict_business_opportunities, opportunities_body.
  rewrite Hi. cbn [py_lower mbind result_bind rbind].
  rewrite (py_gt_Ok _ _ _ Hn). cbn [mbind result_bind rbind try_except].
  unfold Spec.opportunity_candidates.
  destruct (PyStr.contains "technology" (PyStr.lower industry));
    destruct (Qlt_le_dec 10000 network_value); reflexivity.
Qed.

(** C7. On a profile with an industry text and a numeric network value,
    the result is the first five entries of a list that holds exactly
    the candidates (two technology opportunities when the text holds
    "technology", one investment opportunity when the network value
    exceeds 10000) in descending order of confidence; when the text
    holds "technology" and the network value exceeds 10000 these are
    exactly three: healthcare expansion (0.85), AI partnership (0.78),
    angel investment (0.72). *)
Theorem business_opportunities_ranked profile industry network_value :
  get profile "industry" (PStr "") = PStr industry ->
  as_num (get profile "networkValue" (PNum 0)) = Ok network_value ->
  (exists ranked,
      Permutation ranked (Spec.opportunity_candidates industry network_value) /\
      Spec.by_confidence_desc ranked /\
      predict_business_opportunities profile = take 5 ranked) /\
  Spec.by_confidence_desc (predict_business_opportunities profile) /\
  (length (predict_business_opportunities profile) <= 5)%nat /\
  (PyStr.contains "technology" industry = true ->
   10000 < network_value ->
   predict_business_opportunities profile =
     [healthcare_expansion; ai_partnership; angel_investment] /\
   length (predict_business_opportunities profile) = 3%nat).
Proof.
  intros Hi Hn.
  rewrite (opportunities_sorted_candidates _ _ _ Hi Hn).
  split; [|split; [|split]].
  - exists (sort_desc opp_confidence
              (Spec.opportunity_candidates industry network_value)).
    split; [apply sort_desc_Permutation|].
    split; [apply sort_desc_sorted | reflexivity].
  - apply take_sorted, sort_desc_sorted.
  - rewrite length_take. lia.
  - intros Htech Hbig. unfold Spec.opportunity_candidates.
    apply contains_lower in Htech.
    change (PyStr.lower "technology") with "technology" in Htech.
    rewrite Htech.
    destruct (Qlt_le_dec 10000 network_value) as [_|Hle]; [|lra].
    split; vm_compute; reflexivity.
Qed.

Lemma business_opportunities_ranked_witness :
  predict_business_opportunities Sample.technologist =
  [healthcare_expansion; ai_partnership; angel_investment].
Proof.
  apply (business_opportunities_ranked Sample.technologist "technology" 50000).
  - vm_compute. reflexivity.
  - vm_compute. reflexivity.
  - vm_compute. reflexivity.
  - vm_compute. reflexivity.
Defined.

End Opportunities.

(** ** The market trends cache *)

Section TrendsCache.

Import MarketIntelligenceEngine.

Variable rng : Type.
Variable np_random_normal : Q -> Q -> rng -> Q * rng.

Lemma cache_expiry_six_hours : cache_expiry = 21600000000%Z.
Proof. reflexivity. Qed.

(** A cache miss with an industry text: the bundle is computed with the
    clock reading and one draw of the generator, stored and returned. *)
Lemma refresh_trends_Ok self g cache_key now (industry : string) :
  exists fresh,
    refresh_trends rng np_random_normal self g cache_key now (Some industry) =
      (Ok fresh,
       <[cache_key := {| data := fresh; timestamp := now |}]> self,
       (np_random_normal 0 0.05 g).2) /\
    lastUpdated fresh = Some now /\
    confidence fresh = 0.85 + (np_random_normal 0 0.05 g).1 /\
    industryGrowth fresh =
      default {| rate := 0.05; trajectory := "stable" |}
              (growth_data !! PyStr.lower industry).
Proof.
  unfold refresh_trends.
  cbn [_calculate_industry_growth _identify_emerging_trends lower_of
       mbind result_bind rbind].
  destruct (np_random_normal 0 0.05 g) as [jitter g'].
  eexists. split; [reflexivity|]. cbn [lastUpdated confidence industryGrowth fst].
  repeat split.
Qed.


(** The key is the concatenation of the two texts, so that two pairs
    can meet in one entry. *)
Remark cache_key_shared_by_two_pairs :
  fmt (Some "a_b") ++ "_" ++ fmt None = fmt (Some "a") ++ "_" ++ fmt (Some "b_None").
Proof. reflexivity. Qed.

End TrendsCache.

Section TrendsCacheExamples.

Import MarketIntelligenceEngine Sample.


End TrendsCacheExamples.

(** ** The lazily trained estimator *)

Section Estimator.

Import DealSuccessPredictor.

Variable rng : Type.
Variable np_random_seed : Z -> rng.
Variable np_random_rand : nat -> nat -> rng -> list (list Q) * rng.
Variable np_random_normal : Q -> Q -> nat -> rng -> list Q * rng.
Variable estimator : Type.
Variable GradientBoostingRegressor : nat -> Z -> estimator.
Variable fit : estimator -> list (list Q) -> list Q -> estimator.
Variable predict : estimator -> list Q -> result Q.

Abbreviation predictor := (predictor estimator).
Abbreviation __init__ := (__init__ estimator GradientBoostingRegressor).
Abbreviation training_set :=
  (training_set rng np_random_seed np_random_rand np_random_normal).
Abbreviation predict_deal_success :=
  (predict_deal_success rng np_random_seed np_random_rand np_random_normal
     estimator fit predict).
Abbreviation run :=
  (run rng np_random_seed np_random_rand np_random_normal estimator fit predict).

(** The matrix [X], the noise and the targets [y] of the training set. *)
Let X : list (list Q) := (np_random_rand 1000 5 (np_random_seed 42)).1.
Let noise : list Q :=
  (np_random_normal 0 0.1 1000 (np_random_rand 1000 5 (np_random_seed 42)).2).1.

Lemma training_set_eq :
  training_set =
  (X, np_clip 0 1 <$> zip_with synthetic_target X noise,
   (np_random_normal 0 0.1 1000
      (np_random_rand 1000 5 (np_random_seed 42)).2).2).
Proof.
  unfold DealSuccessPredictor.training_set, X, noise.
  destruct (np_random_rand 1000 5 (np_random_seed 42)) as [X0 g1].
  cbn [fst snd].
  destruct (np_random_normal 0 0.1 1000 g1) as [n0 g2]. reflexivity.
Qed.

Lemma np_clip_spec v : np_clip 0 1 v == Qmin 1 (Qmax 0 v).
Proof.
  unfold np_clip, py_min, py_max.
  destruct (Qlt_le_dec v 0) as [H|H].
  - destruct (Qlt_le_dec 1 0) as [H'|H']; [lra|].
    rewrite (Q.max_l 0 v) by lra. rewrite Q.min_r; lra.
  - rewrite (Q.max_r 0 v) by lra.
    destruct (Qlt_le_dec 1 v) as [H'|H'].
    + rewrite Q.min_l; lra.
    + rewrite Q.min_r; lra.
Qed.

(** A call on a trained predictor changes neither the predictor nor
    the generator. *)
Lemma trained_predictor_stays (p : predictor) g deal :
  is_trained p = true ->
  (predict_deal_success p g deal).1.2 = p /\
  (predict_deal_success p g deal).2 = g.
Proof.
  intros Ht. unfold DealSuccessPredictor.predict_deal_success, deal_success_body.
  destruct (_extract_deal_features deal) as [f|]; [|split; reflexivity].
  rewrite Ht. cbn [negb].
  destruct (predict (model p) f); split; reflexivity.
Qed.

Lemma run_trained (p : predictor) g deals :
  is_trained p = true -> run p g deals = (p, g).
Proof.
  intros Ht. revert g. induction deals as [|d deals IH]; intros g; [reflexivity|].
  cbn [DealSuccessPredictor.run].
  destruct (trained_predictor_stays p g d Ht) as [Hp Hg].
  destruct (predict_deal_success p g d) as [[r p'] g'].
  cbn [fst snd] in Hp, Hg. subst p' g'. apply IH.
Qed.

(** The first call with extractable features trains the estimator on
    the synthetic set, whatever the generator and the deal are. *)
Lemma first_call_trains g deal features :
  _extract_deal_features deal = Ok features ->
  (predict_deal_success __init__ g deal).1.2 =
  {| model := fit (GradientBoostingRegressor 100 42) training_set.1.1 training_set.1.2;
     is_trained := true;
     fits := 1 |}.
Proof.
  intros Hf. unfold DealSuccessPredictor.predict_deal_success, deal_success_body.
  rewrite Hf. cbn [DealSuccessPredictor.__init__ is_trained negb].
  unfold _train_model.
  destruct training_set as [[X0 y0] g0]. cbn [model fits fst snd].
  destruct (predict _ features); reflexivity.
Qed.

(** A call whose feature extraction raises leaves the predictor as it
    is: an untrained predictor stays untrained. *)
Lemma rejected_call_does_not_train (p : predictor) g deal e :
  _extract_deal_features deal = Raise e ->
  predict_deal_success p g deal = (default_prediction, p, g).
Proof.
  intros Hf. unfold DealSuccessPredictor.predict_deal_success, deal_success_body.
  now rewrite Hf.
Qed.

(** C8. The estimator is not trained at construction.  The first call
    of [predict_deal_success] (on a deal record whose features can be
    extracted) trains it, once, on the data set drawn after seeding the
    generator with 42: [X] is [rand(1000, 5)], and the target of a row
    is 0.2*x0 + 0.4*x2 + 0.1*x3 + 0.2*(1 - x4) plus its noise, clipped
    to the interval from 0 to 1.  Once the flag is set every call
    leaves flag, estimator and number of fits as they are. *)
Theorem estimator_trained_once :
  (is_trained __init__ = false /\ fits __init__ = 0%nat) /\
  (training_set.1.1 = X /\
   (forall i row eps,
       X !! i = Some row -> noise !! i = Some eps ->
       exists target,
         training_set.1.2 !! i = Some target /\
         target ==
           Spec.synthetic_success (nth 0 row 0) (nth 1 row 0) (nth 2 row 0)
             (nth 3 row 0) (nth 4 row 0) eps) /\
   Forall (fun target => 0 <= target <= 1) training_set.1.2) /\
  (forall g deal features,
      _extract_deal_features deal = Ok features ->
      (predict_deal_success __init__ g deal).1.2 =
      {| model := fit (GradientBoostingRegressor 100 42)
                      training_set.1.1 training_set.1.2;
         is_trained := true;
         fits := 1 |}) /\
  (forall (p : predictor) g deal,
      is_trained p = true ->
      (predict_deal_success p g deal).1.2 = p) /\
  (forall g deal features deals,
      _extract_deal_features deal = Ok features ->
      (run __init__ g (deal :: deals)).1 =
      {| model := fit (GradientBoostingRegressor 100 42)
                      training_set.1.1 training_set.1.2;
         is_trained := true;
         fits := 1 |}).
Proof.
  split; [split; reflexivity|]. split; [|split; [|split]].
  - rewrite training_set_eq. cbn [fst snd]. split; [reflexivity|]. split.
    + intros i row eps Hrow Heps.
      exists (np_clip 0 1 (synthetic_target row eps)). split.
      * rewrite list_lookup_fmap, lookup_zip_with, Hrow. cbn [mbind option_bind].
        rewrite Heps. reflexivity.
      * rewrite np_clip_spec. unfold Spec.synthetic_success, synthetic_target.
        apply Q.min_compat; [reflexivity|]. apply Q.max_compat; [reflexivity|].
        ring.
    + apply Forall_fmap, Forall_forall. intros v _. cbn.
      apply (py_clamp_range v 1). lra.
  - exact first_call_trains.
  - intros p g deal Ht. exact (proj1 (trained_predictor_stays p g deal Ht)).
  - intros g deal features deals Hf. cbn [DealSuccessPredictor.run].
    pose proof (first_call_trains g deal features Hf) as H1.
    destruct (predict_deal_success __init__ g deal) as [[r p1] g1].
    cbn [fst snd] in H1. subst p1. now rewrite run_trained.
Qed.

End Estimator.

Section EstimatorExamples.

Import DealSuccessPredictor Sample.

Lemma estimator_trained_once_witness :
  (run nat toy_seed toy_rand toy_normal_n (option Q) toy_fit toy_predict
       (__init__ (option Q) toy_estimator) 7%nat
       [urgent_deal; mistyped_deal; oversized_deal; urgent_deal]).1 =
  {| model :=
       toy_fit (toy_estimator 100 42)
         (training_set nat toy_seed toy_rand toy_normal_n).1.1
         (training_set nat toy_seed toy_rand toy_normal_n).1.2;
     is_trained := true;
     fits := 1 |}.
Proof.
  eapply (proj2 (proj2 (proj2 (proj2
            (estimator_trained_once nat toy_seed toy_rand toy_normal_n
               (option Q) toy_estimator toy_fit toy_predict))))).
  vm_compute. reflexivity.
Defined.

(** Were the first call to carry a value that is not a number, the
    estimator would still be untrained after it. *)
Lemma mistyped_first_call_leaves_untrained :
  is_trained
    (predict_deal_success nat toy_seed toy_rand toy_normal_n (option Q)
       toy_fit toy_predict (__init__ (option Q) toy_estimator) 7%nat
       mistyped_deal).1.2 = false.
Proof. vm_compute. reflexivity. Qed.

End EstimatorExamples.

(** ** Failing softly *)

Section FailSoft.

Import AdvancedMatchingEngine MarketIntelligenceEngine.

Variable noun_phrases : string -> result (list string).
Variable rng : Type.
Variable np_random_normal : Q -> Q -> rng -> Q * rng.
Variable np_random_seed : Z -> rng.
Variable np_random_rand : nat -> nat -> rng -> list (list Q) * rng.
Variable np_random_normal_n : Q -> Q -> nat -> rng -> list Q * rng.
Variable estimator : Type.
Variable fit : estimator -> list (list Q) -> list Q -> estimator.
Variable predict : estimator -> list Q -> result Q.

Abbreviation analyze_market_trends :=
  (analyze_market_trends rng np_random_normal).
Abbreviation analyze_body := (analyze_body rng np_random_normal).
Abbreviation refresh_trends := (refresh_trends rng np_random_normal).
Abbreviation run := (run rng np_random_normal).
Abbreviation deal_success_body :=
  (DealSuccessPredictor.deal_success_body
     rng np_random_seed np_random_rand np_random_normal_n estimator fit predict).
Abbreviation predict_deal_success :=
  (DealSuccessPredictor.predict_deal_success
     rng np_random_seed np_random_rand np_random_normal_n estimator fit predict).

(** A failure while the bundle is built leaves the cache and the
    generator untouched. *)
Lemma refresh_trends_Raise self g key now industry e self' g' :
  refresh_trends self g key now industry = (Raise e, self', g') ->
  self' = self /\ g' = g.
Proof.
  unfold MarketIntelligenceEngine.refresh_trends.
  destruct (mbind _ _) as [[ig et]|]; [|now intros [= _ <- <-]].
  destruct (np_random_normal 0 0.05 g). discriminate.
Qed.

Lemma analyze_body_Raise self g now industry user_location e self' g' :
  analyze_body self g now industry user_location = (Raise e, self', g') ->
  self' = self /\ g' = g.
Proof.
  unfold MarketIntelligenceEngine.analyze_body.
  destruct (self !! _) as [entry|]; [destruct (_ <? _)%Z; [discriminate|]|];
    apply refresh_trends_Raise.
Qed.

Lemma refresh_keeps_stamped self g key now industry :
  Spec.stamped self ->
  Spec.stamped (refresh_trends self g key now industry).1.2.
Proof.
  intros Hs. unfold MarketIntelligenceEngine.refresh_trends.
  destruct (mbind _ _) as [[ig et]|]; [|exact Hs].
  destruct (np_random_normal 0 0.05 g) as [jitter g']. cbn [fst snd].
  intros k entry Hk. destruct (decide (key = k)) as [<-|Hne].
  - rewrite lookup_insert_eq in Hk. injection Hk as <-. reflexivity.
  - rewrite lookup_insert_ne in Hk by exact Hne. exact (Hs _ _ Hk).
Qed.

Lemma analyze_keeps_stamped self g now industry user_location :
  Spec.stamped self ->
  Spec.stamped (analyze_market_trends self g now industry user_location).1.2.
Proof.
  intros Hs.
  unfold MarketIntelligenceEngine.analyze_market_trends,
    MarketIntelligenceEngine.analyze_body.
  set (key := fmt industry ++ "_" ++ fmt user_location).
  pose proof (refresh_keeps_stamped self g key now industry Hs) as Hmiss.
  destruct (refresh_trends self g key now industry) as [[r c] g'].
  destruct (self !! key) as [entry|]; [|exact Hmiss].
  destruct (_ <? _)%Z; [exact Hs | exact Hmiss].
Qed.

Lemma run_keeps_stamped calls : forall self g,
  Spec.stamped self -> Spec.stamped (run self g calls).1.
Proof.
  induction calls as [|c calls IH]; intros self g Hs; [exact Hs|].
  cbn [MarketIntelligenceEngine.run].
  pose proof (analyze_keeps_stamped self g (call_time c) (call_industry c)
                (call_location c) Hs) as H1.
  destruct (analyze_market_trends self g _ _ _) as [[r self1] g1].
  apply IH. exact H1.
Qed.

(** C2. Each public operation returns a value on every input, and when
    the body of its [try] raises it returns its neutral default: 0.0
    for the match score; 50.0 for the meeting success; probability
    50.0, confidence 0.3 and no factors or recommendations for the deal
    success; the empty list for the opportunities; the default bundle,
    of confidence 0.3, for the market trends, with the cache and the
    generator left as they were.  No sequence of calls starting from
    the empty cache ever stores the default bundle. *)
Theorem every_operation_fails_softly :
  (forall user1 user2 e,
      match_score_body noun_phrases user1 user2 = Raise e ->
      calculate_match_score noun_phrases user1 user2 = 0.0) /\
  (forall user1 user2 context e,
      meeting_success_body noun_phrases user1 user2 context = Raise e ->
      predict_meeting_success noun_phrases user1 user2 context = 50.0) /\
  (forall self g deal e self' g',
      deal_success_body self g deal = (Raise e, self', g') ->
      predict_deal_success self g deal =
      ({| DealSuccessPredictor.success_probability := 50.0;
          DealSuccessPredictor.confidence := 0.3;
          DealSuccessPredictor.key_factors := [];
          DealSuccessPredictor.recommendations := [] |}, self', g')) /\
  (forall profile e,
      opportunities_body profile = Raise e ->
      predict_business_opportunities profile = []) /\
  (forall self g now industry user_location e self' g',
      analyze_body self g now industry user_location = (Raise e, self', g') ->
      analyze_market_trends self g now industry user_location =
        (_get_default_trends, self, g) /\
      confidence _get_default_trends = 0.3) /\
  (forall calls g key entry,
      (run __init__ g calls).1 !! key = Some entry ->
      data entry <> _get_default_trends).
Proof.
  split; [|split; [|split; [|split; [|split]]]].
  - intros user1 user2 e H. unfold calculate_match_score. now rewrite H.
  - intros user1 user2 context e H. unfold predict_meeting_success. now rewrite H.
  - intros self g deal e self' g' H.
    unfold DealSuccessPredictor.predict_deal_success. now rewrite H.
  - intros profile e H. unfold predict_business_opportunities. now rewrite H.
  - intros self g now industry user_location e self' g' H.
    split; [|reflexivity].
    destruct (analyze_body_Raise _ _ _ _ _ _ _ _ H) as [-> ->].
    unfold MarketIntelligenceEngine.analyze_market_trends. now rewrite H.
  - intros calls g key entry Hk Hd.
    assert (Spec.stamped __init__) as H0
      by (intros k e'; unfold __init__; rewrite lookup_empty; discriminate).
    pose proof (run_keeps_stamped calls __init__ g H0 key entry Hk) as Hs.
    rewrite Hd in Hs. discriminate Hs.
Qed.

End FailSoft.

Section FailSoftExamples.

Import AdvancedMatchingEngine MarketIntelligenceEngine Sample.

Lemma every_operation_fails_softly_witness :
  calculate_match_score words_as_phrases zero_network zero_network = 0.0 /\
  predict_meeting_success words_as_phrases renowned renowned None = 50.0 /\
  DealSuccessPredictor.predict_deal_success nat toy_seed toy_rand toy_normal_n
    (option Q) toy_fit toy_predict
    (DealSuccessPredictor.__init__ (option Q) toy_estimator) 7%nat mistyped_deal
  = (DealSuccessPredictor.default_prediction,
     DealSuccessPredictor.__init__ (option Q) toy_estimator, 7%nat) /\
  predict_business_opportunities no_industry = [] /\
  analyze_market_trends nat constant_normal __init__ 3%nat 1000 None None
  = (_get_default_trends, __init__, 3%nat).
Proof.
  pose proof (every_operation_fails_softly words_as_phrases nat constant_normal
                toy_seed toy_rand toy_normal_n (option Q) toy_fit toy_predict)
    as (H1 & H2 & H3 & H4 & H5 & _).
  split; [|split; [|split; [|split]]].
  - apply (H1 zero_network zero_network ZeroDivisionError).
    vm_compute. reflexivity.
  - apply (H2 renowned renowned None TypeError). vm_compute. reflexivity.
  - apply (H3 _ _ mistyped_deal TypeError). vm_compute. reflexivity.
  - apply (H4 no_industry AttributeError). vm_compute. reflexivity.
  - apply (H5 __init__ 3%nat 1000%Z None None AttributeError __init__ 3%nat).
    vm_compute. reflexivity.
Defined.

(** When the estimator itself rejects the features, the training done
    before the failure persists. *)
Lemma failed_prediction_keeps_training :
  let '(r, p, g) :=
    DealSuccessPredictor.predict_deal_success nat toy_seed toy_rand toy_normal_n
      (option Q) toy_fit toy_predict
      (DealSuccessPredictor.__init__ (option Q) toy_estimator) 7%nat
      oversized_deal in
  r = DealSuccessPredictor.default_prediction /\
  DealSuccessPredictor.is_trained p = true /\
  DealSuccessPredictor.fits p = 1%nat.
Proof. vm_compute. repeat split. Qed.

End FailSoftExamples.

(** ** Binary floating point

    The scores are computed in binary64 by the source and in exact
    rationals above.  At the extremal inputs the two agree: rounding
    does not push the largest match score above 93.5, nor the context
    score of a record without fields away from 1.0. *)

Module Binary64.

#[local] Set Warnings "-inexact-float".
Local Open Scope float_scope.

(** The expression of [calculate_match_score] before the clamp. *)
Definition weighted_sum (industry title bio network location : float) : float :=
  (industry * 0.25 + title * 0.20 + bio * 0.20 + network * 0.15 +
   location * 0.20) * 100.

Lemma weighted_sum_largest :
  weighted_sum 0.9 0.8 1.0 (1.0 * 0.8 + 0.2) 1.0 = 93.5.
Proof. vm_compute. reflexivity. Qed.

Lemma weighted_sum_zero_network : weighted_sum 0.5 0.6 0.5 0.3 0.5 = 49.0.
Proof. vm_compute. reflexivity. Qed.

Lemma context_score_all_bonuses : 0.5 + 0.2 + 0.15 + 0.15 = 1.0.
Proof. vm_compute. reflexivity. Qed.

End Binary64.

(** * Further properties of the compatibility engine *)

Section EngineFacts.

Import AdvancedMatchingEngine.

Lemma get_text (record : pydict) key :
  WellFormed.text_field record key ->
  exists s, get record key (PStr "") = PStr s.
Proof.
  unfold WellFormed.text_field, get.
  destruct (record !! key) as [v|]; [|intros _; now exists ""].
  intros [s ->]. now exists s.
Qed.

Lemma get_number (record : pydict) key d :
  WellFormed.numeric_field record key ->
  as_num (get record key (PNum d)) = Ok (WellFormed.number_or record key d).
Proof.
  unfold WellFormed.numeric_field, WellFormed.number_or, get.
  destruct (record !! key) as [v|]; [|reflexivity].
  intros [x Hx]. now rewrite Hx.
Qed.

Lemma extract_seniority_level_text s :
  exists n, _extract_seniority_level (PStr s) = Ok n.
Proof.
  unfold _extract_seniority_level. cbn [py_lower mbind result_bind rbind].
  repeat match goal with
         | |- context [if ?b then _ else _] => destruct b
         end; eauto.
Qed.

Lemma title_synergy_text s1 s2 :
  exists q, _calculate_title_synergy (PStr s1) (PStr s2) = Ok q.
Proof.
  unfold _calculate_title_synergy.
  destruct (extract_seniority_level_text s1) as [a ->].
  destruct (extract_seniority_level_text s2) as [b ->].
  cbn [mbind result_bind rbind].
  repeat match goal with
         | |- context [if ?b then _ else _] => destruct b
         end; eauto.
Qed.

Lemma location_proximity_text s1 s2 :
  exists q, _calculate_location_proximity (PStr s1) (PStr s2) = Ok q.
Proof.
  unfold _calculate_location_proximity.
  cbn [py_lower mbind result_bind rbind].
  repeat match goal with
         | |- context [if ?b then _ else _] => destruct b
         end; eauto.
Qed.

Lemma py_max_cases x y : py_max x y = x \/ py_max x y = y.
Proof. unfold py_max. destruct (Qlt_le_dec x y); auto. Qed.

(** The zero guard makes the division safe: on two numbers the network
    sub-score is always computed. *)
Lemma network_value_compatibility_numbers v1 v2 x y :
  as_num v1 = Ok x -> as_num v2 = Ok y ->
  exists q, _calculate_network_value_compatibility v1 v2 = Ok q.
Proof.
  intros Hx Hy. unfold _calculate_network_value_compatibility.
  destruct (eq_zero v1) eqn:E1; [eauto|].
  destruct (eq_zero v2) eqn:E2; [eauto|].
  cbn [orb]. unfold min_over_max. rewrite Hx, Hy.
  cbn [mbind result_bind rbind].
  pose proof (eq_zero_false _ _ E1 Hx) as Hx0.
  pose proof (eq_zero_false _ _ E2 Hy) as Hy0.
  rewrite py_div_nonzero; [cbn [mbind result_bind rbind]; eauto|].
  destruct (py_max_cases x y) as [-> | ->]; assumption.
Qed.

Variable noun_phrases : string -> result (list string).

(** What [_extract_matching_features] does on well-formed profiles: it
    divides by the larger of the two network values, 1 standing for an
    absent one. *)
Lemma extract_matching_features_well_formed user1 user2 :
  WellFormed.profile user1 -> WellFormed.profile user2 ->
  let x := WellFormed.number_or user1 "networkValue" 1 in
  let y := WellFormed.number_or user2 "networkValue" 1 in
  (py_max x y == 0 ->
   _extract_matching_features user1 user2 = Raise ZeroDivisionError) /\
  (~ py_max x y == 0 ->
   exists f, _extract_matching_features user1 user2 = Ok f).
Proof.
  intros (Hi1 & Ht1 & _ & Hn1) (Hi2 & Ht2 & _ & Hn2). cbv zeta.
  unfold _extract_matching_features.
  destruct (get_text _ _ Hi1) as [i1 ->]. destruct (get_text _ _ Hi2) as [i2 ->].
  destruct (get_text _ _ Ht1) as [t1 ->]. destruct (get_text _ _ Ht2) as [t2 ->].
  cbn [_calculate_industry_compatibility py_lower mbind result_bind rbind].
  destruct (extract_seniority_level_text t1) as [a ->].
  destruct (extract_seniority_level_text t2) as [b ->].
  cbn [mbind result_bind rbind]. unfold min_over_max.
  rewrite (get_number _ _ 1 Hn1), (get_number _ _ 1 Hn2).
  cbn [mbind result_bind rbind].
  split; intros H.
  - now rewrite (py_div_zero _ _ H).
  - rewrite (py_div_nonzero _ _ H). cbn [mbind result_bind rbind]. eauto.
Qed.

(** X1. On records whose numbers are finite, well-formed or not, the
    match score and the meeting success prediction lie between 0 and
    100. *)
Theorem scores_between_0_and_100 user1 user2 context :
  0 <= calculate_match_score noun_phrases user1 user2 <= 100 /\
  0 <= predict_meeting_success noun_phrases user1 user2 context <= 100.
Proof.
  split.
  - apply calculate_match_score_range.
  - apply predict_meeting_success_range.
Qed.

(** X2. On well-formed profiles whose network values lie between 0 and
    the largest float, the match score fails in exactly one way: when
    the larger of the two network values (1 standing for an absent one)
    is zero, the unused feature extraction divides by zero and the
    score is 0.0; in every other case the score is the weighted sum of
    the five sub-scores, scaled by 100 and clamped. *)
Theorem match_score_fails_exactly_on_zero_maximum user1 user2 :
  WellFormed.profile user1 -> WellFormed.profile user2 ->
  let x := WellFormed.number_or user1 "networkValue" 1 in
  let y := WellFormed.number_or user2 "networkValue" 1 in
  0 <= x <= WellFormed.float_max -> 0 <= y <= WellFormed.float_max ->
  (py_max x y == 0 ->
   match_score_body noun_phrases user1 user2 = Raise ZeroDivisionError /\
   calculate_match_score noun_phrases user1 user2 = 0.0) /\
  (~ py_max x y == 0 ->
   exists i t n l,
     _calculate_industry_compatibility
       (get user1 "industry" (PStr "")) (get user2 "industry" (PStr "")) = Ok i /\
     _calculate_title_synergy
       (get user1 "title" (PStr "")) (get user2 "title" (PStr "")) = Ok t /\
     _calculate_network_value_compatibility
       (get user1 "networkValue" (PNum 0)) (get user2 "networkValue" (PNum 0)) = Ok n /\
     _calculate_location_proximity
       (get user1 "location" (PStr "")) (get user2 "location" (PStr "")) = Ok l /\
     calculate_match_score noun_phrases user1 user2 ==
     Spec.match_score i t
       (_calculate_bio_similarity noun_phrases
          (get user1 "bio" (PStr "")) (get user2 "bio" (PStr ""))) n l).
Proof.
  intros W1 W2. cbv zeta. intros _ _.
  destruct (extract_matching_features_well_formed user1 user2 W1 W2) as [Hz Hnz].
  split; intros H.
  - specialize (Hz H).
    assert (match_score_body noun_phrases user1 user2 = Raise ZeroDivisionError)
      as Hb by (unfold match_score_body; now rewrite Hz).
    split; [exact Hb|]. unfold calculate_match_score. now rewrite Hb.
  - destruct (Hnz H) as [f Hf].
    destruct W1 as (Hi1 & Ht1 & Hl1 & Hn1). destruct W2 as (Hi2 & Ht2 & Hl2 & Hn2).
    destruct (get_text _ _ Hi1) as [i1 Ei1]. destruct (get_text _ _ Hi2) as [i2 Ei2].
    destruct (get_text _ _ Ht1) as [t1 Et1]. destruct (get_text _ _ Ht2) as [t2 Et2].
    destruct (get_text _ _ Hl1) as [l1 El1]. destruct (get_text _ _ Hl2) as [l2 El2].
    destruct (title_synergy_text t1 t2) as [t Ht].
    destruct (location_proximity_text l1 l2) as [l Hl].
    destruct (network_value_compatibility_numbers _ _ _ _
                (get_number _ _ 0 Hn1) (get_number _ _ 0 Hn2)) as [n Hn].
    rewrite <- Et1, <- Et2 in Ht. rewrite <- El1, <- El2 in Hl.
    assert (exists i,
               _calculate_industry_compatibility
                 (get user1 "industry" (PStr "")) (get user2 "industry" (PStr ""))
               = Ok i) as [i Hi]
      by (rewrite Ei1, Ei2; eexists; reflexivity).
    exists i, t, n, l. repeat (split; [assumption|]).
    exact (match_score_weighted_sum noun_phrases _ _ _ _ _ _ _ Hf Hi Ht Hn Hl).
Qed.

End EngineFacts.

Section EngineFactsExamples.

Import AdvancedMatchingEngine Sample.

Lemma founder_well_formed : WellFormed.profile founder.
Proof.
  repeat split; unfold WellFormed.text_field, WellFormed.numeric_field;
    vm_compute; eauto.
Qed.

Lemma manager_well_formed : WellFormed.profile manager.
Proof.
  repeat split; unfold WellFormed.text_field, WellFormed.numeric_field;
    vm_compute; eauto.
Qed.

Lemma match_score_fails_exactly_on_zero_maximum_witness :
  exists i t n l,
    _calculate_industry_compatibility
      (get founder "industry" (PStr "")) (get manager "industry" (PStr "")) = Ok i /\
    _calculate_title_synergy
      (get founder "title" (PStr "")) (get manager "title" (PStr "")) = Ok t /\
    _calculate_network_value_compatibility
      (get founder "networkValue" (PNum 0)) (get manager "networkValue" (PNum 0)) = Ok n /\
    _calculate_location_proximity
      (get founder "location" (PStr "")) (get manager "location" (PStr "")) = Ok l /\
    calculate_match_score words_as_phrases founder manager ==
    Spec.match_score i t
      (_calculate_bio_similarity words_as_phrases
         (get founder "bio" (PStr "")) (get manager "bio" (PStr ""))) n l.
Proof.
  apply (match_score_fails_exactly_on_zero_maximum words_as_phrases
           founder manager founder_well_formed manager_well_formed).
  - split; vm_compute; discriminate.
  - split; vm_compute; discriminate.
  - vm_compute. discriminate.
Defined.

End EngineFactsExamples.

(** ** Symmetry and extremes of the sub-scores *)

Section SubScoreFacts.

Import AdvancedMatchingEngine.

Lemma py_min_sym x y : py_min x y == py_min y x.
Proof. unfold py_min. destruct (Qlt_le_dec y x); destruct (Qlt_le_dec x y); lra. Qed.

Lemma py_max_sym x y : py_max x y == py_max y x.
Proof. unfold py_max. destruct (Qlt_le_dec y x); destruct (Qlt_le_dec x y); lra. Qed.

(** X3. On two numbers between 0 and the largest float the network
    sub-score is always computed (the zero guard excludes the division
    by zero) and does not depend on the order of the two values. *)
Theorem network_value_compatibility_symmetric v1 v2 x y :
  as_num v1 = Ok x -> as_num v2 = Ok y ->
  0 <= x <= WellFormed.float_max -> 0 <= y <= WellFormed.float_max ->
  exists q q',
    _calculate_network_value_compatibility v1 v2 = Ok q /\
    _calculate_network_value_compatibility v2 v1 = Ok q' /\
    q == q'.
Proof.
  intros Hx Hy _ _.
  destruct (network_value_compatibility_numbers v1 v2 x y Hx Hy) as [q Hq].
  destruct (network_value_compatibility_numbers v2 v1 y x Hy Hx) as [q' Hq'].
  exists q, q'. split; [exact Hq|]. split; [exact Hq'|].
  revert Hq Hq'. unfold _calculate_network_value_compatibility.
  rewrite (orb_comm (eq_zero v2) (eq_zero v1)).
  destruct (eq_zero v1 || eq_zero v2)%bool; [now intros [= <-] [= <-]|].
  unfold min_over_max. rewrite Hx, Hy. cbn [mbind result_bind rbind].
  destruct (py_div (py_min x y) (py_max x y)) as [r|] eqn:Hr; [|discriminate].
  destruct (py_div (py_min y x) (py_max y x)) as [r'|] eqn:Hr'; [|discriminate].
  cbn [mbind result_bind rbind]. intros [= <-] [= <-].
  apply py_div_Ok in Hr as [Hnz ->]. apply py_div_Ok in Hr' as [Hnz' ->].
  rewrite (py_min_sym y x), (py_max_sym y x). reflexivity.
Qed.

Lemma network_value_compatibility_symmetric_witness :
  exists q q',
    _calculate_network_value_compatibility (PNum 200) (PBool true) = Ok q /\
    _calculate_network_value_compatibility (PBool true) (PNum 200) = Ok q' /\
    q == q'.
Proof.
  apply (network_value_compatibility_symmetric (PNum 200) (PBool true) 200 1).
  - reflexivity.
  - reflexivity.
  - split; vm_compute; discriminate.
  - split; vm_compute; discriminate.
Defined.

Lemma extract_seniority_level_Raise title e :
  _extract_seniority_level title = Raise e -> e = AttributeError.
Proof.
  unfold _extract_seniority_level.
  destruct title; cbn [py_lower mbind result_bind rbind];
    try (now intros [= <-]).
  repeat match goal with
         | |- context [if ?b then _ else _] => destruct b
         end; discriminate.
Qed.

(** X4. The title synergy does not depend on the order of the two
    titles, whatever they are. *)
Theorem title_synergy_symmetric title1 title2 :
  _calculate_title_synergy title1 title2 = _calculate_title_synergy title2 title1.
Proof.
  unfold _calculate_title_synergy.
  destruct (_extract_seniority_level title1) as [a|e1] eqn:E1;
    destruct (_extract_seniority_level title2) as [b|e2] eqn:E2;
    cbn [mbind result_bind rbind].
  - replace (Z.abs (b - a)) with (Z.abs (a - b)) by lia. reflexivity.
  - reflexivity.
  - reflexivity.
  - apply extract_seniority_level_Raise in E1, E2. now subst.
Qed.

(** X5. The industry sub-score of two texts is always computed, lies
    between 0.5 and 0.9, and depends on the texts only up to case. *)
Theorem industry_compatibility_case_insensitive (s1 s2 s1' s2' : string) :
  PyStr.lower s1 = PyStr.lower s1' ->
  PyStr.lower s2 = PyStr.lower s2' ->
  exists q,
    _calculate_industry_compatibility (PStr s1) (PStr s2) = Ok q /\
    _calculate_industry_compatibility (PStr s1') (PStr s2') = Ok q /\
    0.5 <= q <= 0.9.
Proof.
  intros H1 H2.
  assert (exists q, _calculate_industry_compatibility (PStr s1) (PStr s2) = Ok q)
    as [q Hq] by (eexists; reflexivity).
  exists q. split; [exact Hq|]. split.
  - rewrite <- Hq. unfold _calculate_industry_compatibility.
    cbn [py_lower mbind result_bind rbind]. now rewrite H1, H2.
  - exact (industry_compatibility_range _ _ _ Hq).
Qed.

Lemma industry_compatibility_case_insensitive_witness :
  exists q,
    _calculate_industry_compatibility (PStr "FinTech") (PStr "Real-Estate") = Ok q /\
    _calculate_industry_compatibility (PStr "fintech") (PStr "REAL-ESTATE") = Ok q /\
    0.5 <= q <= 0.9.
Proof.
  apply (industry_compatibility_case_insensitive
           "FinTech" "Real-Estate" "fintech" "REAL-ESTATE"); reflexivity.
Defined.

(** X6. The context score of a record lies between 0.5 and 1, so the
    cap at 1.0 never cuts anything off. *)
Theorem meeting_context_between_half_and_one (context : pydict) :
  0.5 <= _analyze_meeting_context context <= 1 /\
  _analyze_meeting_context context ==
    0.5 +
    (if existsb (eq_str (get context "type" (PStr "business")))
          ["business"; "networking"] then 0.2 else 0) +
    (if existsb (eq_str (get context "location" (PStr "office")))
          ["office"; "conference"; "coffee_shop"] then 0.15 else 0) +
    (if eq_str (get context "timing" (PStr "business_hours")) "business_hours"
     then 0.15 else 0).
Proof.
  unfold _analyze_meeting_context.
  destruct (existsb _ ["business"; "networking"]);
    destruct (existsb _ ["office"; "conference"; "coffee_shop"]);
    destruct (eq_str _ "business_hours");
    vm_compute; repeat split; discriminate.
Qed.

End SubScoreFacts.

(** ** Bio similarity *)

Section BioFacts.

Import AdvancedMatchingEngine.

Variable noun_phrases : string -> result (list string).

Lemma inject_nat_pos (n : nat) : (0 < n)%nat -> 0 < inject_Z (Z.of_nat n).
Proof. intros H. change 0 with (inject_Z 0). rewrite <- Zlt_Qlt. lia. Qed.

Lemma union_size_pos (k1 k2 : gset string) : k1 ≠ ∅ -> (0 < size (k1 ∪ k2))%nat.
Proof.
  intros Hne.
  destruct (decide (size (k1 ∪ k2) = 0%nat)) as [Hz|Hnz]; [|lia].
  apply size_empty_iff, leibniz_equiv, empty_union_L in Hz as [Hz _].
  contradiction.
Qed.

(** The score of two non-empty texts whose keyword sets are known and
    not empty. *)
Lemma bio_similarity_keywords (s1 s2 : string) (k1 k2 : gset string) :
  s1 <> "" -> s2 <> "" ->
  keywords noun_phrases s1 = Ok k1 -> keywords noun_phrases s2 = Ok k2 ->
  k1 ≠ ∅ -> k2 ≠ ∅ ->
  _calculate_bio_similarity noun_phrases (PStr s1) (PStr s2) =
  inject_Z (Z.of_nat (size (k1 ∩ k2))) / inject_Z (Z.of_nat (size (k1 ∪ k2))).
Proof.
  intros Hs1 Hs2 Hk1 Hk2 Hn1 Hn2. unfold _calculate_bio_similarity.
  rewrite !truthy_str, !negb_involutive.
  rewrite !bool_decide_eq_false_2 by assumption. cbn [orb TextBlob].
  cbn [mbind result_bind rbind]. rewrite Hk1, Hk2.
  cbn [mbind result_bind rbind].
  rewrite !bool_decide_eq_false_2 by assumption. cbn [orb].
  pose proof (union_size_pos k1 k2 Hn1) as Hpos.
  destruct (Nat.ltb_spec 0 (size (k1 ∪ k2))) as [_|]; [|lia].
  rewrite py_div_nonzero; [reflexivity|].
  pose proof (inject_nat_pos _ Hpos). lra.
Qed.

(** X7. For two non-empty bios with non-empty keyword sets the bio
    sub-score is the Jaccard index of the sets: 1 when the sets are
    equal, 0 when they share nothing, and the same in both orders. *)
Theorem bio_similarity_is_jaccard (s1 s2 : string) (k1 k2 : gset string) :
  s1 <> "" -> s2 <> "" ->
  keywords noun_phrases s1 = Ok k1 -> keywords noun_phrases s2 = Ok k2 ->
  k1 ≠ ∅ -> k2 ≠ ∅ ->
  _calculate_bio_similarity noun_phrases (PStr s1) (PStr s2) =
    inject_Z (Z.of_nat (size (k1 ∩ k2))) / inject_Z (Z.of_nat (size (k1 ∪ k2))) /\
  _calculate_bio_similarity noun_phrases (PStr s2) (PStr s1) =
    _calculate_bio_similarity noun_phrases (PStr s1) (PStr s2) /\
  (k1 = k2 -> _calculate_bio_similarity noun_phrases (PStr s1) (PStr s2) == 1) /\
  (k1 ∩ k2 = ∅ -> _calculate_bio_similarity noun_phrases (PStr s1) (PStr s2) == 0).
Proof.
  intros Hs1 Hs2 Hk1 Hk2 Hn1 Hn2.
  rewrite (bio_similarity_keywords s1 s2 k1 k2) by assumption.
  rewrite (bio_similarity_keywords s2 s1 k2 k1) by assumption.
  split; [reflexivity|]. split; [|split].
  - now rewrite (comm_L (∩) k2 k1), (comm_L (∪) k2 k1).
  - intros <-. rewrite (idemp_L (∩) k1), (idemp_L (∪) k1).
    apply Qmult_inv_r.
    assert (0 < size k1)%nat as Hpos.
    { destruct (decide (size k1 = 0%nat)) as [Hz|]; [|lia].
      apply size_empty_iff, leibniz_equiv in Hz. contradiction. }
    pose proof (inject_nat_pos _ Hpos). lra.
  - intros ->. rewrite size_empty. reflexivity.
Qed.

(** X8. The bio sub-score never fails: a missing or empty bio, a bio
    that is not a text, a failure of the noun phrase extraction and a
    bio without noun phrases all give 0.5, and every other case a value
    between 0 and 1. *)
Theorem bio_similarity_fallbacks bio1 bio2 :
  0 <= _calculate_bio_similarity noun_phrases bio1 bio2 <= 1 /\
  (truthy bio1 = false \/ truthy bio2 = false ->
   _calculate_bio_similarity noun_phrases bio1 bio2 = 0.5) /\
  ((forall s, bio1 <> PStr s) \/ (forall s, bio2 <> PStr s) ->
   _calculate_bio_similarity noun_phrases bio1 bio2 = 0.5) /\
  (forall s1 s2 e,
      bio1 = PStr s1 -> bio2 = PStr s2 ->
      noun_phrases s1 = Raise e \/ noun_phrases s2 = Raise e \/
      noun_phrases s1 = Ok [] \/ noun_phrases s2 = Ok [] ->
      _calculate_bio_similarity noun_phrases bio1 bio2 = 0.5).
Proof.
  split; [apply bio_similarity_range|]. split; [|split].
  - intros H. unfold _calculate_bio_similarity.
    destruct H as [-> | ->]; cbn [negb orb]; [reflexivity|].
    now rewrite orb_true_r.
  - intros H. unfold _calculate_bio_similarity.
    destruct (negb (truthy bio1) || negb (truthy bio2))%bool; [reflexivity|].
    destruct H as [H|H].
    + destruct bio1; try reflexivity. now destruct (H s).
    + destruct bio1; try reflexivity.
      destruct bio2; try reflexivity. now destruct (H s0).
  - intros s1 s2 e -> -> H. unfold _calculate_bio_similarity.
    destruct (negb (truthy (PStr s1)) || negb (truthy (PStr s2)))%bool;
      [reflexivity|].
    cbn [TextBlob mbind result_bind rbind]. unfold keywords.
    assert (bool_decide ((∅ : gset string) = ∅) = true) as Hempty
      by (apply bool_decide_eq_true_2; reflexivity).
    destruct H as [H|[H|[H|H]]]; rewrite H.
    + reflexivity.
    + now destruct (noun_phrases s1).
    + destruct (noun_phrases s2); cbn [mbind result_bind rbind try_except];
        [|reflexivity].
      change (list_to_set (PyStr.lower <$> [])) with (∅ : gset string).
      now rewrite Hempty.
    + destruct (noun_phrases s1); cbn [mbind result_bind rbind try_except];
        [|reflexivity].
      change (list_to_set (PyStr.lower <$> [])) with (∅ : gset string).
      now rewrite Hempty, orb_true_r.
Qed.

End BioFacts.

Section BioFactsExamples.

Import AdvancedMatchingEngine Sample.

Lemma bio_similarity_is_jaccard_witness :
  _calculate_bio_similarity words_as_phrases
    (PStr "Cloud platforms") (PStr "cloud security")
  = inject_Z (Z.of_nat (size (({["cloud"; "platforms"]} : gset string)
                              ∩ {["cloud"; "security"]})))
    / inject_Z (Z.of_nat (size (({["cloud"; "platforms"]} : gset string)
                                ∪ {["cloud"; "security"]}))).
Proof.
  apply (bio_similarity_is_jaccard words_as_phrases
           "Cloud platforms" "cloud security"
           {["cloud"; "platforms"]} {["cloud"; "security"]}).
  - discriminate.
  - discriminate.
  - vm_compute. reflexivity.
  - vm_compute. reflexivity.
  - intros H. apply (f_equal size) in H. vm_compute in H. discriminate.
  - intros H. apply (f_equal size) in H. vm_compute in H. discriminate.
Defined.

End BioFactsExamples.

(** ** Bounds of the meeting success prediction *)

Section MeetingBounds.

Import AdvancedMatchingEngine.

Variable noun_phrases : string -> result (list string).

Lemma match_score_upper_bound user1 user2 :
  Spec.network_value_not_negative user1 ->
  Spec.network_value_not_negative user2 ->
  calculate_match_score noun_phrases user1 user2 <= 93.5.
Proof.
  intros Hn1 Hn2. unfold calculate_match_score.
  destruct (match_score_body noun_phrases user1 user2) as [v|] eqn:Hb;
    cbn [try_except]; [|lra].
  apply match_score_body_Ok in Hb as (i & t & n & l & Hi & Ht & Hn & Hl & ->).
  apply industry_compatibility_range in Hi.
  apply title_synergy_range in Ht.
  apply (network_value_compatibility_range _ _ _ Hn1 Hn2) in Hn.
  apply location_proximity_range in Hl.
  pose proof (bio_similarity_range noun_phrases
                (get user1 "bio" (PStr "")) (get user2 "bio" (PStr ""))) as Hb.
  apply py_clamp_le; lra.
Qed.

Lemma analyze_meeting_context_range (c : pydict) :
  0.5 <= _analyze_meeting_context c <= 1.
Proof.
  unfold _analyze_meeting_context.
  destruct (existsb _ ["business"; "networking"]);
    destruct (existsb _ ["office"; "conference"; "coffee_shop"]);
    destruct (eq_str _ "business_hours");
    vm_compute; split; discriminate.
Qed.

Lemma meeting_context_score_range context :
  0.5 <= meeting_context_score context <= 1.
Proof.
  unfold meeting_context_score.
  destruct (context_given context); [|lra].
  apply analyze_meeting_context_range.
Qed.

(** The bounds of the prediction on valid profiles. *)
Lemma meeting_success_bounds_valid user1 user2 context rep_a rep_b :
  Spec.network_value_not_negative user1 ->
  Spec.network_value_not_negative user2 ->
  as_num (get user1 "reputation" (PNum 50)) = Ok rep_a ->
  as_num (get user2 "reputation" (PNum 50)) = Ok rep_b ->
  0 <= rep_a <= 100 -> 0 <= rep_b <= 100 ->
  22.25 <= predict_meeting_success noun_phrases user1 user2 context <= 92.15 /\
  (context_given context = false ->
   predict_meeting_success noun_phrases user1 user2 context <= 84.65).
Proof.
  intros Hn1 Hn2 Ha Hb Hra Hrb.
  pose proof (match_score_upper_bound user1 user2 Hn1 Hn2) as Hhi.
  pose proof (calculate_match_score_range noun_phrases user1 user2) as [Hlo _].
  pose proof (meeting_context_score_range context) as Hc.
  assert (context_given context = false -> meeting_context_score context == 0.7)
    as Hnone by (unfold meeting_context_score; now intros ->).
  unfold predict_meeting_success, meeting_success_body.
  rewrite Ha, Hb.
  rewrite !py_div_nonzero by (intros H; discriminate H).
  cbn [mbind result_bind rbind]. rewrite !py_div_nonzero by (intros H; discriminate H).
  cbn [mbind result_bind rbind]. rewrite !py_div_nonzero by (intros H; discriminate H).
  cbn [mbind result_bind rbind try_except].
  set (ms := calculate_match_score noun_phrases user1 user2) in *.
  set (cs := meeting_context_score context) in *.
  assert (ms / 100 == ms * (1 # 100)) as E1 by field.
  assert ((rep_a / 100 + rep_b / 100) / 2 == (rep_a + rep_b) * (1 # 200)) as E2
    by field.
  set (x := (ms / 100 * 0.4 + cs * 0.25 + (rep_a / 100 + rep_b / 100) / 2 * 0.20
             + 0.65 * 0.15) * 100).
  assert (x == (ms * (1 # 100) * 0.4 + cs * 0.25 + (rep_a + rep_b) * (1 # 200) * 0.20
                + 0.65 * 0.15) * 100) as Ex
    by (unfold x; rewrite E1, E2; reflexivity).
  assert (py_min (py_max x 0) 100 == x) as Hx.
  { unfold py_min, py_max.
    destruct (Qlt_le_dec x 0); destruct (Qlt_le_dec 100 _); lra. }
  rewrite Hx. split; [lra|].
  intros Hg. specialize (Hnone Hg). lra.
Qed.

Lemma network_value_in_range_not_negative (p : pydict) :
  WellFormed.network_value_in_range p -> Spec.network_value_not_negative p.
Proof. intros H x Hx. exact (proj1 (H x Hx)). Qed.

(** X9. With network values between 0 and the largest float and
    reputations between 0 and 100 the meeting success prediction lies
    strictly between 22 and 93, so that neither clamp is ever reached;
    without a context (none, or an empty record) it is below 85, the
    threshold of the best grade.  The exact extremes, 22.25, 92.15 and
    84.65, are a quarter or more away from these bounds. *)
Theorem meeting_success_bounds user1 user2 context rep_a rep_b :
  WellFormed.network_value_in_range user1 ->
  WellFormed.network_value_in_range user2 ->
  as_num (get user1 "reputation" (PNum 50)) = Ok rep_a ->
  as_num (get user2 "reputation" (PNum 50)) = Ok rep_b ->
  0 <= rep_a <= 100 -> 0 <= rep_b <= 100 ->
  22 < predict_meeting_success noun_phrases user1 user2 context < 93 /\
  (context_given context = false ->
   predict_meeting_success noun_phrases user1 user2 context < 85).
Proof.
  intros Hn1 Hn2 Ha Hb Hra Hrb.
  destruct (meeting_success_bounds_valid user1 user2 context rep_a rep_b
              (network_value_in_range_not_negative _ Hn1)
              (network_value_in_range_not_negative _ Hn2) Ha Hb Hra Hrb)
    as [[Hlo Hhi] Hnone].
  split; [split; lra|]. intros Hg. specialize (Hnone Hg). lra.
Qed.

End MeetingBounds.

Section MeetingBoundsExamples.

Import AdvancedMatchingEngine Sample.

Lemma meeting_success_bounds_witness :
  22 < predict_meeting_success words_as_phrases founder manager None < 93.
Proof.
  apply (meeting_success_bounds words_as_phrases founder manager None 90 70).
  - intros x H. vm_compute in H. injection H as <-. split; vm_compute; discriminate.
  - intros x H. vm_compute in H. injection H as <-. split; vm_compute; discriminate.
  - vm_compute. reflexivity.
  - vm_compute. reflexivity.
  - split; vm_compute; discriminate.
  - split; vm_compute; discriminate.
Defined.

End MeetingBoundsExamples.

(** * Further properties of the market intelligence service *)

Section CacheFacts.

Import MarketIntelligenceEngine Derived.

Variable rng : Type.
Variable np_random_normal : Q -> Q -> rng -> Q * rng.

Abbreviation analyze_market_trends :=
  (analyze_market_trends rng np_random_normal).
Abbreviation refresh_trends := (refresh_trends rng np_random_normal).
Abbreviation run := (run rng np_random_normal).

Lemma refresh_trends_frame self g key now industry k :
  (k <> key -> (refresh_trends self g key now industry).1.2 !! k = self !! k) /\
  (is_Some (self !! k) ->
   is_Some ((refresh_trends self g key now industry).1.2 !! k)).
Proof.
  unfold MarketIntelligenceEngine.refresh_trends.
  destruct (mbind _ _) as [[ig et]|]; [|split; auto].
  destruct (np_random_normal 0 0.05 g) as [jitter g']. cbn [fst snd]. split.
  - intros Hne. now rewrite lookup_insert_ne.
  - intros Hs. destruct (decide (key = k)) as [->|Hne].
    + rewrite lookup_insert_eq. eauto.
    + now rewrite lookup_insert_ne.
Qed.

Lemma analyze_frame (self : cache) g now industry user_location k :
  (k <> key_of industry user_location ->
   (analyze_market_trends self g now industry user_location).1.2 !! k
   = self !! k) /\
  (is_Some (self !! k) ->
   is_Some ((analyze_market_trends self g now industry user_location).1.2 !! k)).
Proof.
  unfold MarketIntelligenceEngine.analyze_market_trends,
    MarketIntelligenceEngine.analyze_body.
  fold (key_of industry user_location).
  set (key := key_of industry user_location).
  pose proof (refresh_trends_frame self g key now industry k) as Hmiss.
  destruct (refresh_trends self g key now industry) as [[r c] g'].
  destruct (self !! key) as [entry|]; [|exact Hmiss].
  destruct (_ <? _)%Z; [split; auto | exact Hmiss].
Qed.

(** Without an industry nothing is ever stored. *)
Lemma analyze_no_industry_keeps_cache (self : cache) g now user_location :
  (analyze_market_trends self g now None user_location).1.2 = self.
Proof.
  unfold MarketIntelligenceEngine.analyze_market_trends,
    MarketIntelligenceEngine.analyze_body,
    MarketIntelligenceEngine.refresh_trends.
  cbn [_calculate_industry_growth lower_of mbind result_bind rbind].
  destruct (self !! _) as [entry|]; [|reflexivity].
  destruct (_ <? _)%Z; reflexivity.
Qed.

(** X10. A call of [analyze_market_trends] writes at most the entry of
    its own key: every other key keeps its entry, and no key is ever
    removed from the cache. *)
Theorem analyze_writes_only_its_key (self : cache) g now industry user_location :
  (forall k,
      k <> key_of industry user_location ->
      (analyze_market_trends self g now industry user_location).1.2 !! k
      = self !! k) /\
  (forall k,
      is_Some (self !! k) ->
      is_Some ((analyze_market_trends self g now industry user_location).1.2 !! k)).
Proof.
  split; intros k; apply analyze_frame.
Qed.

(** The entry behind the bundle returned for an industry text. *)
Lemma analyze_text_industry_entry (self : cache) g now
    (industry : string) user_location :
  exists entry,
    (analyze_market_trends self g now (Some industry) user_location).1.2
      !! key_of (Some industry) user_location = Some entry /\
    data entry =
      (analyze_market_trends self g now (Some industry) user_location).1.1 /\
    (now - timestamp entry < timedelta_hours 6)%Z /\
    exists self' g',
      MarketIntelligenceEngine.analyze_body rng np_random_normal
        self g now (Some industry) user_location = (Ok (data entry), self', g').
Proof.
  unfold MarketIntelligenceEngine.analyze_market_trends,
    MarketIntelligenceEngine.analyze_body.
  fold (key_of (Some industry) user_location).
  set (key := key_of (Some industry) user_location).
  destruct (refresh_trends_Ok rng np_random_normal self g key now industry)
    as (fresh & Hfresh & _).
  assert (exists entry,
    (let '(r, self', g') := refresh_trends self g key now (Some industry) in
     (try_except r _get_default_trends, self', g')).1.2 !! key = Some entry /\
    data entry =
      (let '(r, self', g') := refresh_trends self g key now (Some industry) in
       (try_except r _get_default_trends, self', g')).1.1 /\
    (now - timestamp entry < timedelta_hours 6)%Z /\
    exists self' g',
      refresh_trends self g key now (Some industry) = (Ok (data entry), self', g'))
    as Hmiss.
  { rewrite Hfresh. cbn [fst snd try_except].
    exists {| data := fresh; timestamp := now |}.
    rewrite lookup_insert_eq. cbn [data timestamp].
    repeat split; [unfold timedelta_hours; lia | eauto]. }
  destruct (self !! key) as [entry|] eqn:Hk; [|exact Hmiss].
  unfold cache_expiry.
  destruct (Z.ltb_spec (now - timestamp entry) (timedelta_hours 6)); [|exact Hmiss].
  exists entry. cbn [fst snd try_except]. repeat split; eauto.
Qed.

(** X11. With an industry text the analysis never fails: it returns a
    bundle that is, after the call, the one stored under the key, in an
    entry that is younger than six hours at the time of the call. *)
Theorem analyze_text_industry_is_cached (self : cache) g now
    (industry : string) user_location :
  exists entry,
    (analyze_market_trends self g now (Some industry) user_location).1.2
      !! key_of (Some industry) user_location = Some entry /\
    data entry =
      (analyze_market_trends self g now (Some industry) user_location).1.1 /\
    (now - timestamp entry < timedelta_hours 6)%Z /\
    exists self' g',
      MarketIntelligenceEngine.analyze_body rng np_random_normal
        self g now (Some industry) user_location = (Ok (data entry), self', g').
Proof. exact (analyze_text_industry_entry self g now industry user_location). Qed.

Lemma run_keys calls : forall (self : cache) g k,
  is_Some ((run self g calls).1 !! k) ->
  is_Some (self !! k) \/
  exists c, In c calls /\ is_Some (call_industry c) /\
            k = key_of (call_industry c) (call_location c).
Proof.
  induction calls as [|c calls IH]; intros self g k Hk; [now left|].
  cbn [MarketIntelligenceEngine.run] in Hk.
  pose proof (proj1 (analyze_frame self g (call_time c) (call_industry c)
                       (call_location c) k)) as Hframe.
  pose proof (analyze_no_industry_keeps_cache self g (call_time c)
                (call_location c)) as Hnone.
  destruct (call_industry c) as [s|] eqn:Hind.
  - destruct (analyze_market_trends self g (call_time c) (Some s)
                (call_location c)) as [[r self1] g1].
    cbn [fst snd] in Hframe.
    destruct (IH self1 g1 k Hk) as [Hin | (c' & Hc' & Hi & ->)].
    + destruct (decide (k = key_of (Some s) (call_location c))) as [->|Hne].
      * right. exists c. rewrite Hind. repeat split; eauto. now left.
      * left. now rewrite <- (Hframe Hne).
    + right. exists c'. repeat split; auto. now right.
  - destruct (analyze_market_trends self g (call_time c) None
                (call_location c)) as [[r self1] g1].
    cbn [fst snd] in Hnone. subst self1.
    destruct (IH self g1 k Hk) as [Hin | (c' & Hc' & Hi & ->)]; [now left|].
    right. exists c'. repeat split; auto. now right.
Qed.

(** X12. After any sequence of calls that starts from the empty cache,
    every key of the cache is the key of one of the calls that gave an
    industry, and every stored bundle carries the time of its entry. *)
Theorem cache_holds_only_requested_keys calls g k entry :
  (run __init__ g calls).1 !! k = Some entry ->
  (exists c, In c calls /\ is_Some (call_industry c) /\
             k = key_of (call_industry c) (call_location c)) /\
  lastUpdated (data entry) = Some (timestamp entry).
Proof.
  intros Hk. split.
  - destruct (run_keys calls __init__ g k) as [Hin|H]; [eauto| |exact H].
    unfold __init__ in Hin. rewrite lookup_empty in Hin. now destruct Hin.
  - assert (Spec.stamped __init__) as H0
      by (intros k' e'; unfold __init__; rewrite lookup_empty; discriminate).
    exact (run_keeps_stamped rng np_random_normal calls __init__ g H0 k entry Hk).
Qed.

End CacheFacts.

Section CacheFactsExamples.

Import MarketIntelligenceEngine Derived Sample.

Lemma cache_holds_only_requested_keys_witness :
  exists c,
    In c [ {| call_time := 5; call_industry := Some "Finance";
              call_location := Some "Oslo" |};
           {| call_time := 9; call_industry := None; call_location := None |} ] /\
    is_Some (call_industry c) /\
    "Finance_Oslo" = key_of (call_industry c) (call_location c).
Proof.
  eapply (cache_holds_only_requested_keys nat constant_normal
            [ {| call_time := 5; call_industry := Some "Finance";
                 call_location := Some "Oslo" |};
              {| call_time := 9; call_industry := None; call_location := None |} ]
            0%nat "Finance_Oslo").
  vm_compute. reflexivity.
Defined.

End CacheFactsExamples.

Section OpportunityFacts.

Import MarketIntelligenceEngine.

(** X13. On every profile, well-formed or not, the list of
    opportunities has at most three entries, each one of the three
    fixed opportunities, in descending order of confidence; the cut to
    five entries never removes anything. *)
Theorem at_most_three_opportunities (profile : pydict) :
  (length (predict_business_opportunities profile) <= 3)%nat /\
  Spec.by_confidence_desc (predict_business_opportunities profile) /\
  Forall (fun o => o = ai_partnership \/ o = healthcare_expansion \/
                   o = angel_investment)
         (predict_business_opportunities profile).
Proof.
  unfold predict_business_opportunities, opportunities_body.
  destruct (py_lower (get profile "industry" (PStr ""))) as [il|];
    cbn [mbind result_bind rbind try_except];
    [|repeat split; [cbn; lia | constructor | constructor]].
  destruct (py_gt (get profile "networkValue" (PNum 0)) 10000) as [big|];
    cbn [mbind result_bind rbind try_except];
    [|repeat split; [cbn; lia | constructor | constructor]].
  unfold Spec.by_confidence_desc.
  destruct (PyStr.contains "technology" il); destruct big;
    (split; [vm_compute; lia|]);
    (split; [apply take_sorted, sort_desc_sorted|]);
    vm_compute;
    repeat (apply Forall_cons; split;
            [first [ left; reflexivity
                   | right; left; reflexivity
                   | right; right; reflexivity ]|]);
    constructor.
Qed.

(** X14. On a profile with an industry text and a numeric network value
    each opportunity is present exactly when its condition holds: the
    two technology opportunities when the lower-cased text holds
    "technology", the investment opportunity when the network value
    exceeds 10000; the list is empty exactly when neither holds. *)
Theorem opportunities_by_condition profile industry network_value :
  get profile "industry" (PStr "") = PStr industry ->
  as_num (get profile "networkValue" (PNum 0)) = Ok network_value ->
  let tech := PyStr.contains "technology" (PyStr.lower industry) in
  let result := predict_business_opportunities profile in
  (In ai_partnership result <-> tech = true) /\
  (In healthcare_expansion result <-> tech = true) /\
  (In angel_investment result <-> 10000 < network_value) /\
  (result = [] <-> tech = false /\ network_value <= 10000).
Proof.
  intros Hi Hn. cbv zeta.
  rewrite (opportunities_sorted_candidates _ _ _ Hi Hn).
  unfold Spec.opportunity_candidates.
  destruct (PyStr.contains "technology" (PyStr.lower industry));
    destruct (Qlt_le_dec 10000 network_value) as [Hbig|Hsmall];
    vm_compute sort_desc; cbn [take In];
    repeat split; intros; try tauto; try discriminate; try lra;
    repeat match goal with
           | H : _ \/ _ |- _ => destruct H
           | H : _ /\ _ |- _ => destruct H
           | H : False |- _ => destruct H
           end; try discriminate; try lra; auto.
Qed.

Lemma opportunities_by_condition_witness :
  In angel_investment (predict_business_opportunities Sample.technologist) <->
  10000 < 50000.
Proof.
  apply (opportunities_by_condition Sample.technologist "technology" 50000).
  - vm_compute. reflexivity.
  - vm_compute. reflexivity.
Defined.

End OpportunityFacts.

(** * Further properties of the deal outcome predictor *)

Section DealFacts.

Import DealSuccessPredictor Derived.

Lemma extract_deal_features_five deal features :
  _extract_deal_features deal = Ok features ->
  exists f0 f1 f2 f3 f4,
    features = [f0; f1; f2; f3; f4] /\ 0 <= f1 /\ (f3 = 0 \/ f3 = 1).
Proof.
  unfold _extract_deal_features.
  destruct (as_num (get deal "value" _)) as [v|]; [|discriminate].
  cbn [mbind result_bind rbind].
  destruct (py_div v 1000000) as [f0|]; [|discriminate].
  cbn [mbind result_bind rbind].
  destruct (py_len (get deal "description" _)) as [n|] eqn:Hlen; [|discriminate].
  cbn [mbind result_bind rbind].
  destruct (py_div n 1000) as [f1|] eqn:Hf1; [|discriminate].
  cbn [mbind result_bind rbind].
  destruct (as_num (get deal "match_score" _)) as [ms|]; [|discriminate].
  cbn [mbind result_bind rbind].
  destruct (py_div ms 100) as [f2|]; [|discriminate].
  cbn [mbind result_bind rbind].
  destruct (py_lower (get deal "description" _)) as [d|]; [|discriminate].
  cbn [mbind result_bind rbind].
  destruct (as_num (get deal "duration_months" _)) as [dm|]; [|discriminate].
  cbn [mbind result_bind rbind].
  destruct (py_div dm 12) as [f4|]; [|discriminate].
  cbn [mbind result_bind rbind]. intros [= <-].
  eexists _, _, _, _, _. split; [reflexivity|]. split.
  - apply py_div_Ok in Hf1 as [_ ->].
    assert (0 <= n) as Hn.
    { destruct (get deal "description" (PStr "")); try discriminate;
        injection Hlen as <-; change 0 with (inject_Z 0);
        rewrite <- Zle_Qle; lia. }
    apply Qle_shift_div_l; lra.
  - destruct (PyStr.contains "urgent" d); auto.
Qed.

(** X15. On a well-formed deal record whose numbers are within the
    floats the feature extraction never raises; whenever it succeeds
    the vector has exactly five entries, the description length is not
    negative and the urgency flag is 0 or 1. *)
Theorem deal_features_shape (deal : pydict) :
  (WellFormed.deal deal -> WellFormed.deal_in_range deal ->
   exists features, _extract_deal_features deal = Ok features) /\
  (forall features,
      _extract_deal_features deal = Ok features ->
      exists f0 f1 f2 f3 f4,
        features = [f0; f1; f2; f3; f4] /\ 0 <= f1 /\ (f3 = 0 \/ f3 = 1)).
Proof.
  split; [|apply extract_deal_features_five].
  intros (Hv & Hd & Hm & Hdur) _. unfold _extract_deal_features.
  rewrite (get_number _ _ 10000 Hv), (get_number _ _ 50 Hm),
    (get_number _ _ 6 Hdur).
  destruct (get_text _ _ Hd) as [desc ->].
  cbn [py_len py_lower mbind result_bind rbind].
  repeat (rewrite py_div_nonzero by (intros H; discriminate H);
          cbn [mbind result_bind rbind]).
  eauto.
Qed.

(** X16. Three factors are reported for every feature vector of five
    entries, always in the same order: partner compatibility (0.4),
    deal value (0.2), timeline (0.2), each with the value of its
    feature; description detail and urgency are never reported. *)
Theorem key_factors_are_fixed (f0 f1 f2 f3 f4 : Q) :
  factor_name <$> _identify_key_factors [f0; f1; f2; f3; f4] =
    ["Partner Compatibility"; "Deal Value"; "Timeline"] /\
  importance <$> _identify_key_factors [f0; f1; f2; f3; f4] = [0.4; 0.2; 0.2] /\
  current_value <$> _identify_key_factors [f0; f1; f2; f3; f4] = [f2; f0; f4] /\
  factor_impact <$> _identify_key_factors [f0; f1; f2; f3; f4] =
    [ if Qlt_le_dec 0.5 f2 then "positive" else "negative";
      if Qlt_le_dec 0.5 f0 then "positive" else "negative";
      if Qlt_le_dec 0.5 f4 then "positive" else "negative" ].
Proof.
  repeat split; vm_compute; reflexivity.
Qed.

Lemma In_app_singleton (x y : string) l : In x (l ++ [y]) <-> In x l \/ x = y.
Proof. rewrite in_app_iff. cbn. intuition. Qed.

(** X17. The recommendations are a sub-sequence of the four advisory
    texts in their fixed order, and each text is present exactly when
    its test holds: low partner compatibility (below 0.6), a short
    description (below 0.3), a success probability below 0.5, a deal
    value above 0.8. *)
Theorem recommendations_by_test (features : list Q) (success_prob : Q) :
  let recs := _generate_recommendations features success_prob in
  sublist recs
    [advice_alignment; advice_documentation; advice_risk; advice_milestones] /\
  (In advice_alignment recs <-> feature features 2 < 0.6) /\
  (In advice_documentation recs <-> feature features 1 < 0.3) /\
  (In advice_risk recs <-> success_prob < 0.5) /\
  (In advice_milestones recs <-> 0.8 < feature features 0).
Proof.
  cbv zeta. unfold _generate_recommendations.
  destruct (Qlt_le_dec (feature features 2) 0.6);
    destruct (Qlt_le_dec (feature features 1) 0.3);
    destruct (Qlt_le_dec success_prob 0.5);
    destruct (Qlt_le_dec 0.8 (feature features 0));
    cbv beta zeta; cbn [app];
    (split;
     [ unfold advice_alignment, advice_documentation, advice_risk,
         advice_milestones;
       repeat first [ apply sublist_nil | apply sublist_skip | apply sublist_cons ]
     | ]);
    unfold advice_alignment, advice_documentation, advice_risk, advice_milestones;
    cbn [In];
    repeat split; intros;
    repeat match goal with
           | H : _ \/ _ |- _ => destruct H
           | H : False |- _ => destruct H
           end;
    try discriminate; try lra; auto 6.
Qed.

End DealFacts.

Section PredictorFacts.

Import DealSuccessPredictor Derived.

Variable rng : Type.
Variable np_random_seed : Z -> rng.
Variable np_random_rand : nat -> nat -> rng -> list (list Q) * rng.
Variable np_random_normal : Q -> Q -> nat -> rng -> list Q * rng.
Variable estimator : Type.
Variable fit : estimator -> list (list Q) -> list Q -> estimator.
Variable predict : estimator -> list Q -> result Q.

Abbreviation predictor := (predictor estimator).
Abbreviation training_set :=
  (training_set rng np_random_seed np_random_rand np_random_normal).
Abbreviation deal_success_body :=
  (deal_success_body rng np_random_seed np_random_rand np_random_normal
     estimator fit predict).
Abbreviation predict_deal_success :=
  (predict_deal_success rng np_random_seed np_random_rand np_random_normal
     estimator fit predict).

(** The predictor after a training. *)
Definition trained (p : predictor) : predictor :=
  {| model := fit (model p) training_set.1.1 training_set.1.2;
     is_trained := true;
     fits := S (fits p) |}.

Lemma train_model_eq (p : predictor) g :
  _train_model rng np_random_seed np_random_rand np_random_normal estimator fit p g
  = (trained p, training_set.2).
Proof.
  unfold _train_model, trained. now destruct training_set as [[X0 y0] g0].
Qed.

Lemma clamped_probability_range sp :
  0 <= py_max 0 (py_min 1 sp) * 100 <= 100.
Proof.
  unfold py_max, py_min.
  destruct (Qlt_le_dec sp 1); destruct (Qlt_le_dec 0 _); lra.
Qed.

Lemma risk_advice_iff features sp :
  In advice_risk (_generate_recommendations features sp) <-> sp < 0.5.
Proof.
  unfold _generate_recommendations.
  destruct (Qlt_le_dec (feature features 2) 0.6);
    destruct (Qlt_le_dec (feature features 1) 0.3);
    destruct (Qlt_le_dec sp 0.5);
    destruct (Qlt_le_dec 0.8 (feature features 0));
    cbv beta zeta; cbn [app]; unfold advice_risk; cbn [In];
    split; intros;
    repeat match goal with
           | H : _ \/ _ |- _ => destruct H
           | H : False |- _ => destruct H
           end;
    try discriminate; try lra; auto 6.
Qed.

(** What a successful run of the body has computed. *)
Lemma deal_success_body_Ok (self : predictor) g deal pr self' g' :
  deal_success_body self g deal = (Ok pr, self', g') ->
  exists features sp,
    _extract_deal_features deal = Ok features /\
    pr = {| success_probability := py_max 0 (py_min 1 sp) * 100;
            confidence := 0.82;
            key_factors := _identify_key_factors features;
            recommendations :=
              _generate_recommendations features (py_max 0 (py_min 1 sp)) |}.
Proof.
  unfold DealSuccessPredictor.deal_success_body.
  destruct (_extract_deal_features deal) as [features|]; [|discriminate].
  destruct (if negb (is_trained self) then _ else _) as [self1 g1].
  destruct (predict (model self1) features) as [sp|]; [|discriminate].
  intros [= <- _ _]. eauto.
Qed.

(** X18. Whatever the record, the predictor and the estimator's answer,
    the reported success probability lies between 0 and 100, and the
    reported confidence is 0.82 for a prediction and 0.3 for the
    default. *)
Theorem deal_probability_between_0_and_100 (self : predictor) g deal :
  0 <= success_probability (predict_deal_success self g deal).1.1 <= 100 /\
  (confidence (predict_deal_success self g deal).1.1 = 0.82 \/
   confidence (predict_deal_success self g deal).1.1 = 0.3).
Proof.
  unfold DealSuccessPredictor.predict_deal_success.
  destruct (deal_success_body self g deal) as [[[pr|e] self'] g'] eqn:Hb;
    cbn [fst snd try_except].
  - apply deal_success_body_Ok in Hb as (features & sp & _ & ->).
    cbn [success_probability confidence].
    split; [apply clamped_probability_range | now left].
  - cbn. split; [lra | now right].
Qed.

(** X19. In every prediction that is not the default the three key
    factors are partner compatibility, deal value and timeline, in this
    order, and the advice on risk mitigation is given exactly when the
    reported probability is below 50. *)
Theorem prediction_is_consistent (self : predictor) g deal pr self' g' :
  deal_success_body self g deal = (Ok pr, self', g') ->
  factor_name <$> key_factors pr =
    ["Partner Compatibility"; "Deal Value"; "Timeline"] /\
  (In advice_risk (recommendations pr) <-> success_probability pr < 50) /\
  confidence pr = 0.82.
Proof.
  intros Hb. apply deal_success_body_Ok in Hb as (features & sp & Hf & ->).
  cbn [key_factors recommendations success_probability confidence].
  apply extract_deal_features_five in Hf as (f0 & f1 & f2 & f3 & f4 & -> & _).
  split; [vm_compute; reflexivity|]. split; [|reflexivity].
  rewrite risk_advice_iff. split; intros H; lra.
Qed.

(** X20. A call on an untrained predictor whose features can be
    extracted trains it and leaves NumPy's generator in the state that
    follows the seeding and the two draws, whatever its state was
    before. *)
Theorem training_reseeds_the_generator (self : predictor) g deal features :
  is_trained self = false ->
  _extract_deal_features deal = Ok features ->
  (predict_deal_success self g deal).1.2 = trained self /\
  (predict_deal_success self g deal).2 = training_set.2.
Proof.
  intros Ht Hf. unfold DealSuccessPredictor.predict_deal_success,
    DealSuccessPredictor.deal_success_body.
  rewrite Hf, Ht. cbn [negb]. rewrite train_model_eq.
  destruct (predict (model (trained self)) features); split; reflexivity.
Qed.

(** X21. The two ways in which a prediction fails.  When the feature
    extraction raises, the default is returned and predictor and
    generator are untouched: an untrained predictor stays untrained.
    When the estimator raises on an untrained predictor, the default is
    returned but the training done just before persists. *)
Theorem failed_prediction_states (self : predictor) g deal :
  (forall e,
      _extract_deal_features deal = Raise e ->
      predict_deal_success self g deal = (default_prediction, self, g)) /\
  (forall features e,
      _extract_deal_features deal = Ok features ->
      is_trained self = false ->
      predict (model (trained self)) features = Raise e ->
      predict_deal_success self g deal =
      (default_prediction, trained self, training_set.2)).
Proof.
  split.
  - intros e Hf. unfold DealSuccessPredictor.predict_deal_success,
      DealSuccessPredictor.deal_success_body. now rewrite Hf.
  - intros features e Hf Ht Hp.
    unfold DealSuccessPredictor.predict_deal_success,
      DealSuccessPredictor.deal_success_body.
    rewrite Hf, Ht. cbn [negb]. rewrite train_model_eq. now rewrite Hp.
Qed.

End PredictorFacts.

Section PredictorFactsExamples.

Import DealSuccessPredictor Derived Sample.

Lemma urgent_deal_well_formed : WellFormed.deal urgent_deal.
Proof.
  repeat split; unfold WellFormed.text_field, WellFormed.numeric_field;
    vm_compute; eauto.
Qed.

Lemma prediction_is_consistent_witness :
  factor_name <$>
    key_factors
      (predict_deal_success nat toy_seed toy_rand toy_normal_n (option Q)
         toy_fit toy_predict (__init__ (option Q) toy_estimator) 7%nat
         urgent_deal).1.1
  = ["Partner Compatibility"; "Deal Value"; "Timeline"].
Proof.
  eapply (prediction_is_consistent nat toy_seed toy_rand toy_normal_n (option Q)
            toy_fit toy_predict (__init__ (option Q) toy_estimator) 7%nat
            urgent_deal).
  vm_compute. reflexivity.
Defined.

Lemma training_reseeds_the_generator_witness :
  (predict_deal_success nat toy_seed toy_rand toy_normal_n (option Q)
     toy_fit toy_predict (__init__ (option Q) toy_estimator) 7%nat
     urgent_deal).2
  = (training_set nat toy_seed toy_rand toy_normal_n).2.
Proof.
  eapply (training_reseeds_the_generator nat toy_seed toy_rand toy_normal_n
            (option Q) toy_fit toy_predict (__init__ (option Q) toy_estimator)
            7%nat urgent_deal).
  - reflexivity.
  - vm_compute. reflexivity.
Defined.

End PredictorFactsExamples.

(** * Properties of the HTTP handlers *)

Section JsonValues.

Import Routes.

Lemma dict_of_empty_iff items : dict_of items = ∅ <-> items = [].
Proof.
  split; [|now intros ->].
  destruct items as [|[k v] items]; [reflexivity|].
  unfold dict_of. cbn [list_to_map foldr]. intros H.
  apply (f_equal (fun m : pydict => m !! k)) in H.
  rewrite lookup_insert_eq, lookup_empty in H. discriminate.
Qed.

Lemma truthy_dict items :
  truthy (PDict items) = negb (bool_decide (dict_of items = ∅)).
Proof.
  destruct items as [|kv items]; cbn [truthy].
  - now rewrite bool_decide_eq_true_2.
  - rewrite bool_decide_eq_false_2; [reflexivity|].
    intros H. now apply dict_of_empty_iff in H.
Qed.

Lemma as_dict_Ok v d : as_dict v = Ok d -> exists items, v = PDict items /\ d = dict_of items.
Proof. destruct v; try discriminate. intros [= <-]. eauto. Qed.

Variable noun_phrases : string -> result (list string).

Lemma calculate_match_score_objects items1 items2 :
  calculate_match_score noun_phrases (PDict items1) (PDict items2) =
  AdvancedMatchingEngine.calculate_match_score noun_phrases
    (dict_of items1) (dict_of items2).
Proof. reflexivity. Qed.

Lemma calculate_match_score_range_json user1 user2 :
  0 <= calculate_match_score noun_phrases user1 user2 <= 100.
Proof.
  unfold calculate_match_score.
  destruct (as_dict user1) as [d1|]; cbn [mbind result_bind rbind try_except]; [|lra].
  destruct (as_dict user2) as [d2|]; cbn [mbind result_bind rbind try_except]; [|lra].
  apply calculate_match_score_range.
Qed.

Lemma predict_meeting_success_objects items1 items2 itemsc :
  predict_meeting_success noun_phrases (PDict items1) (PDict items2) (PDict itemsc) =
  AdvancedMatchingEngine.predict_meeting_success noun_phrases
    (dict_of items1) (dict_of items2) (Some (dict_of itemsc)).
Proof.
  unfold predict_meeting_success, AdvancedMatchingEngine.predict_meeting_success,
    AdvancedMatchingEngine.meeting_success_body,
    AdvancedMatchingEngine.meeting_context_score,
    AdvancedMatchingEngine.context_given.
  rewrite calculate_match_score_objects, truthy_dict.
  cbn [as_dict default from_option id].
  destruct (negb (bool_decide (dict_of itemsc = ∅)));
    cbn [mbind result_bind rbind]; reflexivity.
Qed.

(** X22. Called with JSON objects, the entry points of the engine agree
    with their versions on dictionaries.  A user that is not an object
    makes the match score 0.0 and the meeting prediction 50.0; so does,
    for the prediction, a context that is true but not an object, while
    a context that is false ([null], an empty text, zero) counts as no
    context. *)
Theorem engine_on_json_values user1 user2 context :
  (forall items1 items2,
      user1 = PDict items1 -> user2 = PDict items2 ->
      calculate_match_score noun_phrases user1 user2 =
        AdvancedMatchingEngine.calculate_match_score noun_phrases
          (dict_of items1) (dict_of items2) /\
      (forall itemsc,
          context = PDict itemsc ->
          predict_meeting_success noun_phrases user1 user2 context =
            AdvancedMatchingEngine.predict_meeting_success noun_phrases
              (dict_of items1) (dict_of items2) (Some (dict_of itemsc))) /\
      (truthy context = false ->
       predict_meeting_success noun_phrases user1 user2 context =
         AdvancedMatchingEngine.predict_meeting_success noun_phrases
           (dict_of items1) (dict_of items2) None)) /\
  ((forall items, user1 <> PDict items) \/ (forall items, user2 <> PDict items) ->
   calculate_match_score noun_phrases user1 user2 = 0.0 /\
   predict_meeting_success noun_phrases user1 user2 context = 50.0) /\
  (truthy context = true -> (forall items, context <> PDict items) ->
   predict_meeting_success noun_phrases user1 user2 context = 50.0).
Proof.
  split; [|split].
  - intros items1 items2 -> ->. split; [reflexivity|]. split.
    + intros itemsc ->. apply predict_meeting_success_objects.
    + intros Hc.
      unfold predict_meeting_success,
        AdvancedMatchingEngine.predict_meeting_success,
        AdvancedMatchingEngine.meeting_success_body,
        AdvancedMatchingEngine.meeting_context_score,
        AdvancedMatchingEngine.context_given.
      rewrite calculate_match_score_objects, Hc. reflexivity.
  - intros H.
    assert (calculate_match_score noun_phrases user1 user2 = 0.0) as H0.
    { unfold calculate_match_score. destruct H as [H|H].
      - destruct user1; try reflexivity. now destruct (H d).
      - destruct (as_dict user1); [|reflexivity].
        destruct user2; try reflexivity. now destruct (H d). }
    split; [exact H0|].
    unfold predict_meeting_success. rewrite H0.
    rewrite py_div_nonzero by (intros E; discriminate E).
    cbn [mbind result_bind rbind].
    destruct (if truthy context then _ else _) as [cs|];
      cbn [mbind result_bind rbind try_except]; [|reflexivity].
    destruct H as [H|H].
    + destruct user1; try reflexivity. now destruct (H d).
    + destruct (as_dict user1) as [d1|];
        cbn [mbind result_bind rbind try_except]; [|reflexivity].
      destruct (as_num _) as [r1|];
        cbn [mbind result_bind rbind try_except]; [|reflexivity].
      destruct (py_div r1 100);
        cbn [mbind result_bind rbind try_except]; [|reflexivity].
      destruct user2; try reflexivity. now destruct (H d).
  - intros Ht Hc. unfold predict_meeting_success.
    destruct (py_div _ 100); cbn [mbind result_bind rbind try_except];
      [|reflexivity].
    rewrite Ht. destruct context; try reflexivity. now destruct (Hc d).
Qed.

End JsonValues.

Section Rounding.

Import Routes.

Lemma scale_pos (n : nat) : 0 < inject_Z (10 ^ Z.of_nat n).
Proof.
  change 0 with (inject_Z 0). rewrite <- Zlt_Qlt.
  apply Z.pow_pos_nonneg; lia.
Qed.

(** The rounded value is an integer multiple of the unit, at most half
    a unit from the argument. *)
Lemma py_round_nearest x n :
  exists k : Z,
    py_round x n = inject_Z k / inject_Z (10 ^ Z.of_nat n) /\
    - (1 # 2) <= inject_Z k - x * inject_Z (10 ^ Z.of_nat n) <= 1 # 2.
Proof.
  unfold py_round. set (s := inject_Z (10 ^ Z.of_nat n)). set (y := x * s).
  pose proof (Qfloor_le y) as Hlo. pose proof (Qlt_floor y) as Hhi.
  rewrite inject_Z_plus in Hhi. change (inject_Z 1) with 1 in Hhi.
  destruct (Qlt_le_dec (y - inject_Z (Qfloor y)) (1 # 2)) as [H1|H1].
  - exists (Qfloor y). split; [reflexivity|]. lra.
  - assert (- (1 # 2) <= inject_Z (Qfloor y + 1) - y <= 1 # 2) as Hup
      by (rewrite inject_Z_plus; change (inject_Z 1) with 1; lra).
    destruct (Qlt_le_dec (1 # 2) (y - inject_Z (Qfloor y))) as [H2|H2].
    + exists (Qfloor y + 1)%Z. split; [reflexivity | exact Hup].
    + destruct (Z.even (Qfloor y)).
      * exists (Qfloor y). split; [reflexivity|]. lra.
      * exists (Qfloor y + 1)%Z. split; [reflexivity | exact Hup].
Qed.

Lemma half_integer_le (k m : Z) : inject_Z k <= inject_Z m + (1 # 2) -> (k <= m)%Z.
Proof.
  unfold Qle, Qplus, inject_Z. cbn [Qnum Qden]. lia.
Qed.

Lemma half_integer_ge (k m : Z) : inject_Z m - (1 # 2) <= inject_Z k -> (m <= k)%Z.
Proof.
  unfold Qle, Qminus, Qplus, Qopp, inject_Z. cbn [Qnum Qden]. lia.
Qed.

Lemma py_round_between (lo hi : Z) x n :
  inject_Z lo <= x <= inject_Z hi ->
  inject_Z lo <= py_round x n <= inject_Z hi.
Proof.
  intros [Hlo Hhi].
  destruct (py_round_nearest x n) as (k & -> & Hk1 & Hk2).
  pose proof (scale_pos n) as Hs.
  set (S := (10 ^ Z.of_nat n)%Z) in *.
  assert (inject_Z lo * inject_Z S <= x * inject_Z S) as Hlo'
    by (apply Qmult_le_compat_r; lra).
  assert (x * inject_Z S <= inject_Z hi * inject_Z S) as Hhi'
    by (apply Qmult_le_compat_r; lra).
  rewrite <- inject_Z_mult in Hlo', Hhi'.
  assert (lo * S <= k)%Z as Hk_lo by (apply half_integer_ge; lra).
  assert (k <= hi * S)%Z as Hk_hi by (apply half_integer_le; lra).
  split.
  - apply Qle_shift_div_l; [exact Hs|]. rewrite <- inject_Z_mult, <- Zle_Qle.
    exact Hk_lo.
  - apply Qle_shift_div_r; [exact Hs|]. rewrite <- inject_Z_mult, <- Zle_Qle.
    exact Hk_hi.
Qed.

(** X23. [round(x, n)] is an integer multiple of 10^-n, at most half
    such a unit away from x, and it never leaves an interval with
    integer bounds that holds x: a score between 0 and 100 is still
    between 0 and 100 after rounding. *)
Theorem py_round_is_nearest x n :
  (exists k : Z,
      py_round x n = inject_Z k / inject_Z (10 ^ Z.of_nat n) /\
      - (1 # 2) <= inject_Z k - x * inject_Z (10 ^ Z.of_nat n) <= 1 # 2) /\
  (forall lo hi : Z,
      inject_Z lo <= x <= inject_Z hi ->
      inject_Z lo <= py_round x n <= inject_Z hi).
Proof.
  split; [apply py_round_nearest|].
  intros lo hi. apply py_round_between.
Qed.

End Rounding.

Section Bands.

Import Routes.

Local Ltac bands :=
  unfold compatibility_level, match_recommendation, meeting_grade, risk_level,
    recommended_action, py_ge;
  repeat match goal with
         | |- context [Qlt_le_dec ?a ?b] => destruct (Qlt_le_dec a b)
         end;
  repeat split; intros; try discriminate; try reflexivity; try lra;
  repeat match goal with
         | H : _ \/ _ |- _ => destruct H
         | H : _ /\ _ |- _ => destruct H
         end;
  try discriminate; try lra; auto.

(** X24. The label and the recommendation of a match score fit
    together: "Poor" goes with the caution, "Fair" with the advice to
    consider the context, "Good" with a promising opportunity,
    "Excellent" with a highly recommended connection, and "Very Good"
    with either of the last two, the recommendation changing at 75. *)
Theorem level_and_recommendation_agree (match_score : Q) :
  (compatibility_level match_score = "Poor" <->
   match_recommendation match_score = "Low compatibility - proceed with caution") /\
  (compatibility_level match_score = "Fair" <->
   match_recommendation match_score = "Consider context before connecting") /\
  (compatibility_level match_score = "Good" ->
   match_recommendation match_score = "Promising networking opportunity") /\
  (compatibility_level match_score = "Excellent" ->
   match_recommendation match_score = "Highly recommended connection") /\
  (compatibility_level match_score = "Very Good" ->
   (match_recommendation match_score = "Highly recommended connection" <->
    75 <= match_score)) /\
  (compatibility_level match_score = "Poor" <-> match_score < 40) /\
  (compatibility_level match_score = "Excellent" <-> 80 <= match_score).
Proof. bands. Qed.

(** The risk level and the recommended action of a deal always go
    together: low risk with confidence (probability at least 70),
    medium risk with standard precautions (at least 50), high risk with
    additional risk mitigation. *)
Lemma risk_and_action_agree (p : Q) :
  (risk_level p = "Low" /\ recommended_action p = "Proceed with confidence" /\
   70 <= p) \/
  (risk_level p = "Medium" /\
   recommended_action p = "Proceed with standard precautions" /\
   50 <= p < 70) \/
  (risk_level p = "High" /\
   recommended_action p = "Consider additional risk mitigation" /\
   p < 50).
Proof.
  unfold risk_level, recommended_action, py_ge.
  destruct (Qlt_le_dec p 70); [destruct (Qlt_le_dec p 50)|].
  - right; right. repeat split; auto.
  - right; left. repeat split; auto.
  - left. repeat split; auto.
Qed.

Lemma meeting_grade_top (p : Q) : meeting_grade p = "A+" <-> 85 <= p.
Proof. bands. Qed.

End Bands.

Section Handlers.

Import Routes.

Variable noun_phrases : string -> result (list string).

Lemma py_get_object items key d :
  py_get (PDict items) key d = Ok (get (dict_of items) key d).
Proof. reflexivity. Qed.

Lemma py_get_other v key d :
  (forall items, v <> PDict items) -> py_get v key d = Raise AttributeError.
Proof. intros H. destruct v; try reflexivity. now destruct (H d0). Qed.

Lemma predict_meeting_success_without_context items1 items2 context :
  truthy context = false ->
  predict_meeting_success noun_phrases (PDict items1) (PDict items2) context =
  AdvancedMatchingEngine.predict_meeting_success noun_phrases
    (dict_of items1) (dict_of items2) None.
Proof.
  intros Hc.
  unfold predict_meeting_success,
    AdvancedMatchingEngine.predict_meeting_success,
    AdvancedMatchingEngine.meeting_success_body,
    AdvancedMatchingEngine.meeting_context_score,
    AdvancedMatchingEngine.context_given.
  rewrite calculate_match_score_objects, Hc. reflexivity.
Qed.

Lemma predict_meeting_success_range_json user1 user2 context :
  0 <= predict_meeting_success noun_phrases user1 user2 context <= 100.
Proof.
  unfold predict_meeting_success.
  repeat match goal with
         | |- context [mbind _ ?m] =>
             destruct m; cbn [mbind result_bind rbind try_except]; [|lra]
         end.
  apply py_clamp_range. lra.
Qed.

(** X25. On a body whose numbers are finite, [POST /match] answers 500
    when the body is not an object, 400 when [user1] or [user2] is
    missing or false (empty), and otherwise 200 with the match score
    rounded to two digits, still between 0 and 100, and the label and
    recommendation of the unrounded score. *)
Theorem match_route (data : pyval) :
  ((forall items, data <> PDict items) ->
   calculate_match noun_phrases data = Failure 500 "Internal server error") /\
  (forall items,
      data = PDict items ->
      let user1 := get (dict_of items) "user1" (PDict []) in
      let user2 := get (dict_of items) "user2" (PDict []) in
      (truthy user1 = false \/ truthy user2 = false ->
       calculate_match noun_phrases data =
         Failure 400 "Both user1 and user2 data required") /\
      (truthy user1 = true -> truthy user2 = true ->
       let score := calculate_match_score noun_phrases user1 user2 in
       calculate_match noun_phrases data =
         Success {| match_score := py_round score 2;
                    compatibility := compatibility_level score;
                    recommendation := match_recommendation score |} /\
       0 <= py_round score 2 <= 100)).
Proof.
  split.
  - intros H. unfold calculate_match.
    rewrite (py_get_other data "user1" _ H). reflexivity.
  - intros items ->. cbv zeta. unfold calculate_match.
    rewrite !py_get_object. cbn [mbind result_bind rbind]. split.
    + intros [-> | ->]; cbn [negb orb try_except]; [reflexivity|].
      now rewrite orb_true_r.
    + intros -> ->. cbn [negb orb try_except]. split; [reflexivity|].
      apply (py_round_between 0 100).
      apply calculate_match_score_range_json.
Qed.

(** X26. On a body whose numbers are finite, [POST /predict-meeting]
    answers 500 when the body is not an object and otherwise always
    200, whatever the users are, with the grade of the prediction and
    the prediction rounded to one digit, still between 0 and 100.  When
    the request gives no context (or a false one), two users that are
    objects with network values between 0 and the largest float and
    reputations between 0 and 100 never get the grade "A+": their
    prediction is at most 84.65, well below the 85 of that grade. *)
Theorem meeting_route (data : pyval) :
  ((forall items, data <> PDict items) ->
   predict_meeting noun_phrases data = Failure 500 "Internal server error") /\
  (forall items,
      data = PDict items ->
      let user1 := get (dict_of items) "user1" (PDict []) in
      let user2 := get (dict_of items) "user2" (PDict []) in
      let context := get (dict_of items) "context" (PDict []) in
      (exists payload,
          predict_meeting noun_phrases data = Success payload /\
          grade payload =
            meeting_grade (predict_meeting_success noun_phrases user1 user2 context) /\
          0 <= meeting_success_probability payload <= 100) /\
      (forall items1 items2 rep_a rep_b,
          user1 = PDict items1 -> user2 = PDict items2 ->
          truthy context = false ->
          WellFormed.network_value_in_range (dict_of items1) ->
          WellFormed.network_value_in_range (dict_of items2) ->
          as_num (get (dict_of items1) "reputation" (PNum 50)) = Ok rep_a ->
          as_num (get (dict_of items2) "reputation" (PNum 50)) = Ok rep_b ->
          0 <= rep_a <= 100 -> 0 <= rep_b <= 100 ->
          meeting_grade (predict_meeting_success noun_phrases user1 user2 context)
          <> "A+")).
Proof.
  split.
  - intros H. unfold predict_meeting.
    rewrite (py_get_other data "user1" _ H). reflexivity.
  - intros items ->. cbv zeta. split.
    + unfold predict_meeting. rewrite !py_get_object.
      cbn [mbind result_bind rbind try_except].
      eexists. split; [reflexivity|]. cbn [grade meeting_success_probability].
      split; [reflexivity|].
      apply (py_round_between 0 100).
      apply predict_meeting_success_range_json.
    + intros items1 items2 rep_a rep_b -> -> Hc Hn1 Hn2 Ha Hb Hra Hrb Hgrade.
      apply meeting_grade_top in Hgrade.
      rewrite (predict_meeting_success_without_context _ _ _ Hc) in Hgrade.
      pose proof (proj2 (meeting_success_bounds_valid noun_phrases _ _ None
                           rep_a rep_b
                           (network_value_in_range_not_negative _ Hn1)
                           (network_value_in_range_not_negative _ Hn2)
                           Ha Hb Hra Hrb) eq_refl) as Hle.
      lra.
Qed.

End Handlers.

Section StatefulHandlers.

Import Routes.

Variable rng : Type.
Variable np_random_seed : Z -> rng.
Variable np_random_rand : nat -> nat -> rng -> list (list Q) * rng.
Variable np_random_normal_n : Q -> Q -> nat -> rng -> list Q * rng.
Variable estimator : Type.
Variable fit : estimator -> list (list Q) -> list Q -> estimator.
Variable predict : estimator -> list Q -> result Q.

Abbreviation predict_deal :=
  (predict_deal rng np_random_seed np_random_rand np_random_normal_n
     estimator fit predict).
Abbreviation predict_deal_success_json :=
  (predict_deal_success rng np_random_seed np_random_rand np_random_normal_n
     estimator fit predict).

Lemma predict_deal_success_json_range
    (self : DealSuccessPredictor.predictor estimator) g deal_data :
  0 <= DealSuccessPredictor.success_probability
         (predict_deal_success_json self g deal_data).1.1 <= 100.
Proof.
  unfold Routes.predict_deal_success.
  destruct (as_dict deal_data) as [deal|]; [|cbn; lra].
  unfold DealSuccessPredictor.predict_deal_success.
  destruct (DealSuccessPredictor.deal_success_body _ _ _ _ _ _ _ self g deal)
    as [[[pr|e] self'] g'] eqn:Hb; cbn [fst snd try_except]; [|cbn; lra].
  apply deal_success_body_Ok in Hb as (features & sp & _ & ->).
  apply clamped_probability_range.
Qed.

(** X27. [POST /predict-deal] answers 400 when the body is false
    ([null], an empty object) and otherwise always 200, with a
    probability between 0 and 100 and a risk level and an action that
    go together.  A body that is true but not an object gets the
    default prediction (50.0), reported as medium risk, and changes
    neither the predictor nor the generator. *)
Theorem deal_route (self : DealSuccessPredictor.predictor estimator) g
    (deal_data : pyval) :
  (truthy deal_data = false ->
   predict_deal self g deal_data = (Failure 400 "Deal data required", self, g)) /\
  (truthy deal_data = true ->
   exists payload self' g',
     predict_deal self g deal_data = (Success payload, self', g') /\
     (prediction payload, self', g') = predict_deal_success_json self g deal_data /\
     let p := DealSuccessPredictor.success_probability (prediction payload) in
     0 <= p <= 100 /\
     ((risk payload = "Low" /\ action payload = "Proceed with confidence" /\
       70 <= p) \/
      (risk payload = "Medium" /\
       action payload = "Proceed with standard precautions" /\ 50 <= p < 70) \/
      (risk payload = "High" /\
       action payload = "Consider additional risk mitigation" /\ p < 50)) /\
     ((forall items, deal_data <> PDict items) ->
      prediction payload = DealSuccessPredictor.default_prediction /\
      self' = self /\ g' = g /\ risk payload = "Medium")).
Proof.
  split; intros Ht; unfold Routes.predict_deal; rewrite Ht; cbn [negb];
    [reflexivity|].
  pose proof (predict_deal_success_json_range self g deal_data) as Hrange.
  destruct (predict_deal_success_json self g deal_data) as [[pr self'] g'] eqn:E.
  cbn [fst snd] in Hrange. cbn [try_except].
  eexists _, self', g'. split; [reflexivity|].
  cbn [prediction risk action]. split; [reflexivity|]. cbv zeta.
  split; [exact Hrange|]. split; [apply risk_and_action_agree|].
  intros Hno. unfold Routes.predict_deal_success in E.
  destruct deal_data; try (now destruct (Hno d));
    cbn [as_dict] in E; injection E as <- <- <-; repeat split.
Qed.

Lemma opportunities_at_most_three (profile : pydict) :
  (length (MarketIntelligenceEngine.predict_business_opportunities profile) <= 3)%nat.
Proof.
  unfold MarketIntelligenceEngine.predict_business_opportunities,
    MarketIntelligenceEngine.opportunities_body.
  destruct (py_lower (get profile "industry" (PStr ""))) as [il|];
    cbn [mbind result_bind rbind try_except]; [|cbn; lia].
  destruct (MarketIntelligenceEngine.py_gt _ 10000) as [big|];
    cbn [mbind result_bind rbind try_except]; [|cbn; lia].
  destruct (PyStr.contains "technology" il); destruct big; vm_compute; lia.
Qed.

(** X28. [POST /opportunities] answers 400 when the body is false and
    otherwise 200 with the opportunities of the profile, their count
    (at most three) and a next refresh 24 hours after its clock
    reading; a body that is true but not an object gets an empty
    list. *)
Theorem opportunities_route (user_profile : pyval) (generated refreshed : Z) :
  (truthy user_profile = false ->
   generate_opportunities user_profile generated refreshed =
     Failure 400 "User profile required") /\
  (truthy user_profile = true ->
   exists payload,
     generate_opportunities user_profile generated refreshed = Success payload /\
     opportunities payload = predict_business_opportunities user_profile /\
     total_count payload = length (opportunities payload) /\
     (total_count payload <= 3)%nat /\
     generated_at payload = generated /\
     next_refresh payload = (refreshed + 86400000000)%Z /\
     (forall items,
         user_profile = PDict items ->
         opportunities payload =
           MarketIntelligenceEngine.predict_business_opportunities (dict_of items)) /\
     ((forall items, user_profile <> PDict items) -> opportunities payload = [])).
Proof.
  split; intros Ht; unfold generate_opportunities; rewrite Ht;
    cbn [negb try_except]; [reflexivity|].
  eexists. split; [reflexivity|].
  cbn [opportunities total_count generated_at next_refresh].
  repeat split.
  - unfold predict_business_opportunities.
    destruct (as_dict user_profile) as [d|];
      cbn [mbind result_bind rbind try_except]; [|cbn; lia].
    apply opportunities_at_most_three.
  - intros items ->. reflexivity.
  - intros Hno. unfold predict_business_opportunities.
    destruct user_profile; try reflexivity. now destruct (Hno d).
Qed.

End StatefulHandlers.

Section TrendsRoute.

Import Routes MarketIntelligenceEngine Derived.

Variable rng : Type.
Variable np_random_normal : Q -> Q -> rng -> Q * rng.

Abbreviation get_market_trends := (get_market_trends rng np_random_normal).

(** X29. [GET /market-trends] always answers 200.  The analysis runs for
    the industry of the query, "technology" when there is none; the
    bundle of the answer is the one stored under the key afterwards
    and, on a cache whose bundles carry the time of their entry, it
    carries the time of its entry too: it is never the default bundle
    of a failed analysis. *)
Theorem trends_route (self : cache) g industry_arg location_arg now generated :
  Spec.stamped self ->
  exists payload entry,
    (get_market_trends self g industry_arg location_arg now generated).1.1
      = Success payload /\
    trends_industry payload = default "technology" industry_arg /\
    trends_generated_at payload = generated /\
    (get_market_trends self g industry_arg location_arg now generated).1.2
      !! key_of (Some (default "technology" industry_arg)) location_arg
      = Some entry /\
    data entry = trends_data payload /\
    lastUpdated (trends_data payload) = Some (timestamp entry) /\
    trends_data payload <> _get_default_trends /\
    Spec.stamped
      (get_market_trends self g industry_arg location_arg now generated).1.2.
Proof.
  intros Hs. unfold Routes.get_market_trends.
  set (industry := default "technology" industry_arg).
  destruct (analyze_text_industry_entry rng np_random_normal self g now
              industry location_arg) as (entry & Hk & Hd & _).
  pose proof (analyze_keeps_stamped rng np_random_normal self g now
                (Some industry) location_arg Hs) as Hs'.
  destruct (analyze_market_trends rng np_random_normal self g now
              (Some industry) location_arg) as [[t self'] g'].
  cbn [fst snd try_except] in *.
  eexists _, entry. split; [reflexivity|].
  cbn [trends_industry trends_generated_at trends_data].
  pose proof (Hs' _ _ Hk) as Hstamp. rewrite Hd in Hstamp.
  repeat split; auto.
  intros Hdef. rewrite Hdef in Hstamp. discriminate.
Qed.

End TrendsRoute.

Section RouteExamples.

Import Routes MarketIntelligenceEngine Derived Sample.

Lemma trends_route_witness :
  exists payload entry,
    (get_market_trends nat constant_normal __init__ 0%nat None (Some "Oslo")
       1000 1001).1.1 = Success payload /\
    trends_industry payload = "technology" /\
    trends_generated_at payload = 1001%Z /\
    (get_market_trends nat constant_normal __init__ 0%nat None (Some "Oslo")
       1000 1001).1.2 !! "technology_Oslo" = Some entry /\
    data entry = trends_data payload /\
    lastUpdated (trends_data payload) = Some (timestamp entry) /\
    trends_data payload <> _get_default_trends /\
    Spec.stamped
      (get_market_trends nat constant_normal __init__ 0%nat None (Some "Oslo")
         1000 1001).1.2.
Proof.
  apply (trends_route nat constant_normal __init__ 0%nat None (Some "Oslo")
           1000 1001).
  intros k e. unfold __init__. rewrite lookup_empty. discriminate.
Defined.

End RouteExamples.

Section HandlerExamples.

Import Routes Sample.

Lemma engine_on_json_values_witness :
  calculate_match_score words_as_phrases (PStr "founder") (PDict []) = 0.0 /\
  predict_meeting_success words_as_phrases (PStr "founder") (PDict []) PNone = 50.0.
Proof.
  apply (engine_on_json_values words_as_phrases (PStr "founder") (PDict []) PNone).
  left. intros items H. discriminate H.
Defined.

Lemma match_route_witness :
  calculate_match words_as_phrases
    (PDict [("user1", PDict [("industry", PStr "finance")])])
  = Failure 400 "Both user1 and user2 data required".
Proof.
  apply (proj2 (match_route words_as_phrases
                  (PDict [("user1", PDict [("industry", PStr "finance")])]))
           [("user1", PDict [("industry", PStr "finance")])] eq_refl).
  right. vm_compute. reflexivity.
Defined.

Lemma meeting_route_witness :
  predict_meeting words_as_phrases (PList [PNum 1]) =
  Failure 500 "Internal server error".
Proof.
  apply (meeting_route words_as_phrases (PList [PNum 1])).
  intros items H. discriminate H.
Defined.

Lemma deal_route_witness :
  predict_deal nat toy_seed toy_rand toy_normal_n (option Q) toy_fit toy_predict
    (DealSuccessPredictor.__init__ (option Q) toy_estimator) 7%nat (PDict [])
  = (Failure 400 "Deal data required",
     DealSuccessPredictor.__init__ (option Q) toy_estimator, 7%nat).
Proof.
  apply (deal_route nat toy_seed toy_rand toy_normal_n (option Q) toy_fit
           toy_predict (DealSuccessPredictor.__init__ (option Q) toy_estimator)
           7%nat (PDict [])).
  reflexivity.
Defined.

Lemma opportunities_route_witness :
  generate_opportunities PNone 10 11 = Failure 400 "User profile required".
Proof.
  apply (opportunities_route PNone 10 11). reflexivity.
Defined.

End HandlerExamples.

(** * Seniority of a title that holds another *)

Section SeniorityOrder.

Import AdvancedMatchingEngine.

Lemma contains_trans a b c :
  PyStr.contains a b = true -> PyStr.contains b c = true ->
  PyStr.contains a c = true.
Proof.
  rewrite !contains_spec. intros (p1 & q1 & ->) (p2 & q2 & ->).
  exists (p2 ++ p1)%string, (q1 ++ q2)%string.
  now rewrite !append_assoc.
Qed.

Lemma keywords_carry_over ws a b :
  PyStr.contains a b = true ->
  existsb (fun w => PyStr.contains w a) ws = true ->
  existsb (fun w => PyStr.contains w b) ws = true.
Proof.
  intros Hab. rewrite !existsb_exists. intros (w & Hin & Hw).
  exists w. split; [exact Hin|]. exact (contains_trans _ _ _ Hw Hab).
Qed.

Lemma first_matching_tier_monotone a b :
  PyStr.contains a b = true ->
  (Spec.first_matching_tier Spec.tier_keywords a
   <= Spec.first_matching_tier Spec.tier_keywords b)%Z.
Proof.
  intros Hab. cbn [Spec.first_matching_tier Spec.tier_keywords].
  pose proof (keywords_carry_over ["ceo"; "founder"; "president"; "owner"] a b Hab) as H5.
  pose proof (keywords_carry_over ["director"; "vp"; "head"] a b Hab) as H4.
  pose proof (keywords_carry_over ["manager"; "lead"; "principal"] a b Hab) as H3.
  pose proof (keywords_carry_over ["senior"; "sr"] a b Hab) as H2.
  destruct (existsb _ ["ceo"; "founder"; "president"; "owner"]) eqn:A5;
    [rewrite (H5 eq_refl); lia|].
  destruct (existsb (fun w => PyStr.contains w b)
              ["ceo"; "founder"; "president"; "owner"]); [
    repeat match goal with |- context [if ?c then _ else _] => destruct c end; lia|].
  destruct (existsb _ ["director"; "vp"; "head"]) eqn:A4;
    [rewrite (H4 eq_refl); lia|].
  destruct (existsb (fun w => PyStr.contains w b) ["director"; "vp"; "head"]); [
    repeat match goal with |- context [if ?c then _ else _] => destruct c end; lia|].
  destruct (existsb _ ["manager"; "lead"; "principal"]) eqn:A3;
    [rewrite (H3 eq_refl); lia|].
  destruct (existsb (fun w => PyStr.contains w b) ["manager"; "lead"; "principal"]); [
    repeat match goal with |- context [if ?c then _ else _] => destruct c end; lia|].
  destruct (existsb _ ["senior"; "sr"]) eqn:A2;
    [rewrite (H2 eq_refl); lia|].
  destruct (existsb (fun w => PyStr.contains w b) ["senior"; "sr"]); lia.
Qed.

(** X30. The seniority level of a title is between 1 and 5, and a title
    that holds another one (up to case) is at least as senior: adding
    words to a title never lowers its level. *)
Theorem seniority_grows_with_the_title (title longer : string) level level' :
  PyStr.contains (PyStr.lower title) (PyStr.lower longer) = true ->
  _extract_seniority_level (PStr title) = Ok level ->
  _extract_seniority_level (PStr longer) = Ok level' ->
  (1 <= level <= level')%Z /\ (level' <= 5)%Z.
Proof.
  intros Hc. rewrite !extract_seniority_level_spec. intros [= <-] [= <-].
  pose proof (seniority_tier_range title).
  pose proof (seniority_tier_range longer).
  pose proof (first_matching_tier_monotone _ _ Hc).
  unfold Spec.seniority_tier in *. lia.
Qed.

Lemma seniority_grows_with_the_title_witness :
  (1 <= 3 <= 4)%Z /\ (4 <= 5)%Z.
Proof.
  apply (seniority_grows_with_the_title "Manager" "Regional Manager, Head of Sales");
    vm_compute; reflexivity.
Defined.

End SeniorityOrder.
